(** * GlucoTwin: the GDM prediction service and the data shaper

    A shallow embedding of [src/app.py] (class [GDMPredictor], its
    construction and the four handlers) and of
    [src/python-scripts/dataset-shaper.py] ([process_gdm_data]), with the
    properties of the natural-language specification stated over it, and
    further properties that the code shows.

    Conventions of the embedding.
    - A JSON / Python value is a [value].  A number is the rational ([Q])
      that it holds; the float [nan] is the separate constructor [VNaN].
      The one float operation of the code, the product [p * 100], is
      rounded by a parameter, [float_round]; overflow is not modelled.
    - A Python [str] is the [string] of its UTF-8 bytes.
    - A Python [dict] whose iteration order matters is an association list
      with one entry per key, in insertion order ([pydict]).  The three
      categorical lookup tables are only ever read by key and are finite
      maps ([gmap string Z]).
    - The pickled model and scaler are third-party objects: they are records
      of functions, and every theorem quantifies over them.
    - pandas and numpy calls are modelled by what they do on the single-row
      frames of the service and on the sheets of the shaper; the comment of
      each definition names the call it stands for.
    - Log records and calls into the model and the scaler are events of a
      trace; the file system is a state.  What the programs print is left
      out. *)

From Stdlib Require Import QArith Qround Qabs ZArith Lia Ascii String List Permutation Sorted.
From Stdlib Require Import DecimalString.
From stdpp Require Import gmap strings list.

Open Scope string_scope.
Open Scope list_scope.

(** ** Python values *)

#[local] Set Warnings "-register-all".

Inductive value :=
| VNum (q : Q)                          (* int or float *)
| VNaN                                  (* float nan *)
| VBool (b : bool)
| VStr (s : string)
| VNone                                 (* None / JSON null *)
| VList (xs : list value)               (* JSON array *)
| VDict (kvs : list (string * value)).  (* JSON object *)

(** Exceptions carry the text that [str(e)] returns. *)
Inductive exn :=
| ValueError (msg : string)
| TypeError (msg : string)
| KeyError (msg : string)
| IndexError (msg : string)
| OSError (msg : string)
| InvalidIndexError (msg : string).

Definition str (e : exn) : string :=
  match e with
  | ValueError m | TypeError m | KeyError m
  | IndexError m | OSError m | InvalidIndexError m => m
  end.

(** ** Ordered dictionaries *)

Abbreviation pydict := (list (string * value)).

Section Labelled.
Context {A : Type}.

(** [d.get(k)], [k in d] *)
Fixpoint dict_get (k : string) (d : list (string * A)) : option A :=
  match d with
  | [] => None
  | (k', v) :: d' => if String.eqb k k' then Some v else dict_get k d'
  end.

Definition dict_mem (k : string) (d : list (string * A)) : bool :=
  match dict_get k d with Some _ => true | None => false end.

(** [d[k] = v]: overwrite in place, or append a new key at the end *)
Fixpoint dict_set (k : string) (v : A) (d : list (string * A)) : list (string * A) :=
  match d with
  | [] => [(k, v)]
  | (k', v') :: d' =>
      if String.eqb k k' then (k', v) :: d' else (k', v') :: dict_set k v d'
  end.

Definition keys (d : list (string * A)) : list string := map fst d.
End Labelled.

(** ** The prediction service ([src/app.py]) *)

Module Service.

(** *** Effects: the log, the calls into the pickled objects, exceptions *)

Inductive event :=
| LogInfo (msg : string)
| LogWarning (msg : string)
| LogError (msg : string)
| CallTransform (X : pydict)       (* scaler.transform(X) *)
| CallPredict (X : pydict)         (* model.predict(X) *)
| CallPredictProba (X : pydict).   (* model.predict_proba(X) *)

(** A computation yields the events it emitted, in order, and either the
    exception it raised or its value. *)
Definition M (A : Type) : Type := list event * (exn + A).

Definition ret {A} (a : A) : M A := ([], inr a).
Definition raise {A} (e : exn) : M A := ([], inl e).
Definition emit (ev : event) : M unit := ([ev], inr tt).
Definition lift {A} (r : exn + A) : M A := ([], r).

Definition bind {A B} (m : M A) (k : A -> M B) : M B :=
  match m with
  | (t, inl e) => (t, inl e)
  | (t, inr a) => let (t', r) := k a in (t ++ t', r)
  end.

(** [try: m  except Exception as e: h e] *)
Definition try_except {A} (m : M A) (h : exn -> M A) : M A :=
  match m with
  | (t, inl e) => let (t', r) := h e in (t ++ t', r)
  | (t, inr a) => (t, inr a)
  end.

Declare Scope py_scope.
Delimit Scope py_scope with py.
Notation "x <- m ;; k" := (bind m (fun x => k))
  (at level 100, m at next level, right associativity) : py_scope.
Notation "m ;;; k" := (bind m (fun _ => k))
  (at level 100, right associativity) : py_scope.
Open Scope py_scope.

(** *** The pickled objects *)

(** A fitted scaler: [feature_names_in_] exists only when it was fitted on a
    frame with string column names; [transform] returns one output row. *)
Record Scaler := {
  feature_names_in_ : option (list string);
  transform : pydict -> exn + list Q
}.

(** A fitted classifier. [predict] and [predict_proba] return arrays with
    one entry per input row. *)
Record Classifier := {
  model_predict : pydict -> exn + list Z;
  model_predict_proba : pydict -> exn + list (list Q);
  feature_importances_ : list Q
}.

(** The attributes of a [GDMPredictor] after [__init__]: [load_model] and
    [load_scaler] leave [None] when the pickle is absent or unreadable. *)
Record GDMPredictor := {
  model : option Classifier;
  scaler : option Scaler
}.

(** [self.feature_columns], set once in [__init__] *)
Definition feature_columns : list string :=
  [ "oneHourGlucose"; "bpSystolic"; "bmiBaseline"; "fastingBloodGlucose";
    "weightKg"; "pulseHeartRate"; "hypertensiveDisorders"; "typeOfTreatment";
    "twoHourGlucose"; "nationality"; "ageYears"; "bpDiastolic"; "height";
    "weightGainDuringPregnancy" ].

(** *** [preprocess_input] *)

Definition mapping : list (string * string) :=
  [ ("oneHourGlucose", "oneHourGlucose");
    ("bpSystolic", "bpSystolic");
    ("bmiBaseline", "bmiBaseline");
    ("fastingBloodGlucose", "fastingBloodGlucose");
    ("weightKg", "weightKg");
    ("pulseHeartRate", "pulseHeartRate");
    ("hypertensiveDisorders", "hypertensiveDisorders");
    ("typeOfTreatment", "typeOfTreatment");
    ("twoHourGlucose", "twoHourGlucose");
    ("nationality", "nationality");
    ("ageYears", "ageYears");
    ("bpDiastolic", "bpDiastolic");
    ("height", "height");
    ("weightGainDuringPregnancy", "weightGainDuringPregnancy") ].

Definition numerical_columns : list string :=
  [ "oneHourGlucose"; "bpSystolic"; "bmiBaseline"; "fastingBloodGlucose";
    "weightKg"; "pulseHeartRate"; "twoHourGlucose"; "ageYears";
    "bpDiastolic"; "height"; "weightGainDuringPregnancy" ].

(** The three lookup tables of [categorical_mappings] *)
Definition hypertension_table : gmap string Z :=
  list_to_map
    [ ("No", 0); ("no", 0); ("NO", 0); ("Nil", 0);
      ("Yes", 1); ("yes", 1); ("Yes ", 1) ]%Z.

Definition treatment_table : gmap string Z :=
  list_to_map
    [ ("No Treatment", 0);
      ("Metformin", 1); ("metformin", 1); ("metformin ", 1);
      ("Metformin ", 1); ("MetFORMIN", 1);
      ("750, 500, 750", 2); ("yes 1000BD", 2); ("yes 500 od", 2);
      ("yes", 2) ]%Z.

Definition nationality_table : gmap string Z :=
  list_to_map
    [ ("UAE", 0); ("India", 1); ("Lebanon", 2); ("Sudan", 3);
      ("United States", 4); ("Comoros", 5); ("Oman", 6); ("Iran", 7);
      ("Philippenes", 8); ("United Kingdom", 9); ("Philippines", 8);
      ("Pakistan", 10); ("Bangladesh", 11); ("Egypt", 12); ("Jordan", 13);
      ("Syria", 14); ("Morocco", 15); ("Yemen", 16); ("Somalia", 17) ]%Z.

Definition categorical_mappings : list (string * gmap string Z) :=
  [ ("hypertensiveDisorders", hypertension_table);
    ("typeOfTreatment", treatment_table);
    ("nationality", nationality_table) ].

Section Preprocess.

(** The string-to-number parser of [pd.to_numeric]: [None] for a string
    that pandas cannot read as a number. *)
Variable parse_number : string -> option Q.

(** The rounding of a real number to the float format in which
    [p * 100] is computed (numpy's float32 or float64, by its version):
    the product of two floats is the rounding of their exact product, and
    [float(...)] of it is exact. *)
Variable float_round : Q -> Q.

(** [pd.to_numeric(s, errors='coerce')] on the one cell of a column: a
    number or a boolean column is returned as it is; in an object column
    a string is parsed, and whatever cannot be read becomes [nan]. *)
Definition to_numeric (v : value) : value :=
  match v with
  | VNum q => VNum q
  | VNaN => VNaN
  | VBool b => VBool b
  | VStr s => match parse_number s with Some q => VNum q | None => VNaN end
  | VNone | VList _ | VDict _ => VNaN
  end.

(** [s.fillna(0)] on one cell *)
Definition fillna0 (v : value) : value :=
  match v with
  | VNaN | VNone => VNum 0
  | _ => v
  end.

(** Lists and dicts have no hash. *)
Definition hashable (v : value) : bool :=
  match v with VList _ | VDict _ => false | _ => true end.

(** [s.map(table)] on one cell: the cell is looked up among the keys of
    [table], which hashes it; a key that is absent gives [nan]. *)
Definition series_map (table : gmap string Z) (v : value) : exn + value :=
  match v with
  | VStr s =>
      inr (match table !! s with
           | Some n => VNum (inject_Z n)
           | None => VNaN
           end)
  | VList _ => inl (TypeError "unhashable type: 'list'")
  | VDict _ => inl (TypeError "unhashable type: 'dict'")
  | VNum _ | VNaN | VBool _ | VNone => inr VNaN
  end.

(** Lines 97-100: copy the known keys under their model names, in the
    order of [mapping]. *)
Definition rename_fields (patient_data : pydict) : pydict :=
  fold_left
    (fun processed_data '(frontend_key, model_key) =>
       match dict_get frontend_key patient_data with
       | Some v => dict_set model_key v processed_data
       | None => processed_data
       end)
    mapping [].

(** Lines 110-112 *)
Definition coerce_numerical (gdm_df : pydict) : pydict :=
  fold_left
    (fun df col =>
       match dict_get col df with
       | Some v => dict_set col (fillna0 (to_numeric v)) df
       | None => df
       end)
    numerical_columns gdm_df.

(** [s.map(table).fillna(0)] on one cell *)
Definition recode (table : gmap string Z) (v : value) : exn + value :=
  match series_map table v with
  | inl e => inl e
  | inr v' => inr (fillna0 v')
  end.

(** Lines 139-140, for one entry of [categorical_mappings]; an exception
    raised by an earlier entry ends the loop. *)
Definition recode_column (acc : exn + pydict) (entry : string * gmap string Z)
  : exn + pydict :=
  match acc with
  | inl e => inl e
  | inr df =>
      match dict_get (fst entry) df with
      | Some v =>
          match recode (snd entry) v with
          | inl e => inl e
          | inr v' => inr (dict_set (fst entry) v' df)
          end
      | None => inr df
      end
  end.

(** Lines 138-140 *)
Definition apply_categorical (gdm_df : pydict) : exn + pydict :=
  fold_left recode_column categorical_mappings (inr gdm_df).

(** Lines 143-145 *)
Definition add_missing (gdm_df : pydict) : pydict :=
  fold_left
    (fun df col => if dict_mem col df then df else dict_set col (VNum 0) df)
    feature_columns gdm_df.

(** [df[cols]]: the listed columns in the listed order *)
Fixpoint select_columns (cols : list string) (df : pydict) : exn + pydict :=
  match cols with
  | [] => inr []
  | c :: cols' =>
      match dict_get c df with
      | None => inl (KeyError c)
      | Some v =>
          match select_columns cols' df with
          | inl e => inl e
          | inr r => inr ((c, v) :: r)
          end
      end
  end.

(** Lines 77-148: the frame handed to the scaling step, as its one row.
    (The frame built at line 77 is replaced at line 102 before it is read.) *)
Definition aligned_frame (patient_data : pydict) : exn + pydict :=
  let processed_data := rename_fields patient_data in
  let gdm_df := coerce_numerical processed_data in
  match apply_categorical gdm_df with
  | inl e => inl e
  | inr gdm_df => select_columns feature_columns (add_missing gdm_df)
  end.

(** Column [c] of [aligned_frame] in closed form (see
    [aligned_frame_closed_form]): 0 for an absent key, the coerced number
    for a numerical column, the recoded category otherwise. *)
Definition column_value (patient_data : pydict) (c : string) : value :=
  match dict_get c patient_data with
  | None => VNum 0
  | Some v =>
      if bool_decide (c ∈ numerical_columns) then fillna0 (to_numeric v)
      else
        match dict_get c categorical_mappings with
        | Some table =>
            match recode table v with
            | inr v' => v'
            | inl _ => VNum 0
            end
        | None => v
        end
  end.

(** [scaler.transform(X)]: the call is recorded, then it returns or raises *)
Definition call_transform (s : Scaler) (X : pydict) : M (list Q) :=
  emit (CallTransform X) ;;; lift (transform s X).

(** [pd.DataFrame(arr, columns=cols)] for a one-row array: the widths
    must agree.  (The text of library exceptions is abbreviated.) *)
Definition frame_of_array (arr : list Q) (cols : list string) : exn + pydict :=
  if (length arr =? length cols)%nat
  then inr (combine cols (map VNum arr))
  else inl (ValueError "Shape of passed values does not match the columns").

(** [df[cols] = arr] for a one-row array *)
Definition assign_columns (cols : list string) (arr : list Q) (df : pydict)
  : exn + pydict :=
  if (length arr =? length cols)%nat
  then inr (fold_left (fun df '(c, x) => dict_set c (VNum x) df)
                      (combine cols arr) df)
  else inl (ValueError "Columns must be same length as key").

(** [hasattr(scaler, 'feature_names_in_') and
     len(scaler.feature_names_in_) == len(self.feature_columns)] *)
Definition fitted_on_all_features (s : Scaler) : bool :=
  match feature_names_in_ s with
  | Some names => (length names =? length feature_columns)%nat
  | None => false
  end.

(** Lines 150-171 *)
Definition apply_scaling (self : GDMPredictor) (gdm_df : pydict) : M pydict :=
  match scaler self with
  | Some s =>
      try_except
        (if fitted_on_all_features s then
           arr <- call_transform s gdm_df ;;
           gdm_df_scaled <- lift (frame_of_array arr (keys gdm_df)) ;;
           emit (LogInfo "Applied scaling to all features") ;;;
           ret gdm_df_scaled
         else
           X <- lift (select_columns numerical_columns gdm_df) ;;
           arr <- call_transform s X ;;
           gdm_df_copy <- lift (assign_columns numerical_columns arr gdm_df) ;;
           emit (LogInfo "Applied scaling to numerical features only") ;;;
           ret gdm_df_copy)
        (fun e =>
           emit (LogWarning ("Could not apply pre-trained scaler: "
                             +:+ str e +:+ ". Skipping scaling.")) ;;;
           ret gdm_df)
  | None =>
      emit (LogInfo "No pre-trained scaler available, skipping scaling") ;;;
      ret gdm_df
  end.

(** The frames on which [scaler.transform] was called, in order *)
Definition transform_calls (t : list event) : list pydict :=
  flat_map (fun ev => match ev with CallTransform X => [X] | _ => [] end) t.

(** [len(scaler.feature_names_in_)], when the attribute exists *)
Definition recorded_feature_count (s : Scaler) : option nat :=
  length <$> feature_names_in_ s.

Definition preprocess_input (self : GDMPredictor) (patient_data : pydict)
  : M pydict :=
  try_except
    (gdm_df <- lift (aligned_frame patient_data) ;;
     apply_scaling self gdm_df)
    (fun e =>
       emit (LogError ("Error preprocessing data: " +:+ str e)) ;;;
       raise (ValueError ("Data preprocessing failed: " +:+ str e))).

(** *** [sendFI] *)

(** [sort_values(by="Importance", ascending=False)]: rows in descending
    order of importance.  The order among rows of equal importance is left
    to numpy's sort; here they keep their order. *)
Fixpoint insert_desc (x : string * Q) (l : list (string * Q)) : list (string * Q) :=
  match l with
  | [] => [x]
  | y :: l' => if Qle_bool (snd y) (snd x) then x :: y :: l'
               else y :: insert_desc x l'
  end.

Definition sort_values_desc (l : list (string * Q)) : list (string * Q) :=
  fold_right insert_desc [] l.

(** Importances never increase along the list. *)
Definition descending (l : list (string * Q)) : Prop :=
  StronglySorted (fun a b => (snd b <= snd a)%Q) l.

(** The frame with columns "Features" and "Importance", as its rows. The
    frame constructor refuses columns of different lengths. *)
Definition sendFI (m : Classifier) : exn + list (string * Q) :=
  if (length feature_columns =? length (feature_importances_ m))%nat
  then inr (sort_values_desc (combine feature_columns (feature_importances_ m)))
  else inl (ValueError "All arrays must be of the same length").

(** *** [predict] *)

Record result := {
  prediction : string;
  confidence : Q;
  gdm_probability : Q;
  factors : list string;
  model_version : string
}.

(** [arr[0]] *)
Definition first {A} (arr : list A) : exn + A :=
  match arr with
  | x :: _ => inr x
  | [] => inl (IndexError "index 0 is out of bounds for axis 0 with size 0")
  end.

(** The builtin [max] of a sequence: the first of the largest items *)
Definition py_max (xs : list Q) : exn + Q :=
  match xs with
  | [] => inl (ValueError "max() arg is an empty sequence")
  | x :: xs' => inr (fold_left (fun m y => if Qle_bool y m then m else y) xs' x)
  end.

(** Rounding of [x] to the nearest integer, ties to the even one *)
Definition round_half_even (x : Q) : Z :=
  let n := Qnum x in
  let d := Z.pos (Qden x) in
  let f := (n / d)%Z in
  match (2 * (n mod d) ?= d)%Z with
  | Lt => f
  | Gt => (f + 1)%Z
  | Eq => if Z.even f then f else (f + 1)%Z
  end.

(** [round(x, 2)] of a float: Python rounds the exact value of [x] to the
    nearest multiple of 1/100, ties to even, and returns the float nearest
    to it, which prints as that decimal. *)
Definition round2 (x : Q) : Q := round_half_even (x * 100)%Q # 100.

Definition call_predict (m : Classifier) (X : pydict) : M (list Z) :=
  emit (CallPredict X) ;;; lift (model_predict m X).

Definition call_predict_proba (m : Classifier) (X : pydict) : M (list (list Q)) :=
  emit (CallPredictProba X) ;;; lift (model_predict_proba m X).

Definition not_loaded : exn :=
  ValueError "Model is not loaded, maybe model.pkl does not exist in your dir".

Definition predict (self : GDMPredictor) (patient_data : pydict) : M result :=
  match model self with
  | None => raise not_loaded
  | Some m =>
      try_except
        (processed_data <- preprocess_input self patient_data ;;
         labels <- call_predict m processed_data ;;
         prediction <- lift (first labels) ;;
         probas <- call_predict_proba m processed_data ;;
         prediction_proba <- lift (first probas) ;;
         top <- lift (py_max prediction_proba) ;;
         let confidence := float_round (top * 100)%Q in
         let gdm_probability :=
           if (1 <? length prediction_proba)%nat
           then float_round (nth 1%nat prediction_proba 0 * 100)%Q
           else 0%Q in
         importance <- lift (sendFI m) ;;
         let FS := firstn 5 (map fst importance) in
         ret {| prediction :=
                  if (prediction =? 1)%Z then "GDM Risk" else "No GDM Risk";
                confidence := round2 confidence;
                gdm_probability := round2 gdm_probability;
                factors := FS;
                model_version := "1.0" |})
        (fun e =>
           emit (LogError ("Prediction error: " +:+ str e)) ;;;
           raise (ValueError ("Prediction failed: " +:+ str e)))
  end.

(** *** Predicates on requests, for the statements below *)

(** Every categorical field that is present holds a scalar. *)
Definition categorical_scalars (d : pydict) : Prop :=
  forall c v, c ∈ keys categorical_mappings -> dict_get c d = Some v ->
              hashable v = true.

(** A value that [pd.to_numeric] cannot read as a number: a string that
    does not parse, null, an array, an object. *)
Definition unparseable (v : value) : Prop :=
  match v with
  | VStr s => parse_number s = None
  | VNone | VList _ | VDict _ => True
  | VNum _ | VNaN | VBool _ => False
  end.

(** A JSON scalar that is not a string: a number, a boolean, null. *)
Definition non_string_scalar (v : value) : Prop :=
  match v with
  | VNum _ | VNaN | VBool _ | VNone => True
  | VStr _ | VList _ | VDict _ => False
  end.

End Preprocess.

End Service.

(** ** The data shaper ([src/python-scripts/dataset-shaper.py]) *)

Module Shaper.

(** *** Frames *)

(** A frame is its column labels and its rows, every cell under its
    label.  Labels may repeat: pandas allows it, and stripping the header
    can produce it. *)
Record DataFrame := {
  columns : list string;
  rows : list (list (string * value))
}.

(** Every row has exactly the cells of the header. *)
Definition well_formed (df : DataFrame) : Prop :=
  Forall (fun r => keys r = columns df) (rows df).

(** A frame operation that treats the header and every row alike *)
Definition on_columns (f : forall A, list (string * A) -> list (string * A))
    (df : DataFrame) : DataFrame :=
  {| columns := keys (f unit (map (fun c => (c, tt)) (columns df)));
     rows := map (f value) (rows df) |}.

(** [str.strip()].  A [string] holds the UTF-8 bytes of a Python [str].
    Python's white space is U+0009-000D and U+001C-0020 (one byte each),
    U+0085 and U+00A0 (two bytes), and U+1680, U+2000-200A, U+2028, U+2029,
    U+202F, U+205F and U+3000 (three bytes). *)
Definition is_space (a : ascii) : bool :=
  let n := nat_of_ascii a in
  ((9 <=? n) && (n <=? 13) || (28 <=? n) && (n <=? 32))%nat.

Definition is_space2 (a b : ascii) : bool :=
  let x := nat_of_ascii a in
  let y := nat_of_ascii b in
  ((x =? 194) && ((y =? 133) || (y =? 160)))%nat.

Definition is_space3 (a b c : ascii) : bool :=
  let x := nat_of_ascii a in
  let y := nat_of_ascii b in
  let z := nat_of_ascii c in
  ((x =? 225) && (y =? 154) && (z =? 128)
   || (x =? 226) && (y =? 128)
      && ((128 <=? z) && (z <=? 138) || (z =? 168) || (z =? 169) || (z =? 175))
   || (x =? 226) && (y =? 129) && (z =? 159)
   || (x =? 227) && (y =? 128) && (z =? 128))%nat.

(** White space off the front of the bytes *)
Fixpoint lstrip (s : list ascii) : list ascii :=
  match s with
  | [] => []
  | a :: s1 =>
      if is_space a then lstrip s1
      else
        match s1 with
        | [] => s
        | b :: s2 =>
            if is_space2 a b then lstrip s2
            else
              match s2 with
              | [] => s
              | c :: s3 => if is_space3 a b c then lstrip s3 else s
              end
        end
  end.

(** The same off the front of the reversed bytes, where every character
    comes last byte first *)
Fixpoint rstrip_reversed (s : list ascii) : list ascii :=
  match s with
  | [] => []
  | c :: s1 =>
      if is_space c then rstrip_reversed s1
      else
        match s1 with
        | [] => s
        | b :: s2 =>
            if is_space2 b c then rstrip_reversed s2
            else
              match s2 with
              | [] => s
              | a :: s3 => if is_space3 a b c then rstrip_reversed s3 else s
              end
        end
  end.

Definition strip (s : string) : string :=
  string_of_list_ascii
    (List.rev (rstrip_reversed (List.rev (lstrip (list_ascii_of_string s))))).

(** [df.columns = df.columns.astype(str).str.strip()] *)
Definition strip_labels (A : Type) (r : list (string * A)) : list (string * A) :=
  map (fun kv => (strip (fst kv), snd kv)) r.

(** Keep the columns whose label satisfies [keep] *)
Definition restrict (keep : string -> bool) (A : Type) (r : list (string * A))
  : list (string * A) :=
  List.filter (fun kv => keep (fst kv)) r.

(** [df.loc[:, ~df.columns.str.contains('^Unnamed')]] *)
Definition named (c : string) : bool := negb (String.prefix "Unnamed" c).

(** [df.drop(columns=[label])]: every column with that label goes; a label
    that is absent is a [KeyError]. *)
Definition drop (label : string) (df : DataFrame) : exn + DataFrame :=
  if bool_decide (label ∈ columns df)
  then inr (on_columns (restrict (fun c => negb (String.eqb c label))) df)
  else inl (KeyError label).

Definition columns_to_remove : list string :=
  [ "socioeconomic status";
    "Mode of Delivery";
    "HbA1c Levels at Delivery:";
    "HbA1c Levels at Diagnosis (if using insulin):";
    "Gestational Age at Diagnosis of GDM (Months)";
    "Patients" ].

(** Lines 68-71: the matches are collected first, then dropped one by one. *)
Definition drop_matching (col : string) (df : DataFrame) : exn + DataFrame :=
  let matching_cols :=
    List.filter (fun c => String.eqb (strip c) (strip col)) (columns df) in
  fold_left
    (fun acc m => match acc with inl e => inl e | inr df => drop m df end)
    matching_cols (inr df).

(** Lines 66-77 *)
Definition remove_columns (gdm_data ngdm_data : DataFrame)
  : exn + (DataFrame * DataFrame) :=
  fold_left
    (fun acc col =>
       match acc with
       | inl e => inl e
       | inr (g, n) =>
           match drop_matching col g with
           | inl e => inl e
           | inr g' =>
               match drop_matching col n with
               | inl e => inl e
               | inr n' => inr (g', n')
               end
           end
       end)
    columns_to_remove (inr (gdm_data, ngdm_data)).

(** [df[label] = v] with a scalar [v]: every column of that label is
    overwritten; a new label is appended. *)
Definition set_cells (label : string) (v : value) (r : list (string * value))
  : list (string * value) :=
  map (fun kv => if String.eqb (fst kv) label then (fst kv, v) else kv) r.

Definition setitem (label : string) (v : value) (df : DataFrame) : DataFrame :=
  if bool_decide (label ∈ columns df)
  then {| columns := columns df; rows := map (set_cells label v) (rows df) |}
  else {| columns := columns df ++ [label];
          rows := map (fun r => r ++ [(label, v)]) (rows df) |}.

(** Lines 81-82 *)
Definition add_treatment (ngdm_data : DataFrame) : DataFrame :=
  if bool_decide ("Type of treatment" ∈ columns ngdm_data) then ngdm_data
  else setitem "Type of treatment" (VStr "No Treatment") ngdm_data.

(** [list(set(a) & set(b))]: each common label once, in the order in which
    the set yields them. *)
Definition common (a b : list string) : list string :=
  elements ((list_to_set a : gset string) ∩ list_to_set b).

(** [df[labels]]: for every label in turn, all the columns that carry it *)
Definition pick (labels : list string) (A : Type) (r : list (string * A))
  : list (string * A) :=
  flat_map (fun l => List.filter (fun kv => String.eqb (fst kv) l) r) labels.

Definition getitem (labels : list string) (df : DataFrame) : exn + DataFrame :=
  match List.find (fun l => negb (bool_decide (l ∈ columns df))) labels with
  | Some l => inl (KeyError l)
  | None => inr (on_columns (pick labels) df)
  end.

(** [pd.concat([a, b], ignore_index=True)].  Frames with the same header
    are stacked.  Otherwise pandas aligns both on the union of the labels,
    which it refuses for a header with a repeated label; headers without
    repetition never differ here (see [selected_headers_agree]). *)
Definition concat (a b : DataFrame) : exn + DataFrame :=
  if bool_decide (columns a = columns b)
  then inr {| columns := columns a; rows := rows a ++ rows b |}
  else inl (InvalidIndexError
              "Reindexing only valid with uniquely valued Index objects").

(** *** The file system *)

Inductive file :=
| Workbook (sheets : list (string * DataFrame))
| Csv (content : DataFrame)
| Other.

(** The files by path, and the paths that cannot be opened for writing.
    What the script prints is not part of the model. *)
Record world := {
  files : gmap string file;
  unwritable : gset string
}.

(** A computation reads and changes the world, and raises or returns. *)
Definition ST (A : Type) : Type := world -> world * (exn + A).

Definition ret {A} (a : A) : ST A := fun w => (w, inr a).
Definition lift {A} (r : exn + A) : ST A := fun w => (w, r).
Definition bind {A B} (m : ST A) (k : A -> ST B) : ST B :=
  fun w => match m w with
           | (w', inl e) => (w', inl e)
           | (w', inr a) => k a w'
           end.

(** [try: m  except Exception as e: h e] *)
Definition try_except {A} (m : ST A) (h : exn -> ST A) : ST A :=
  fun w => match m w with
           | (w', inl e) => h e w'
           | (w', inr a) => (w', inr a)
           end.

Declare Scope st_scope.
Delimit Scope st_scope with st.
Notation "x <- m ;; k" := (bind m (fun x => k))
  (at level 100, m at next level, right associativity) : st_scope.
Notation "m ;;; k" := (bind m (fun _ => k))
  (at level 100, right associativity) : st_scope.
Open Scope st_scope.

(** [os.path.exists(path)] *)
Definition path_exists (path : string) (w : world) : bool :=
  bool_decide (is_Some (files w !! path)).

(** [pd.read_excel(path, sheet_name=name)] *)
Definition read_excel (path name : string) : ST DataFrame :=
  fun w =>
    match files w !! path with
    | Some (Workbook sheets) =>
        match dict_get name sheets with
        | Some df => (w, inr df)
        | None => (w, inl (ValueError ("Worksheet named '" +:+ name +:+ "' not found")))
        end
    | Some _ => (w, inl (ValueError "Excel file format cannot be determined"))
    | None => (w, inl (OSError "No such file or directory"))
    end.

(** [df.to_csv(path, index=False)]: the file is opened, which fails for a
    path that cannot be written, and then holds the header and the rows. *)
Definition to_csv (df : DataFrame) (path : string) : ST unit :=
  fun w =>
    if bool_decide (path ∈ unwritable w)
    then (w, inl (OSError "Permission denied"))
    else ({| files := <[path := Csv df]> (files w);
             unwritable := unwritable w |}, inr tt).

(** *** [process_gdm_data] *)

(** Line 123, [COMBINED['GDM'].value_counts().to_dict()].  With one column
    under the label, [COMBINED['GDM']] is that column and its values are
    counted.  With several, it is a frame, and counting its rows groups by
    a repeated label, which pandas refuses.  (The dictionary itself is only
    printed and is left out.) *)
Definition target_distribution (COMBINED : DataFrame) : exn + unit :=
  match List.filter (fun c => String.eqb c "GDM") (columns COMBINED) with
  | [] => inl (KeyError "GDM")
  | [_] => inr tt
  | _ :: _ :: _ => inl (ValueError "Grouper for 'GDM' not 1-dimensional")
  end.

(** Lines 22-117, the body of the [try] up to the write *)
Definition shape_and_save (file_path output_file : string) : ST DataFrame :=
  gdm_data <- read_excel file_path "GDM" ;;
  ngdm_data <- read_excel file_path "NGDM" ;;
  let gdm_data := on_columns strip_labels gdm_data in
  let ngdm_data := on_columns strip_labels ngdm_data in
  let gdm_data := on_columns (restrict named) gdm_data in
  let ngdm_data := on_columns (restrict named) ngdm_data in
  cleaned <- lift (remove_columns gdm_data ngdm_data) ;;
  let gdm_data := fst cleaned in
  let ngdm_data := add_treatment (snd cleaned) in
  let common_columns := common (columns gdm_data) (columns ngdm_data) in
  gdm_common <- lift (getitem common_columns gdm_data) ;;
  ngdm_common <- lift (getitem common_columns ngdm_data) ;;
  let gdm_common := setitem "GDM" (VNum 1) gdm_common in
  let ngdm_common := setitem "GDM" (VNum 0) ngdm_common in
  combined_data <- lift (concat ngdm_common gdm_common) ;;
  to_csv combined_data output_file ;;;
  ret combined_data.

Definition process_gdm_data (file_path output_file : string) : ST bool :=
  fun w =>
    if negb (path_exists file_path w) then (w, inr false)
    else
      try_except
        (COMBINED <- shape_and_save file_path output_file ;;
         lift (target_distribution COMBINED) ;;;
         ret true)
        (fun e => ret false)
        w.

(** *** Relations between frames, for the statements below *)

(** [df'] is [df] without some of its columns. *)
Definition restriction_of (df df' : DataFrame) : Prop :=
  exists keep,
    columns df' = List.filter keep (columns df)
    /\ rows df' = map (restrict keep value) (rows df).

(** [df'] has the rows of [df], in the same order, and every column of
    [df'] outside [changed] is a column of [df] with its cells untouched. *)
Definition preserves_except (changed : list string) (df df' : DataFrame) : Prop :=
  (forall c, c ∈ columns df' -> c ∉ changed -> c ∈ columns df)
  /\ exists f,
       rows df' = map f (rows df)
       /\ forall r c, c ∈ columns df' -> c ∉ changed ->
                      dict_get c (f r) = dict_get c r.

(** Every cell of row [r] under [label] holds [v], and there is one. *)
Definition labelled (label : string) (v : value) (r : list (string * value)) : Prop :=
  dict_get label r = Some v /\ forall x, In (label, x) r -> x = v.

End Shaper.

(** ** Start-up and the HTTP handlers ([src/app.py]) *)

Module Endpoints.
Import Service.

(** *** [load_model], [load_scaler], [__init__] *)

(** What [open] and [pickle.load] do at a path that exists: they return the
    object or raise.  A pickle that loads is taken to hold an object of the
    kind that its path is for.  A path outside the map does not exist. *)
Record storage := {
  model_pickles : gmap string (exn + Classifier);
  scaler_pickles : gmap string (exn + Scaler)
}.

(** A predictor with the two paths it was built with *)
Record server := {
  predictor : GDMPredictor;
  model_path : string;
  scaler_path : string
}.

(** The events, the predictor afterwards and the returned flag *)
Definition load_scaler (disk : storage) (path : string) (self : GDMPredictor)
  : list event * (GDMPredictor * bool) :=
  match scaler_pickles disk !! path with
  | Some (inr s) =>
      ([LogInfo ("Scaler loaded successfully from " +:+ path)],
       ({| model := model self; scaler := Some s |}, true))
  | Some (inl e) =>
      ([LogError ("Error loading scaler: " +:+ str e)],
       ({| model := model self; scaler := None |}, false))
  | None =>
      ([LogWarning ("Scaler file not found at " +:+ path +:+ ", will skip scaling")],
       ({| model := model self; scaler := None |}, false))
  end.

Definition load_model (disk : storage) (path : string) (self : GDMPredictor)
  : list event * (GDMPredictor * bool) :=
  match model_pickles disk !! path with
  | Some (inr m) =>
      ([LogInfo ("model is loaded successfully from path: " +:+ path)],
       ({| model := Some m; scaler := scaler self |}, true))
  | Some (inl e) =>
      ([LogError ("Error loading model: " +:+ str e)], (self, false))
  | None =>
      ([LogError ("model file path for " +:+ path
                  +:+ " is not found, please make sure it exists")],
       (self, false))
  end.

(** [GDMPredictor(model_path, scaler_path)] *)
Definition init (disk : storage) (model_path scaler_path : string)
  : list event * server :=
  let self := {| model := None; scaler := None |} in
  let '(t1, (self, _)) := load_model disk model_path self in
  let '(t2, (self, _)) := load_scaler disk scaler_path self in
  (t1 ++ t2,
   {| predictor := self; model_path := model_path; scaler_path := scaler_path |}).

(** [predictor = GDMPredictor()] *)
Definition default_server (disk : storage) : list event * server :=
  init disk "/python-scripts/model.pkl" "/python-scripts/scaler.pkl".

(** *** [predict] on whatever the request holds *)

(** [k in s] for strings *)
Fixpoint substring (k s : string) : bool :=
  match s with
  | EmptyString => String.prefix k s
  | String _ s' => String.prefix k s || substring k s'
  end.

(** [k in v] for a string [k].  (The text of the interpreter's exceptions
    is abbreviated.) *)
Definition py_contains (k : string) (v : value) : exn + bool :=
  match v with
  | VDict kvs => inr (dict_mem k kvs)
  | VList xs =>
      inr (existsb (fun x => match x with VStr s => String.eqb s k | _ => false end) xs)
  | VStr s => inr (substring k s)
  | VNum _ | VNaN | VBool _ | VNone =>
      inl (TypeError "argument is not iterable")
  end.

(** [v[k]] for a string [k] *)
Definition py_getitem (k : string) (v : value) : exn + value :=
  match v with
  | VDict kvs =>
      match dict_get k kvs with
      | Some x => inr x
      | None => inl (KeyError k)
      end
  | VList _ => inl (TypeError "list indices must be integers or slices, not str")
  | VStr _ => inl (TypeError "string indices must be integers")
  | VNum _ | VNaN | VBool _ | VNone =>
      inl (TypeError "object is not subscriptable")
  end.

(** Lines 97-100 for any [patient_data] *)
Definition rename_fields_json (patient_data : value) : exn + pydict :=
  fold_left
    (fun acc '(frontend_key, model_key) =>
       match acc with
       | inl e => inl e
       | inr processed_data =>
           match py_contains frontend_key patient_data with
           | inl e => inl e
           | inr false => inr processed_data
           | inr true =>
               match py_getitem frontend_key patient_data with
               | inl e => inl e
               | inr v => inr (dict_set model_key v processed_data)
               end
           end
       end)
    mapping (inr []).

Section Handlers.

Variable parse_number : string -> option Q.
Variable float_round : Q -> Q.

(** The text of a float in an f-string *)
Variable repr_float : Q -> string.

(** Lines 77-148 for any [patient_data].  (The frame built at line 77 is
    replaced at line 102 before it is read; [pd.DataFrame([v])] is built
    for every JSON value [v].) *)
Definition aligned_frame_json (patient_data : value) : exn + pydict :=
  match rename_fields_json patient_data with
  | inl e => inl e
  | inr processed_data =>
      let gdm_df := coerce_numerical parse_number processed_data in
      match apply_categorical gdm_df with
      | inl e => inl e
      | inr gdm_df => select_columns feature_columns (add_missing gdm_df)
      end
  end.

Definition preprocess_input_json (self : GDMPredictor) (patient_data : value)
  : M pydict :=
  try_except
    (gdm_df <- lift (aligned_frame_json patient_data) ;;
     apply_scaling self gdm_df)
    (fun e =>
       emit (LogError ("Error preprocessing data: " +:+ str e)) ;;;
       raise (ValueError ("Data preprocessing failed: " +:+ str e))).

(** Lines 201-233: from the processed frame to the result *)
Definition answer (m : Classifier) (processed_data : pydict) : M result :=
  labels <- call_predict m processed_data ;;
  prediction <- lift (first labels) ;;
  probas <- call_predict_proba m processed_data ;;
  prediction_proba <- lift (first probas) ;;
  top <- lift (py_max prediction_proba) ;;
  let confidence := float_round (top * 100)%Q in
  let gdm_probability :=
    if (1 <? length prediction_proba)%nat
    then float_round (nth 1%nat prediction_proba 0 * 100)%Q
    else 0%Q in
  importance <- lift (sendFI m) ;;
  let FS := firstn 5 (map fst importance) in
  ret {| prediction :=
           if (prediction =? 1)%Z then "GDM Risk" else "No GDM Risk";
         confidence := round2 confidence;
         gdm_probability := round2 gdm_probability;
         factors := FS;
         model_version := "1.0" |}.

(** [predictor.predict(patient_data)] for any [patient_data] *)
Definition predict_json (self : GDMPredictor) (patient_data : value) : M result :=
  match model self with
  | None => raise not_loaded
  | Some m =>
      try_except
        (processed_data <- preprocess_input_json self patient_data ;;
         answer m processed_data)
        (fun e =>
           emit (LogError ("Prediction error: " +:+ str e)) ;;;
           raise (ValueError ("Prediction failed: " +:+ str e)))
  end.

(** *** The handlers *)

(** [not v] is [negb (truthy v)] *)
Definition truthy (v : value) : bool :=
  match v with
  | VNum q => negb (Qeq_bool q 0)
  | VNaN => true
  | VBool b => b
  | VStr s => negb (String.eqb s "")
  | VNone => false
  | VList xs => match xs with [] => false | _ => true end
  | VDict kvs => match kvs with [] => false | _ => true end
  end.

(** [jsonify(obj), status]: the JSON object, as a map, and the status *)
Record response := {
  status : Z;
  body : gmap string value
}.

Definition error_response (msg : string) (code : Z) : response :=
  {| status := code; body := {[ "error" := VStr msg ]} |}.

(** What [request.json] evaluates to: the parsed body, or an HTTP exception
    raised for a body that is not JSON. *)
Inductive request_json :=
| Parsed (data : value)
| Unreadable (msg : string).

Definition result_json (r : result) (response_time : Z) : gmap string value :=
  <[ "apiResponseTime" := VNum (inject_Z response_time) ]>
    (list_to_map
       [ ("prediction", VStr (prediction r));
         ("confidence", VNum (confidence r));
         ("gdm_probability", VNum (gdm_probability r));
         ("factors", VList (map VStr (factors r)));
         ("model_version", VStr (model_version r)) ]).

Definition internal_error (msg : string) : list event * response :=
  ([LogError ("Prediction error: " +:+ msg)],
   error_response "Internal server error occurred" 500).

(** [POST /predict].  [response_time] is the time that the two clock
    readings around [predict] give, in milliseconds. *)
Definition predict_gdm (app : server) (req : request_json) (response_time : Z)
  : list event * response :=
  match req with
  | Unreadable msg => internal_error msg
  | Parsed data =>
      if negb (truthy data)
      then ([], error_response "no prediction data provided" 400)
      else
        match data with
        | VDict kvs =>
            let patient_data := default (VDict []) (dict_get "patientData" kvs) in
            if negb (truthy patient_data)
            then ([], error_response "no patient data provided" 400)
            else
              match predict_json (predictor app) patient_data with
              | (t, inr result) =>
                  (t ++ [LogInfo ("Prediction made: " +:+ prediction result
                                  +:+ " with " +:+ repr_float (confidence result)
                                  +:+ "% confidence")],
                   {| status := 200; body := result_json result response_time |})
              | (t, inl (ValueError msg)) =>
                  (t ++ [LogError ("Validation error: " +:+ msg)],
                   error_response msg 400)
              | (t, inl e) =>
                  (t ++ [LogError ("Prediction error: " +:+ str e)],
                   error_response "Internal server error occurred" 500)
              end
        | _ => internal_error "object has no attribute 'get'"
        end
  end.

End Handlers.

(** [GET /] *)
Definition home (app : server) : response :=
  {| status := 200;
     body := list_to_map
       [ ("status", VStr "GDM Predict AI API is running");
         ("version", VStr "1.0");
         ("model_loaded",
          VBool (match model (predictor app) with Some _ => true | None => false end)) ] |}.

(** [GET /model/status] *)
Definition model_status (app : server) : response :=
  {| status := 200;
     body := list_to_map
       [ ("model_loaded",
          VBool (match model (predictor app) with Some _ => true | None => false end));
         ("model_path", VStr (model_path app));
         ("feature_columns", VList (map VStr feature_columns));
         ("model_type", VStr "GDM Risk Classifier") ] |}.

(** [GET /health]; [timestamp] is [datetime.now().isoformat()] *)
Definition health_check (app : server) (timestamp : string) : response :=
  {| status := 200;
     body := list_to_map
       [ ("status", VStr "healthy");
         ("timestamp", VStr timestamp);
         ("model_status",
          VStr (match model (predictor app) with
                | Some _ => "loaded"
                | None => "not_loaded"
                end));
         ("version", VStr "1.0") ] |}.

End Endpoints.

(** ** Sample objects *)

Module Examples.
Import Service.

(** A number parser that reads unsigned decimal integers only. *)
Fixpoint digits_value (s : string) (acc : Z) : option Z :=
  match s with
  | EmptyString => Some acc
  | String a s' =>
      let n := Z.of_nat (nat_of_ascii a) in
      if ((48 <=? n) && (n <=? 57))%Z
      then digits_value s' (10 * acc + (n - 48))%Z
      else None
  end.

Definition parse_digits (s : string) : option Q :=
  match s with
  | EmptyString => None
  | _ => inject_Z <$> digits_value s 0
  end.

Definition cell_number (v : value) : Q :=
  match v with VNum q => q | _ => 0 end.

(** Standardisation with mean 1 and unit variance for every column. *)
Definition shift_transform (X : pydict) : exn + list Q :=
  inr (map (fun kv => (cell_number (snd kv) - 1)%Q) X).

(** Fitted on the 14 named columns, as [train-model.py] fits it. *)
Definition full_scaler : Scaler :=
  {| feature_names_in_ := Some feature_columns; transform := shift_transform |}.

(** Fitted on a bare array: no recorded names. *)
Definition unnamed_scaler : Scaler :=
  {| feature_names_in_ := None; transform := shift_transform |}.

Definition toy_model : Classifier :=
  {| model_predict := fun _ => inr [1%Z];
     model_predict_proba := fun _ => inr [[0.25%Q; 0.75%Q]];
     feature_importances_ :=
       map inject_Z [1; 5; 3; 5; 0; 0; 2; 9; 4; 0; 0; 7; 0; 1]%Z |}.

Definition scaled_only : GDMPredictor :=
  {| model := None; scaler := Some full_scaler |}.
Definition service : GDMPredictor :=
  {| model := Some toy_model; scaler := Some full_scaler |}.
Definition unscaled_service : GDMPredictor :=
  {| model := Some toy_model; scaler := None |}.
Definition numeric_scaled_service : GDMPredictor :=
  {| model := Some toy_model; scaler := Some unnamed_scaler |}.

(** All 14 keys, numeric, in an order of the client's choosing *)
Definition request_full : pydict :=
  [ ("weightGainDuringPregnancy", VNum 9); ("height", VNum 160);
    ("bpDiastolic", VNum 80); ("ageYears", VNum 31);
    ("nationality", VNum 1); ("twoHourGlucose", VNum 140);
    ("typeOfTreatment", VNum 0); ("hypertensiveDisorders", VNum 0);
    ("pulseHeartRate", VNum 72); ("weightKg", VNum 68);
    ("fastingBloodGlucose", VNum 90); ("bmiBaseline", VNum 26);
    ("bpSystolic", VNum 120); ("oneHourGlucose", VNum 180) ].

(** A sparse request: text where a number is expected, an unknown
    hypertension label, an unknown key *)
Definition request_sparse : pydict :=
  [ ("oneHourGlucose", VStr "n/a"); ("bpSystolic", VStr "120");
    ("hypertensiveDisorders", VStr "maybe"); ("nationality", VStr "India");
    ("comment", VStr "walk-in") ].

(** Pre-encoded categories *)
Definition request_encoded : pydict :=
  [ ("hypertensiveDisorders", VNum 1); ("nationality", VNum 12);
    ("ageYears", VNum 29) ].

(** A JSON array where a category is expected *)
Definition request_array : pydict :=
  [ ("nationality", VList [VStr "UAE"]); ("ageYears", VNum 29) ].

(** The frame that [request_full] is aligned to *)
Definition aligned_full : pydict :=
  Eval vm_compute in
    match aligned_frame parse_digits request_full with
    | inr df => df
    | inl _ => []
    end.

(** The result of a run that returned one *)
Definition result_of (run : M result) : result :=
  match snd run with
  | inr r => r
  | inl _ => {| prediction := ""; confidence := 0; gdm_probability := 0;
                factors := []; model_version := "" |}
  end.

(** A workbook with the two sheets; headers as they are typed in practice,
    with stray blanks and an empty column. *)
Definition sheet (cols : list string) (cells : list (list value))
  : Shaper.DataFrame :=
  {| Shaper.columns := cols; Shaper.rows := map (combine cols) cells |}.

Definition gdm_sheet : Shaper.DataFrame :=
  sheet [ "Patients"; "Age "; " BMI"; "Type of treatment"; "Unnamed: 4";
          "Parity" ]
        [ [VStr "p1"; VNum 30; VNum 25; VStr "Metformin"; VNaN; VNum 1];
          [VStr "p2"; VNum 35; VNum 31; VStr "yes"; VNaN; VNum 2] ].

Definition ngdm_sheet : Shaper.DataFrame :=
  sheet [ "Patients"; "Age"; "BMI"; "Mode of Delivery" ]
        [ [VStr "n1"; VNum 28; VNum 22; VStr "CS"];
          [VStr "n2"; VNum 29; VNum 23; VStr "NVD"];
          [VStr "n3"; VNum 40; VNum 24; VStr "NVD"] ].

Definition workbook : list (string * Shaper.DataFrame) :=
  [ ("GDM", gdm_sheet); ("NGDM", ngdm_sheet) ].

Definition disk : Shaper.world :=
  {| Shaper.files := {[ "GDM_UOS.xlsx" := Shaper.Workbook workbook ]};
     Shaper.unwritable := {[ "/proc/out.csv" ]} |}.

(** A workbook whose GDM sheet has the column "Patients" twice once the
    headers are stripped *)
Definition doubled_sheet : Shaper.DataFrame :=
  sheet [ "Patients"; "Patients "; "Age" ] [ [VStr "p1"; VStr "x"; VNum 30] ].

Definition bad_disk : Shaper.world :=
  {| Shaper.files :=
       {[ "GDM_UOS.xlsx" :=
            Shaper.Workbook [ ("GDM", doubled_sheet); ("NGDM", ngdm_sheet) ] ]};
     Shaper.unwritable := ∅ |}.

(** A workbook in which both sheets already carry a status column, typed
    once as "GDM" and once as "GDM " *)
Definition gdm_status_sheet : Shaper.DataFrame :=
  sheet [ "Age"; "GDM"; "GDM " ] [ [VNum 30; VStr "yes"; VStr "yes"] ].

Definition ngdm_status_sheet : Shaper.DataFrame :=
  sheet [ "Age"; "GDM"; "GDM " ] [ [VNum 28; VStr "no"; VStr "no"] ].

Definition status_disk : Shaper.world :=
  {| Shaper.files :=
       {[ "GDM_UOS.xlsx" :=
            Shaper.Workbook [ ("GDM", gdm_status_sheet);
                              ("NGDM", ngdm_status_sheet) ] ]};
     Shaper.unwritable := ∅ |}.

(** *** Headers with white space beyond ASCII *)

(** U+00A0, the no-break space, and U+2003, the em space, in UTF-8 *)
Definition nbsp : string :=
  String (ascii_of_nat 194) (String (ascii_of_nat 160) EmptyString).
Definition em_space : string :=
  String (ascii_of_nat 226)
    (String (ascii_of_nat 128) (String (ascii_of_nat 131) EmptyString)).

(** "Patients" twice once the headers are stripped, the second one typed
    with a no-break space after it *)
Definition nbsp_sheet : Shaper.DataFrame :=
  sheet [ "Patients"; "Patients" +:+ nbsp; "Age" ]
        [ [VStr "p1"; VStr "x"; VNum 30] ].

Definition nbsp_disk : Shaper.world :=
  {| Shaper.files :=
       {[ "GDM_UOS.xlsx" :=
            Shaper.Workbook [ ("GDM", nbsp_sheet); ("NGDM", ngdm_sheet) ] ]};
     Shaper.unwritable := ∅ |}.

(** An NGDM sheet that has its own treatment column, typed with a no-break
    space after the label *)
Definition treated_gdm_sheet : Shaper.DataFrame :=
  sheet [ "Age"; "Type of treatment" ] [ [VNum 30; VStr "Metformin"] ].

Definition treated_ngdm_sheet : Shaper.DataFrame :=
  sheet [ "Age"; "Type of treatment" +:+ nbsp ] [ [VNum 28; VStr "Diet"] ].

Definition treated_disk : Shaper.world :=
  {| Shaper.files :=
       {[ "GDM_UOS.xlsx" :=
            Shaper.Workbook [ ("GDM", treated_gdm_sheet);
                              ("NGDM", treated_ngdm_sheet) ] ]};
     Shaper.unwritable := ∅ |}.

(** *** Float formats *)

(** An exponent [e] with [2^e <= x < 2^(e+1)], for a positive [x] *)
Definition binade (x : Q) : Z :=
  let e := (Z.log2 (Qnum x) - Z.log2 (Z.pos (Qden x)))%Z in
  if (0 <=? e)%Z
  then (if (Qnum x <? Z.pos (Qden x) * 2 ^ e)%Z then e - 1 else e)%Z
  else (if (Qnum x * 2 ^ (- e) <? Z.pos (Qden x))%Z then e - 1 else e)%Z.

(** Rounding to the nearest float with [prec] bits of precision and least
    normal exponent [emin], ties to even.  Overflow is left out: the
    products of the service are at most 100. *)
Definition float_nearest (prec emin : Z) (x : Q) : Q :=
  if Qeq_bool x 0 then 0%Q
  else
    let a := Qabs x in
    let k := (prec - 1 - Z.max (binade a) emin)%Z in
    let y := if (0 <=? k)%Z
             then round_half_even (a * inject_Z (2 ^ k)) # Z.to_pos (2 ^ k)
             else inject_Z (round_half_even (a / inject_Z (2 ^ (- k))) * 2 ^ (- k)) in
    if Qle_bool 0 x then y else (- y)%Q.

Definition binary64 : Q -> Q := float_nearest 53 (-1022).
Definition binary32 : Q -> Q := float_nearest 24 (-126).

(** A classifier whose label is not its most probable class, as one with
    a decision threshold of its own *)
Definition contrary_model : Classifier :=
  {| model_predict := fun _ => inr [0%Z];
     model_predict_proba := fun _ => inr [[0.25%Q; 0.75%Q]];
     feature_importances_ :=
       map inject_Z [1; 5; 3; 5; 0; 0; 2; 9; 4; 0; 0; 7; 0; 1]%Z |}.

Definition contrary_service : GDMPredictor :=
  {| model := Some contrary_model; scaler := None |}.

(** A model that is almost sure of class 0: class 1 has the probability
    that the double 0.00125 holds *)
Definition sure_model : Classifier :=
  {| model_predict := fun _ => inr [0%Z];
     model_predict_proba := fun _ =>
       inr [[(1 - binary64 (125 # 100000))%Q; binary64 (125 # 100000)]];
     feature_importances_ :=
       map inject_Z [1; 5; 3; 5; 0; 0; 2; 9; 4; 0; 0; 7; 0; 1]%Z |}.

Definition sure_service : GDMPredictor :=
  {| model := Some sure_model; scaler := None |}.

(** *** Objects for the start-up and the handlers *)

(** A scaler that refuses every frame *)
Definition broken_scaler : Scaler :=
  {| feature_names_in_ := Some feature_columns;
     transform := fun _ =>
       inl (ValueError "The feature names should match those that were passed during fit.") |}.

Definition broken_scaler_service : GDMPredictor :=
  {| model := Some toy_model; scaler := Some broken_scaler |}.

(** A model that was fitted on three columns *)
Definition short_model : Classifier :=
  {| model_predict := fun _ => inr [0%Z];
     model_predict_proba := fun _ => inr [[0.5%Q; 0.5%Q]];
     feature_importances_ := map inject_Z [1; 2; 3]%Z |}.

Definition short_service : GDMPredictor :=
  {| model := Some short_model; scaler := None |}.

(** The frame that [request_sparse] is aligned to *)
Definition aligned_sparse : pydict :=
  Eval vm_compute in
    match aligned_frame parse_digits request_sparse with
    | inr df => df
    | inl _ => []
    end.

(** A printer of floats for the samples: two decimals.  (Python prints the
    shortest text that reads back.) *)
Definition two_decimals (q : Q) : string :=
  let n := round_half_even (q * 100) in
  let r := (n mod 100)%Z in
  NilZero.string_of_int (Z.to_int (n / 100)) +:+ "."
  +:+ (if (r <? 10)%Z then "0" else "") +:+ NilZero.string_of_int (Z.to_int r).

(** Both pickles in place; the model missing; the model unreadable; the
    scaler missing *)
Definition pickles : Endpoints.storage :=
  {| Endpoints.model_pickles := {[ "/python-scripts/model.pkl" := inr toy_model ]};
     Endpoints.scaler_pickles := {[ "/python-scripts/scaler.pkl" := inr full_scaler ]} |}.

Definition no_model : Endpoints.storage :=
  {| Endpoints.model_pickles := ∅;
     Endpoints.scaler_pickles := {[ "/python-scripts/scaler.pkl" := inr full_scaler ]} |}.

Definition corrupt_model : Endpoints.storage :=
  {| Endpoints.model_pickles :=
       {[ "/python-scripts/model.pkl" := inl (ValueError "pickle data was truncated") ]};
     Endpoints.scaler_pickles := ∅ |}.

Definition no_scaler : Endpoints.storage :=
  {| Endpoints.model_pickles := {[ "/python-scripts/model.pkl" := inr toy_model ]};
     Endpoints.scaler_pickles := ∅ |}.

(** The server that starts from [pickles] *)
Definition app : Endpoints.server := snd (Endpoints.default_server pickles).

(** Request bodies *)
Definition body_full : list (string * value) :=
  [ ("patientData", VDict request_full) ].

Definition body_array_field : list (string * value) :=
  [ ("patientData", VDict request_array) ].

Definition body_number : list (string * value) :=
  [ ("patientData", VNum 7) ].

End Examples.

(** * Properties *)

(** ** Ordered dictionaries *)

Section LabelledFacts.
Context {A : Type}.
Implicit Types (d : list (string * A)) (k c : string) (v : A).

Lemma dict_get_set d k c v :
  dict_get c (dict_set k v d) = if String.eqb c k then Some v else dict_get c d.
Proof.
  induction d as [|[k' v'] d IH]; simpl.
  - destruct (String.eqb c k); reflexivity.
  - destruct (String.eqb k k') eqn:Ek; simpl.
    + apply String.eqb_eq in Ek. subst k'.
      destruct (String.eqb c k); reflexivity.
    + rewrite IH. destruct (String.eqb c k') eqn:Ec; [|reflexivity].
      apply String.eqb_eq in Ec. subst k'.
      rewrite String.eqb_sym, Ek. reflexivity.
Qed.

Lemma dict_get_set_eq d k v : dict_get k (dict_set k v d) = Some v.
Proof. rewrite dict_get_set, String.eqb_refl. reflexivity. Qed.

Lemma dict_get_set_ne d k c v :
  c <> k -> dict_get c (dict_set k v d) = dict_get c d.
Proof.
  intros Hne. rewrite dict_get_set.
  apply String.eqb_neq in Hne. rewrite Hne. reflexivity.
Qed.

Lemma dict_get_tabulate (g : string -> A) (l : list string) c :
  dict_get c (map (fun k => (k, g k)) l)
  = if bool_decide (c ∈ l) then Some (g c) else None.
Proof.
  induction l as [|k l IH]; simpl.
  - reflexivity.
  - destruct (String.eqb c k) eqn:Ec.
    + apply String.eqb_eq in Ec. subst k.
      rewrite bool_decide_eq_true_2 by left. reflexivity.
    + apply String.eqb_neq in Ec. rewrite IH.
      destruct (bool_decide (c ∈ l)) eqn:El.
      * apply bool_decide_eq_true_1 in El.
        rewrite bool_decide_eq_true_2 by (right; exact El). reflexivity.
      * apply bool_decide_eq_false_1 in El.
        rewrite bool_decide_eq_false_2; [reflexivity|].
        intros Hin. apply elem_of_cons in Hin as [->|Hin]; contradiction.
Qed.

Lemma dict_get_None_keys d k : dict_get k d = None <-> k ∉ keys d.
Proof.
  induction d as [|[k' v'] d IH]; simpl.
  - split; [intros _ Hin; inversion Hin | reflexivity].
  - destruct (String.eqb k k') eqn:Ek.
    + apply String.eqb_eq in Ek. subst k'. split; [discriminate|].
      intros Hn. exfalso. apply Hn. left.
    + apply String.eqb_neq in Ek. rewrite IH. unfold keys. simpl.
      rewrite not_elem_of_cons. tauto.
Qed.

(** In a dictionary every key occurs once, so reading it by key does not
    depend on the order of its items. *)
Lemma dict_get_Permutation d d' k :
  NoDup (keys d) -> Permutation d d' -> dict_get k d = dict_get k d'.
Proof.
  intros Hnd Hp. revert Hnd.
  induction Hp as [|[k0 v0] l l' Hp IH|[k1 v1] [k2 v2] l|l l' l'' Hp1 IH1 Hp2 IH2];
    intros Hnd; simpl.
  - reflexivity.
  - apply NoDup_cons in Hnd as [_ Hnd]. rewrite (IH Hnd). reflexivity.
  - destruct (String.eqb k k1) eqn:E1, (String.eqb k k2) eqn:E2; try reflexivity.
    apply String.eqb_eq in E1, E2. subst k1 k2.
    apply NoDup_cons in Hnd as [Hn _]. exfalso. apply Hn. left.
  - rewrite (IH1 Hnd). apply IH2.
    unfold keys in *.
    assert (Hm : map fst l ≡ₚ map fst l') by (apply Permutation_map; exact Hp1).
    rewrite <- Hm. exact Hnd.
Qed.

(** A loop [for col in cols: df = step(df, col)] whose body reads and
    writes column [col] only. *)
Lemma fold_left_get (step : list (string * A) -> string -> list (string * A))
      (h : string -> option A -> option A) :
  (forall df col, dict_get col (step df col) = h col (dict_get col df)) ->
  (forall df col c, c <> col -> dict_get c (step df col) = dict_get c df) ->
  forall cols, NoDup cols -> forall df c,
    dict_get c (fold_left step cols df)
    = if bool_decide (c ∈ cols) then h c (dict_get c df) else dict_get c df.
Proof.
  intros Hsame Hother cols.
  induction cols as [|col cols IH]; intros Hnd df c; simpl.
  - reflexivity.
  - cbn in Hnd. apply NoDup_cons in Hnd as [Hnotin Hnd]. rewrite (IH Hnd).
    destruct (decide (c = col)) as [->|Hne].
    + rewrite bool_decide_eq_false_2 by exact Hnotin.
      rewrite bool_decide_eq_true_2 by left. apply Hsame.
    + rewrite (Hother _ _ _ Hne).
      destruct (bool_decide (c ∈ cols)) eqn:El.
      * apply bool_decide_eq_true_1 in El.
        rewrite bool_decide_eq_true_2 by (right; exact El). reflexivity.
      * apply bool_decide_eq_false_1 in El.
        rewrite bool_decide_eq_false_2; [reflexivity|].
        intros Hin. apply elem_of_cons in Hin as [->|Hin]; contradiction.
Qed.
End LabelledFacts.

(** ** The prediction service *)

Section ServiceFacts.
Import Service.
Variable parse_number : string -> option Q.
Variable float_round : Q -> Q.

Abbreviation aligned_frame := (aligned_frame parse_number).
Abbreviation preprocess_input := (preprocess_input parse_number).
Abbreviation predict := (predict parse_number float_round).
Abbreviation column_value := (column_value parse_number).
Abbreviation to_numeric := (to_numeric parse_number).

Lemma NoDup_feature_columns : NoDup feature_columns.
Proof. apply (bool_decide_unpack _). vm_compute. exact I. Qed.

Lemma NoDup_numerical_columns : NoDup numerical_columns.
Proof. apply (bool_decide_unpack _). vm_compute. exact I. Qed.

Lemma NoDup_categorical_keys : NoDup (keys categorical_mappings).
Proof. apply (bool_decide_unpack _). vm_compute. exact I. Qed.

Lemma rename_fields_get d c :
  dict_get c (rename_fields d)
  = if bool_decide (c ∈ feature_columns) then dict_get c d else None.
Proof.
  pose (step := fun (acc : pydict) (k : string) =>
                  match dict_get k d with
                  | Some v => dict_set k v acc
                  | None => acc
                  end).
  assert (Hfold : rename_fields d = fold_left step feature_columns [])
    by reflexivity.
  rewrite Hfold.
  rewrite (fold_left_get step
             (fun k o => match dict_get k d with Some v => Some v | None => o end)).
  - destruct (bool_decide (c ∈ feature_columns)); [|reflexivity].
    simpl. destruct (dict_get c d); reflexivity.
  - intros df col. unfold step. destruct (dict_get col d); [|reflexivity].
    apply dict_get_set_eq.
  - intros df col c' Hne. unfold step. destruct (dict_get col d); [|reflexivity].
    apply dict_get_set_ne. exact Hne.
  - exact NoDup_feature_columns.
Qed.

Lemma coerce_numerical_get df c :
  dict_get c (coerce_numerical parse_number df)
  = if bool_decide (c ∈ numerical_columns)
    then (fun v => fillna0 (to_numeric v)) <$> dict_get c df
    else dict_get c df.
Proof.
  unfold coerce_numerical.
  rewrite (fold_left_get _ (fun _ o => (fun v => fillna0 (to_numeric v)) <$> o)).
  - reflexivity.
  - intros df' col. destruct (dict_get col df') eqn:E; simpl.
    + apply dict_get_set_eq.
    + exact E.
  - intros df' col c' Hne. destruct (dict_get col df'); [|reflexivity].
    apply dict_get_set_ne. exact Hne.
  - exact NoDup_numerical_columns.
Qed.

Lemma add_missing_get df c :
  dict_get c (add_missing df)
  = if bool_decide (c ∈ feature_columns)
    then Some (default (VNum 0) (dict_get c df))
    else dict_get c df.
Proof.
  unfold add_missing.
  rewrite (fold_left_get _ (fun _ o => Some (default (VNum 0) o))).
  - reflexivity.
  - intros df' col. unfold dict_mem.
    destruct (dict_get col df') eqn:E; simpl.
    + exact E.
    + apply dict_get_set_eq.
  - intros df' col c' Hne. unfold dict_mem.
    destruct (dict_get col df'); [reflexivity|].
    apply dict_get_set_ne. exact Hne.
  - exact NoDup_feature_columns.
Qed.

Lemma select_columns_total cols df :
  (forall c, c ∈ cols -> is_Some (dict_get c df)) ->
  select_columns cols df
  = inr (map (fun c => (c, default (VNum 0) (dict_get c df))) cols).
Proof.
  induction cols as [|c cols IH]; intros Hall; simpl.
  - reflexivity.
  - destruct (Hall c) as [v Hv]; [left|]. rewrite Hv. simpl.
    rewrite IH; [reflexivity|].
    intros c' Hin. apply Hall. right. exact Hin.
Qed.
Lemma recode_hashable table v :
  hashable v = true -> exists v', recode table v = inr v'.
Proof.
  unfold recode. destruct v; simpl; intros H; try discriminate;
    eexists; reflexivity.
Qed.

Lemma recode_unhashable table v :
  hashable v = false -> exists msg, recode table v = inl (TypeError msg).
Proof.
  unfold recode. destruct v; simpl; intros H; try discriminate;
    eexists; reflexivity.
Qed.

Lemma recode_fold_inl cm e : fold_left recode_column cm (inl e) = inl e.
Proof. induction cm as [|entry cm IH]; simpl; [reflexivity | exact IH]. Qed.

(** One step of the recoding loop, by cases on the cell it reads. *)
Lemma recode_column_step df col table :
  recode_column (inr df) (col, table)
  = match dict_get col df with
    | None => inr df
    | Some v => match recode table v with
                | inl e => inl e
                | inr v' => inr (dict_set col v' df)
                end
    end.
Proof. reflexivity. Qed.

Lemma recode_fold_get cm :
  NoDup (keys cm) -> forall df df',
  fold_left recode_column cm (inr df) = inr df' ->
  forall c,
    dict_get c df'
    = match dict_get c cm with
      | Some table =>
          match dict_get c df with
          | Some v => match recode table v with
                      | inr v' => Some v'
                      | inl _ => None
                      end
          | None => None
          end
      | None => dict_get c df
      end.
Proof.
  induction cm as [|[col table] cm IH]; intros Hnd df df' Hfold c.
  - simpl in Hfold. injection Hfold as <-. reflexivity.
  - cbn in Hnd. apply NoDup_cons in Hnd as [Hnotin Hnd].
    cbn [fold_left] in Hfold. rewrite recode_column_step in Hfold.
    cbn [dict_get]. apply (dict_get_None_keys cm col) in Hnotin.
    destruct (dict_get col df) as [v|] eqn:Hcol.
    + destruct (recode table v) as [e|v'] eqn:Hmap.
      * rewrite recode_fold_inl in Hfold. discriminate.
      * rewrite (IH Hnd _ _ Hfold c), dict_get_set.
        destruct (String.eqb c col) eqn:Ec.
        -- apply String.eqb_eq in Ec. subst c.
           rewrite Hnotin, Hcol, Hmap. reflexivity.
        -- reflexivity.
    + rewrite (IH Hnd _ _ Hfold c).
      destruct (String.eqb c col) eqn:Ec; [|reflexivity].
      apply String.eqb_eq in Ec. subst c. rewrite Hnotin, Hcol. reflexivity.
Qed.

Lemma recode_fold_ok cm :
  NoDup (keys cm) -> forall df,
  (forall c v, c ∈ keys cm -> dict_get c df = Some v -> hashable v = true) ->
  exists df', fold_left recode_column cm (inr df) = inr df'.
Proof.
  induction cm as [|[col table] cm IH]; intros Hnd df Hall.
  - eexists. reflexivity.
  - cbn in Hnd. apply NoDup_cons in Hnd as [Hnotin Hnd].
    cbn [fold_left]. rewrite recode_column_step.
    destruct (dict_get col df) as [v|] eqn:Hcol.
    + destruct (recode_hashable table v) as [v' Hv'].
      { apply (Hall col); [left | exact Hcol]. }
      rewrite Hv'. apply (IH Hnd). intros c w Hin Hc.
      rewrite dict_get_set_ne in Hc by (intros ->; contradiction).
      apply (Hall c); [right; exact Hin | exact Hc].
    + apply (IH Hnd). intros c w Hin Hc.
      apply (Hall c); [right; exact Hin | exact Hc].
Qed.

Lemma recode_fold_inr_hashable cm :
  NoDup (keys cm) -> forall df df',
  fold_left recode_column cm (inr df) = inr df' ->
  forall c v, c ∈ keys cm -> dict_get c df = Some v -> hashable v = true.
Proof.
  induction cm as [|[col table] cm IH]; intros Hnd df df' Hfold c v Hin Hc.
  - inversion Hin.
  - cbn in Hnd. apply NoDup_cons in Hnd as [Hnotin Hnd].
    cbn [fold_left] in Hfold. rewrite recode_column_step in Hfold.
    destruct (hashable v) eqn:Hh; [reflexivity | exfalso].
    apply elem_of_cons in Hin as [->|Hin].
    + cbn [fst] in Hc. rewrite Hc in Hfold.
      destruct (recode_unhashable table v Hh) as [msg Hmsg].
      rewrite Hmsg, recode_fold_inl in Hfold. discriminate.
    + destruct (dict_get col df) as [w|] eqn:Hcol.
      * destruct (recode table w) as [e|w'].
        -- rewrite recode_fold_inl in Hfold. discriminate.
        -- assert (Hv : hashable v = true); [|congruence].
           apply (IH Hnd _ _ Hfold c v Hin).
           rewrite dict_get_set_ne; [exact Hc|].
           intros ->. contradiction.
      * assert (Hv : hashable v = true); [|congruence].
        exact (IH Hnd _ _ Hfold c v Hin Hc).
Qed.

Lemma numerical_not_categorical c :
  c ∈ numerical_columns -> dict_get c categorical_mappings = None.
Proof.
  unfold numerical_columns. intros H.
  repeat (apply elem_of_cons in H as [->|H]; [reflexivity|]).
  inversion H.
Qed.

Lemma categorical_not_numerical c :
  c ∈ keys categorical_mappings -> bool_decide (c ∈ numerical_columns) = false.
Proof.
  intros H. cbn in H.
  repeat (apply elem_of_cons in H as [->|H]; [vm_compute; reflexivity|]).
  inversion H.
Qed.

Lemma categorical_is_feature c :
  c ∈ keys categorical_mappings -> c ∈ feature_columns.
Proof.
  intros H. cbn in H.
  repeat (apply elem_of_cons in H as [->|H];
          [apply (bool_decide_unpack _); vm_compute; exact I|]).
  inversion H.
Qed.

(** The cells that the recoding loop reads are those of the request. *)
Lemma coerced_categorical_get d c :
  c ∈ keys categorical_mappings ->
  dict_get c (coerce_numerical parse_number (rename_fields d)) = dict_get c d.
Proof.
  intros H. rewrite coerce_numerical_get, (categorical_not_numerical c H).
  rewrite rename_fields_get.
  rewrite (bool_decide_eq_true_2 _ (categorical_is_feature c H)). reflexivity.
Qed.

Lemma aligned_frame_closed_form d :
  categorical_scalars d ->
  aligned_frame d = inr (map (fun c => (c, column_value d c)) feature_columns).
Proof.
  intros Hsc. unfold Service.aligned_frame.
  set (df2 := coerce_numerical parse_number (rename_fields d)).
  destruct (recode_fold_ok categorical_mappings NoDup_categorical_keys df2)
    as [df3 Hdf3].
  { intros c v Hin Hc. unfold df2 in Hc.
    rewrite (coerced_categorical_get d c Hin) in Hc. exact (Hsc c v Hin Hc). }
  unfold apply_categorical. rewrite Hdf3.
  rewrite select_columns_total.
  2:{ intros c Hin. rewrite add_missing_get.
      rewrite bool_decide_eq_true_2 by exact Hin. eexists. reflexivity. }
  f_equal. apply map_ext_in. intros c Hin. apply list_elem_of_In in Hin.
  f_equal. rewrite add_missing_get.
  rewrite (bool_decide_eq_true_2 (c ∈ feature_columns) Hin).
  cbn [default].
  rewrite (recode_fold_get _ NoDup_categorical_keys _ _ Hdf3 c).
  unfold df2. rewrite coerce_numerical_get, rename_fields_get.
  rewrite (bool_decide_eq_true_2 (c ∈ feature_columns) Hin).
  unfold Service.column_value.
  destruct (bool_decide (c ∈ numerical_columns)) eqn:Hnum.
  - apply bool_decide_eq_true_1 in Hnum.
    rewrite (numerical_not_categorical c Hnum).
    destruct (dict_get c d); reflexivity.
  - destruct (dict_get c categorical_mappings) as [table|];
      destruct (dict_get c d) as [v|]; try reflexivity.
    change (default (VNum 0)
              match recode table v with
              | inl _ => None
              | inr v' => Some v'
              end
            = match recode table v with
              | inl _ => VNum 0
              | inr v' => v'
              end).
    destruct (recode table v); reflexivity.
Qed.

(** An array or an object in a categorical field makes the recoding raise. *)
Lemma aligned_frame_unhashable d c v :
  c ∈ keys categorical_mappings -> dict_get c d = Some v -> hashable v = false ->
  exists msg, aligned_frame d = inl (TypeError msg).
Proof.
  intros Hin Hc Hh. unfold Service.aligned_frame.
  set (df2 := coerce_numerical parse_number (rename_fields d)).
  unfold apply_categorical.
  destruct (fold_left recode_column categorical_mappings (inr df2))
    as [e|df3] eqn:Hfold.
  - clear Hc Hh Hin. revert Hfold. generalize df2.
    generalize categorical_mappings as cm.
    induction cm as [|[col table] cm IH]; intros df Hfold.
    + discriminate.
    + cbn [fold_left] in Hfold. rewrite recode_column_step in Hfold.
      destruct (dict_get col df) as [w|]; [|exact (IH _ Hfold)].
      destruct w; unfold recode in Hfold; cbn [series_map] in Hfold;
        try exact (IH _ Hfold);
        rewrite recode_fold_inl in Hfold; injection Hfold as <-;
        eexists; reflexivity.
  - assert (Hv : hashable v = true); [|congruence].
    apply (recode_fold_inr_hashable _ NoDup_categorical_keys _ _ Hfold c v Hin).
    unfold df2. rewrite (coerced_categorical_get d c Hin). exact Hc.
Qed.

Lemma rename_fields_ext d d' :
  (forall k, dict_get k d = dict_get k d') -> rename_fields d = rename_fields d'.
Proof.
  intros Hext. unfold rename_fields.
  generalize (@nil (string * value)) as acc. generalize mapping as m.
  induction m as [|[fk mk] m IH]; intros acc; simpl.
  - reflexivity.
  - rewrite (Hext fk). apply IH.
Qed.

Lemma aligned_frame_ext d d' :
  (forall k, dict_get k d = dict_get k d') -> aligned_frame d = aligned_frame d'.
Proof.
  intros Hext. unfold Service.aligned_frame.
  rewrite (rename_fields_ext d d' Hext). reflexivity.
Qed.

Lemma preprocess_input_ext self d d' :
  (forall k, dict_get k d = dict_get k d') ->
  preprocess_input self d = preprocess_input self d'.
Proof.
  intros Hext. unfold Service.preprocess_input.
  rewrite (aligned_frame_ext d d' Hext). reflexivity.
Qed.

(** *** The scaling step *)

Lemma keys_dict_set_present (df : pydict) k v :
  is_Some (dict_get k df) -> keys (dict_set k v df) = keys df.
Proof.
  induction df as [|[k' v'] df IH]; simpl; intros [w Hw].
  - discriminate.
  - destruct (String.eqb k k') eqn:Ek; simpl.
    + reflexivity.
    + f_equal. apply IH. eexists. exact Hw.
Qed.

Lemma select_columns_inr cols (df X : pydict) :
  select_columns cols df = inr X ->
  keys X = cols /\ forall c, c ∈ cols -> dict_get c X = dict_get c df /\ is_Some (dict_get c df).
Proof.
  revert X. induction cols as [|c cols IH]; simpl; intros X HX.
  - injection HX as <-. split; [reflexivity|]. intros c Hc. inversion Hc.
  - destruct (dict_get c df) as [v|] eqn:Hc; [|discriminate].
    destruct (select_columns cols df) as [e|r]; [discriminate|].
    injection HX as <-. destruct (IH r eq_refl) as [Hk Hg].
    split; [simpl; f_equal; exact Hk|].
    intros c' Hin. simpl.
    destruct (String.eqb c' c) eqn:Ec.
    + apply String.eqb_eq in Ec. subst c'. rewrite Hc. split; [reflexivity|eauto].
    + apply String.eqb_neq in Ec.
      apply elem_of_cons in Hin as [->|Hin]; [contradiction|].
      apply Hg. exact Hin.
Qed.

Lemma assign_fold_keys cols : forall (arr : list Q) (df : pydict),
  (forall c, c ∈ cols -> is_Some (dict_get c df)) ->
  keys (fold_left (fun df '(c, x) => dict_set c (VNum x) df) (combine cols arr) df)
  = keys df.
Proof.
  induction cols as [|c cols IH]; intros arr df Hall; simpl.
  - reflexivity.
  - destruct arr as [|x arr]; simpl; [reflexivity|].
    rewrite IH.
    + apply keys_dict_set_present. apply Hall. left.
    + intros c' Hin. rewrite dict_get_set.
      destruct (String.eqb c' c); [eauto|]. apply Hall. right. exact Hin.
Qed.

Lemma keys_combine (cols : list string) (vs : list value) :
  length vs = length cols -> keys (combine cols vs) = cols.
Proof.
  revert vs. induction cols as [|c cols IH]; intros [|v vs] Hlen; simpl in *;
    try reflexivity; try discriminate.
  f_equal. apply IH. lia.
Qed.

(** The scaling step never raises, and it keeps the columns and their order. *)
Lemma apply_scaling_keys self (df : pydict) :
  exists t df', apply_scaling self df = (t, inr df') /\ keys df' = keys df.
Proof.
  unfold apply_scaling. destruct (scaler self) as [s|].
  2:{ do 2 eexists. split; reflexivity. }
  destruct (fitted_on_all_features s).
  - unfold call_transform, frame_of_array, try_except, bind, emit, lift, ret.
    destruct (transform s df) as [e|arr]; cbn.
    { do 2 eexists. split; reflexivity. }
    destruct (length arr =? length (keys df))%nat eqn:Hlen; cbn.
    + do 2 eexists. split; [reflexivity|].
      apply Nat.eqb_eq in Hlen. apply keys_combine.
      rewrite length_map. exact Hlen.
    + do 2 eexists. split; reflexivity.
  - unfold call_transform, assign_columns, try_except, bind, emit, lift, ret.
    remember numerical_columns as cols eqn:Hcols.
    destruct (select_columns cols df) as [e|X] eqn:HX; cbn.
    { do 2 eexists. split; reflexivity. }
    destruct (transform s X) as [e|arr]; cbn.
    { do 2 eexists. split; reflexivity. }
    destruct (length arr =? length cols)%nat; cbn.
    + do 2 eexists. split; [reflexivity|].
      apply assign_fold_keys. intros c Hin.
      apply (select_columns_inr _ _ _ HX). exact Hin.
    + do 2 eexists. split; reflexivity.
Qed.

(** Every run of [preprocess_input] leaves at least one log record. *)
Lemma preprocess_input_logs self d : fst (preprocess_input self d) <> [].
Proof.
  unfold Service.preprocess_input, try_except, bind, lift, emit, raise.
  destruct (aligned_frame d) as [e|df]; cbn; [discriminate|].
  unfold apply_scaling. destruct (scaler self) as [s|]; [|cbn; discriminate].
  destruct (fitted_on_all_features s).
  - unfold call_transform, frame_of_array, try_except, bind, emit, lift, ret.
    destruct (transform s df) as [e|arr]; cbn; [discriminate|].
    destruct (length arr =? length (keys df))%nat; cbn; discriminate.
  - unfold call_transform, assign_columns, try_except, bind, emit, lift, ret.
    remember numerical_columns as cols eqn:Hcols.
    destruct (select_columns cols df) as [e|X]; cbn; [discriminate|].
    destruct (transform s X) as [e|arr]; cbn; [discriminate|].
    destruct (length arr =? length cols)%nat; cbn; discriminate.
Qed.

Lemma preprocess_input_of_aligned self d df :
  aligned_frame d = inr df ->
  preprocess_input self d = apply_scaling self df.
Proof.
  intros Hdf. unfold Service.preprocess_input, bind, lift. rewrite Hdf.
  destruct (apply_scaling_keys self df) as (t & df' & Hsc & _).
  rewrite Hsc. reflexivity.
Qed.

Lemma keys_tabulate (g : string -> value) (l : list string) :
  keys (map (fun k => (k, g k)) l) = l.
Proof. unfold keys. rewrite map_map. apply map_id. Qed.

(** With scalar categorical fields the request is always turned into a
    frame over the canonical columns. *)
Lemma preprocess_input_total self d :
  categorical_scalars d ->
  exists t df, preprocess_input self d = (t, inr df) /\ keys df = feature_columns.
Proof.
  intros Hsc.
  rewrite (preprocess_input_of_aligned self d _ (aligned_frame_closed_form d Hsc)).
  destruct (apply_scaling_keys self
              (map (fun c => (c, column_value d c)) feature_columns))
    as (t & df' & Heq & Hk).
  exists t, df'. split; [exact Heq|]. rewrite Hk. apply keys_tabulate.
Qed.

Lemma aligned_frame_column d c :
  categorical_scalars d -> c ∈ feature_columns ->
  exists df, aligned_frame d = inr df /\ dict_get c df = Some (column_value d c).
Proof.
  intros Hsc Hin. eexists. split; [exact (aligned_frame_closed_form d Hsc)|].
  rewrite dict_get_tabulate, (bool_decide_eq_true_2 _ Hin). reflexivity.
Qed.

Lemma categorical_table col table :
  dict_get col categorical_mappings = Some table ->
  col ∈ keys categorical_mappings /\ table !! "" = None /\
  (col = "hypertensiveDisorders" -> table !! "No" = Some 0%Z).
Proof.
  unfold categorical_mappings. cbn [dict_get]. intros H.
  repeat match type of H with
         | (if String.eqb col ?k then _ else _) = _ =>
             let E := fresh "E" in
             destruct (String.eqb col k) eqn:E;
             [apply String.eqb_eq in E | clear E]
         end; try discriminate;
    injection H as <-; subst col;
    (split; [vm_compute; repeat constructor|]);
    (split; [vm_compute; reflexivity|]);
    intros Hcol; try discriminate; vm_compute; reflexivity.
Qed.

(** *** Claims about [preprocess_input] *)

(** C1. For every patient-data object in which all 14 canonical keys are
    present with numeric values, [preprocess_input] returns a frame with
    exactly the 14 canonical columns in the canonical order, and the result
    does not depend on the order in which the keys were given. *)
Theorem preprocess_input_canonical_columns self d :
  (forall c, c ∈ feature_columns -> exists q, dict_get c d = Some (VNum q)) ->
  (exists t df, preprocess_input self d = (t, inr df)
                /\ keys df = feature_columns /\ length df = 14%nat)
  /\ (forall d', NoDup (keys d) -> Permutation d d' ->
                 preprocess_input self d' = preprocess_input self d).
Proof.
  intros Hnum. split.
  - assert (Hsc : categorical_scalars d).
    { intros c v Hin Hc.
      destruct (Hnum c) as [q Hq].
      - exact (categorical_is_feature c Hin).
      - rewrite Hq in Hc. injection Hc as <-. reflexivity. }
    destruct (preprocess_input_total self d Hsc) as (t & df & Heq & Hk).
    exists t, df. repeat split; [exact Heq | exact Hk |].
    unfold keys in Hk. rewrite <- (length_map fst), Hk. reflexivity.
  - intros d' Hnd Hperm. apply preprocess_input_ext. intros k.
    symmetry. apply dict_get_Permutation; assumption.
Qed.

(** C2. A string that is not a key of a categorical lookup table, the empty
    string included, is recoded to 0; for the hypertension table this is
    what the explicit negative "No" is recoded to. *)
Theorem unseen_category_maps_to_zero col table s :
  dict_get col categorical_mappings = Some table ->
  table !! s = None ->
  recode table (VStr s) = inr (VNum 0)
  /\ recode table (VStr "") = inr (VNum 0)
  /\ (col = "hypertensiveDisorders" ->
      recode table (VStr s) = recode table (VStr "No"))
  /\ (forall d, categorical_scalars d -> dict_get col d = Some (VStr s) ->
      exists df, aligned_frame d = inr df /\ dict_get col df = Some (VNum 0)).
Proof.
  intros Htable Hs.
  destruct (categorical_table col table Htable) as (Hin & Hempty & Hno).
  assert (Hrec : recode table (VStr s) = inr (VNum 0)).
  { unfold recode, series_map. rewrite Hs. reflexivity. }
  split; [exact Hrec|]. split.
  { unfold recode, series_map. rewrite Hempty. reflexivity. }
  split.
  - intros Hcol. rewrite Hrec. unfold recode, series_map.
    rewrite (Hno Hcol). reflexivity.
  - intros d Hsc Hd.
    destruct (aligned_frame_column d col Hsc) as (df & Hdf & Hc).
    { exact (categorical_is_feature col Hin). }
    exists df. split; [exact Hdf|]. rewrite Hc. f_equal.
    unfold Service.column_value.
    rewrite Hd, (categorical_not_numerical col Hin), Htable, Hrec. reflexivity.
Qed.


(** *** The monad *)

Lemma bind_inr_inv {A B} (m : M A) (k : A -> M B) t b :
  bind m k = (t, inr b) ->
  exists t1 a t2, m = (t1, inr a) /\ k a = (t2, inr b) /\ t = t1 ++ t2.
Proof.
  unfold bind. destruct m as [t1 [e|a]]; [discriminate|].
  destruct (k a) as [t2 r] eqn:Hk. intros H. injection H as <- ->.
  exists t1, a, t2. repeat split. exact Hk.
Qed.

Lemma lift_inr_inv {A} (r : exn + A) t a :
  lift r = (t, inr a) -> r = inr a /\ t = [].
Proof. unfold lift. intros H. injection H as <- ->. split; reflexivity. Qed.

Lemma try_except_inr_inv {A} (m : M A) (h : exn -> M A) t a :
  (forall e, exists t' e', h e = (t', inl e')) ->
  try_except m h = (t, inr a) -> m = (t, inr a).
Proof.
  intros Hh. unfold try_except. destruct m as [t1 [e|a1]]; [|tauto].
  destruct (Hh e) as (t' & e' & ->). discriminate.
Qed.

(** *** Rounding to two decimals *)

Lemma round_half_even_near (x : Q) :
  (2 * round_half_even x * Z.pos (Qden x) - Z.pos (Qden x) <= 2 * Qnum x
   <= 2 * round_half_even x * Z.pos (Qden x) + Z.pos (Qden x))%Z.
Proof.
  destruct x as [n d]. unfold round_half_even. cbn [Qnum Qden].
  pose proof (Z.div_mod n (Z.pos d) ltac:(lia)) as Hdm.
  pose proof (Z.mod_pos_bound n (Z.pos d) ltac:(lia)) as Hb.
  destruct (Z.compare_spec (2 * (n mod Z.pos d)) (Z.pos d)) as [He|Hl|Hg].
  - destruct (Z.even (n / Z.pos d)); nia.
  - nia.
  - nia.
Qed.

(** [round2 x] is a multiple of 1/100 at distance at most 1/200 from [x]. *)
Lemma round2_near (x : Q) :
  (x * 100 - (1 # 2) <= round2 x * 100 <= x * 100 + (1 # 2))%Q.
Proof.
  unfold round2. pose proof (round_half_even_near (x * 100)) as H.
  set (k := round_half_even (x * 100)) in *.
  set (y := (x * 100)%Q) in *. destruct y as [n d]. cbn [Qnum Qden] in H.
  unfold Qle, Qminus, Qplus, Qopp, Qmult. cbn [Qnum Qden].
  split; nia.
Qed.

Lemma round2_bounds (x : Q) : (0 <= x <= 100 -> 0 <= round2 x <= 100)%Q.
Proof.
  intros [H0 H1]. unfold round2.
  pose proof (round_half_even_near (x * 100)) as H.
  set (k := round_half_even (x * 100)) in *.
  assert (Hy0 : (0 <= x * 100)%Q)
    by (apply Qmult_le_0_compat; [exact H0 | discriminate]).
  assert (Hy1 : (x * 100 <= 100 * 100)%Q)
    by (apply Qmult_le_compat_r; [exact H1 | discriminate]).
  set (y := (x * 100)%Q) in *. destruct y as [n d]. cbn [Qnum Qden] in H.
  unfold Qle in *. cbn in *. split; nia.
Qed.

Lemma round2_hundredths (x : Q) : exists k : Z, round2 x = k # 100.
Proof. eexists. reflexivity. Qed.

Lemma py_max_In (xs : list Q) top : py_max xs = inr top -> In top xs.
Proof.
  destruct xs as [|x xs]; simpl; [discriminate|].
  intros H. injection H as <-.
  assert (Hgen : forall l m, In (fold_left (fun m y => if Qle_bool y m then m else y) l m)
                                (m :: l)).
  { induction l as [|y l IH]; intros m; simpl.
    - left. reflexivity.
    - destruct (IH (if Qle_bool y m then m else y)) as [Heq|Hin].
      + rewrite <- Heq. destruct (Qle_bool y m); [left | right; left]; reflexivity.
      + right. right. exact Hin. }
  apply Hgen.
Qed.

Lemma py_max_ge (xs : list Q) top :
  py_max xs = inr top -> forall x, In x xs -> (x <= top)%Q.
Proof.
  destruct xs as [|x0 xs]; simpl; [discriminate|].
  intros H. injection H as <-.
  assert (Hgen : forall l m,
            (m <= fold_left (fun m y => if Qle_bool y m then m else y) l m)%Q
            /\ forall x, In x l ->
                 (x <= fold_left (fun m y => if Qle_bool y m then m else y) l m)%Q).
  { induction l as [|y l IH]; intros m; simpl.
    - split; [apply Qle_refl | intros x []].
    - destruct (IH (if Qle_bool y m then m else y)) as [Hm Hl].
      assert (Hstep : (m <= (if Qle_bool y m then m else y)
                       /\ y <= (if Qle_bool y m then m else y))%Q).
      { destruct (Qle_bool y m) eqn:Hle.
        - apply Qle_bool_iff in Hle. split; [apply Qle_refl | exact Hle].
        - split; [|apply Qle_refl].
          apply Qlt_le_weak, Qnot_le_lt. intros Hc.
          apply Qle_bool_iff in Hc. congruence. }
      destruct Hstep as [Hs1 Hs2]. split.
      + eapply Qle_trans; eassumption.
      + intros x [<-|Hin]; [eapply Qle_trans; eassumption | apply Hl, Hin]. }
  intros x [<-|Hin];
    [exact (proj1 (Hgen xs x0)) | exact (proj2 (Hgen xs x0) x Hin)].
Qed.

(** *** Sorting by importance *)

Lemma insert_desc_perm x l : Permutation (insert_desc x l) (x :: l).
Proof.
  induction l as [|y l IH]; simpl.
  - reflexivity.
  - destruct (Qle_bool (snd y) (snd x)).
    + reflexivity.
    + rewrite IH. apply perm_swap.
Qed.

Lemma sort_values_desc_perm l : Permutation (sort_values_desc l) l.
Proof.
  induction l as [|x l IH]; simpl.
  - reflexivity.
  - rewrite insert_desc_perm, IH. reflexivity.
Qed.

Lemma insert_desc_sorted x l : descending l -> descending (insert_desc x l).
Proof.
  unfold descending. induction l as [|y l IH]; intros Hs; simpl.
  - constructor; constructor.
  - apply StronglySorted_inv in Hs as [Hs Hall].
    destruct (Qle_bool (snd y) (snd x)) eqn:Hle.
    + apply Qle_bool_iff in Hle. constructor.
      * constructor; assumption.
      * constructor; [exact Hle|].
        eapply List.Forall_impl; [|exact Hall].
        intros z Hz. cbn in Hz. eapply Qle_trans; eassumption.
    + constructor; [apply IH; exact Hs|].
      assert (Hxy : (snd x <= snd y)%Q).
      { apply Qlt_le_weak, Qnot_le_lt. intros Hc.
        apply Qle_bool_iff in Hc. congruence. }
      apply List.Forall_forall. intros z Hz.
      apply (Permutation_in _ (insert_desc_perm x l)) in Hz.
      destruct Hz as [<-|Hz]; [exact Hxy|].
      rewrite List.Forall_forall in Hall. apply Hall. exact Hz.
Qed.

Lemma sort_values_desc_sorted l : descending (sort_values_desc l).
Proof.
  induction l as [|x l IH]; simpl.
  - constructor.
  - apply insert_desc_sorted. exact IH.
Qed.

(** *** [predict] *)

Lemma predict_inr_inv self d t r :
  predict self d = (t, inr r) ->
  exists m t0 X labels lbl probas p top imp,
    model self = Some m
    /\ preprocess_input self d = (t0, inr X)
    /\ model_predict m X = inr labels /\ first labels = inr lbl
    /\ model_predict_proba m X = inr probas /\ first probas = inr p
    /\ py_max p = inr top
    /\ sendFI m = inr imp
    /\ r = {| prediction := if (lbl =? 1)%Z then "GDM Risk" else "No GDM Risk";
              confidence := round2 (float_round (top * 100)%Q);
              gdm_probability :=
                round2 (if (1 <? length p)%nat
                        then float_round (nth 1%nat p 0 * 100)%Q else 0%Q);
              factors := firstn 5 (map fst imp);
              model_version := "1.0" |}.
Proof.
  unfold Service.predict. destruct (model self) as [m|]; [|discriminate].
  intros H. apply try_except_inr_inv in H.
  2:{ intros e. do 2 eexists. reflexivity. }
  apply bind_inr_inv in H as (t0 & X & t1 & HX & H & _).
  apply bind_inr_inv in H as (t2 & labels & t3 & Hl & H & _).
  unfold call_predict in Hl.
  apply bind_inr_inv in Hl as (? & ? & ? & _ & Hl & _).
  apply lift_inr_inv in Hl as [Hl _].
  apply bind_inr_inv in H as (? & lbl & ? & Hlbl & H & _).
  apply lift_inr_inv in Hlbl as [Hlbl _].
  apply bind_inr_inv in H as (? & probas & ? & Hp & H & _).
  unfold call_predict_proba in Hp.
  apply bind_inr_inv in Hp as (? & ? & ? & _ & Hp & _).
  apply lift_inr_inv in Hp as [Hp _].
  apply bind_inr_inv in H as (? & p & ? & Hrow & H & _).
  apply lift_inr_inv in Hrow as [Hrow _].
  apply bind_inr_inv in H as (? & top & ? & Htop & H & _).
  apply lift_inr_inv in Htop as [Htop _].
  apply bind_inr_inv in H as (? & imp & ? & Himp & H & _).
  apply lift_inr_inv in Himp as [Himp _].
  unfold ret in H. injection H as _ <-.
  exists m, t0, X, labels, lbl, probas, p, top, imp.
  repeat split; assumption.
Qed.

Lemma sendFI_inr m ranking :
  sendFI m = inr ranking ->
  ranking = sort_values_desc (combine feature_columns (feature_importances_ m))
  /\ length ranking = 14%nat.
Proof.
  unfold sendFI.
  destruct (length feature_columns =? length (feature_importances_ m))%nat eqn:Hlen;
    [|discriminate].
  intros H.
  assert (Hr : ranking
               = sort_values_desc (combine feature_columns (feature_importances_ m)))
    by congruence.
  split; [exact Hr|]. rewrite Hr.
  apply Nat.eqb_eq in Hlen.
  rewrite (Permutation_length (sort_values_desc_perm _)).
  rewrite List.length_combine, <- Hlen. reflexivity.
Qed.

(** C3. For any two requests that the same predictor answers, the two
    lists of factors are the same list: the first five feature names of the
    model's features ranked by descending importance, whatever the request. *)
Theorem factors_input_independent self d1 d2 t1 t2 r1 r2 :
  predict self d1 = (t1, inr r1) ->
  predict self d2 = (t2, inr r2) ->
  factors r1 = factors r2
  /\ exists m ranking,
       model self = Some m
       /\ sendFI m = inr ranking
       /\ Permutation ranking (combine feature_columns (feature_importances_ m))
       /\ descending ranking
       /\ factors r1 = firstn 5 (map fst ranking)
       /\ length (factors r1) = 5%nat.
Proof.
  intros H1 H2.
  apply predict_inr_inv in H1
    as (m & ? & ? & ? & ? & ? & ? & ? & imp & Hm & _ & _ & _ & _ & _ & _ & Himp & ->).
  apply predict_inr_inv in H2
    as (m' & ? & ? & ? & ? & ? & ? & ? & imp' & Hm' & _ & _ & _ & _ & _ & _ & Himp' & ->).
  rewrite Hm in Hm'. injection Hm' as <-.
  rewrite Himp in Himp'. injection Himp' as <-.
  split; [reflexivity|].
  exists m, imp. destruct (sendFI_inr m imp Himp) as [Hsort Hlen].
  repeat split; try assumption; cbn [factors].
  - rewrite Hsort. apply sort_values_desc_perm.
  - rewrite Hsort. apply sort_values_desc_sorted.
  - rewrite length_firstn, length_map, Hlen. reflexivity.
Qed.

(** C4, as amended. When the model's class probabilities lie in [0, 1]
    and the float format keeps a product in [0, 100] within [0, 100], the
    confidence is the largest entry of the first probability row times 100
    and the GDM probability is the entry of class 1 times 100 (0 for a row
    of length 1), each product rounded to the float format and then to the
    nearest hundredth, ties to even; both lie in [0, 100].  The confidence
    is that of the predicted class when the predicted label is the index
    of a largest entry. *)
Theorem confidence_and_probability_bounds self d t r :
  (forall x, (0 <= x <= 100)%Q -> (0 <= float_round x <= 100)%Q) ->
  (forall m X probas p, model self = Some m ->
     model_predict_proba m X = inr probas -> In p probas ->
     Forall (fun x => 0 <= x <= 1)%Q p) ->
  predict self d = (t, inr r) ->
  exists m t0 X labels lbl probas p top,
    model self = Some m
    /\ preprocess_input self d = (t0, inr X)
    /\ model_predict m X = inr labels /\ first labels = inr lbl
    /\ model_predict_proba m X = inr probas /\ first probas = inr p
    /\ In top p /\ (forall x, In x p -> (x <= top)%Q)
    /\ confidence r = round2 (float_round (top * 100)%Q)
    /\ gdm_probability r
       = round2 (if (1 <? length p)%nat
                 then float_round (nth 1%nat p 0 * 100)%Q else 0%Q)
    /\ (0 <= confidence r <= 100)%Q
    /\ (0 <= gdm_probability r <= 100)%Q
    /\ (exists k : Z, confidence r = k # 100)
    /\ (exists k : Z, gdm_probability r = k # 100)
    /\ (float_round (top * 100) * 100 - (1 # 2) <= confidence r * 100
        <= float_round (top * 100) * 100 + (1 # 2))%Q
    /\ ((1 < length p)%nat ->
        (float_round (nth 1%nat p 0 * 100) * 100 - (1 # 2)
         <= gdm_probability r * 100
         <= float_round (nth 1%nat p 0 * 100) * 100 + (1 # 2))%Q)
    /\ (length p = 1%nat -> (gdm_probability r == 0)%Q)
    /\ (nth (Z.to_nat lbl) p 0%Q = top ->
        confidence r = round2 (float_round (nth (Z.to_nat lbl) p 0 * 100)%Q)).
Proof.
  intros Hfloat Hproba H.
  apply predict_inr_inv in H
    as (m & t0 & X & labels & lbl & probas & p & top & imp
        & Hm & HX & Hl & Hlbl & Hp & Hrow & Htop & _ & ->).
  cbn [confidence gdm_probability].
  assert (Hall : Forall (fun x => 0 <= x <= 1)%Q p).
  { apply (Hproba m X probas p Hm Hp).
    destruct probas as [|p0 rest]; [discriminate|].
    injection Hrow as ->. left. reflexivity. }
  rewrite List.Forall_forall in Hall.
  assert (Hscale : forall x, (0 <= x <= 1 -> 0 <= float_round (x * 100) <= 100)%Q).
  { intros x [Hx0 Hx1]. apply Hfloat. split.
    - apply Qmult_le_0_compat; [exact Hx0 | discriminate].
    - apply (Qmult_le_compat_r x 1 100); [exact Hx1 | discriminate]. }
  assert (Hpos : (0 <= (if (1 <? length p)%nat
                        then float_round (nth 1%nat p 0 * 100) else 0)
                  <= 100)%Q).
  { destruct (1 <? length p)%nat eqn:Hlen.
    - apply Nat.ltb_lt in Hlen. apply Hscale, Hall, nth_In. exact Hlen.
    - split; discriminate. }
  exists m, t0, X, labels, lbl, probas, p, top.
  split; [exact Hm|]. split; [exact HX|]. split; [exact Hl|].
  split; [exact Hlbl|]. split; [exact Hp|]. split; [exact Hrow|].
  split; [exact (py_max_In p top Htop)|].
  split; [exact (py_max_ge p top Htop)|].
  split; [reflexivity|]. split; [reflexivity|].
  split; [apply round2_bounds, Hscale, Hall, py_max_In, Htop|].
  split; [apply round2_bounds, Hpos|].
  split; [apply round2_hundredths|].
  split; [apply round2_hundredths|].
  split; [apply round2_near|].
  split; [|split].
  - intros Hlen. apply Nat.ltb_lt in Hlen. rewrite Hlen. apply round2_near.
  - intros Hlen. rewrite Hlen. vm_compute. reflexivity.
  - intros ->. reflexivity.
Qed.

(** C5. Without a loaded model [predict] raises the "not loaded" error at
    once: no log record is written and neither the scaler nor a model is
    called, whereas any run of [preprocess_input] leaves a log record; no
    result is returned. *)
Theorem predict_without_model self d :
  model self = None ->
  predict self d = ([], inl not_loaded)
  /\ str not_loaded
     = "Model is not loaded, maybe model.pkl does not exist in your dir"
  /\ (forall self' d', fst (preprocess_input self' d') <> [])
  /\ (forall t r, predict self d <> (t, inr r)).
Proof.
  intros Hm. unfold Service.predict. rewrite Hm.
  split; [reflexivity|]. split; [reflexivity|].
  split; [apply preprocess_input_logs|].
  intros t r. discriminate.
Qed.

(** *** The scaling step, by cases *)

Lemma fitted_on_all_features_count s :
  fitted_on_all_features s = true <-> recorded_feature_count s = Some 14%nat.
Proof.
  unfold fitted_on_all_features, recorded_feature_count.
  destruct (feature_names_in_ s) as [names|]; cbn [fmap option_fmap option_map].
  - change (length feature_columns) with 14%nat. rewrite Nat.eqb_eq.
    split; [intros ->; reflexivity | intros H; injection H as ->; reflexivity].
  - split; discriminate.
Qed.

Lemma dict_get_combine_notin {B} (cols : list string) (xs : list B) c :
  c ∉ cols -> dict_get c (combine cols xs) = None.
Proof.
  revert xs. induction cols as [|c0 cols IH]; intros xs Hn; [reflexivity|].
  destruct xs as [|x xs]; [reflexivity|]. simpl.
  apply not_elem_of_cons in Hn as [Hne Hn].
  apply String.eqb_neq in Hne. rewrite Hne. apply IH. exact Hn.
Qed.

Lemma assign_fold_get cols :
  NoDup cols -> forall (arr : list Q) (df : pydict) c,
  dict_get c (fold_left (fun df '(c, x) => dict_set c (VNum x) df)
                        (combine cols arr) df)
  = match dict_get c (combine cols arr) with
    | Some x => Some (VNum x)
    | None => dict_get c df
    end.
Proof.
  induction cols as [|c0 cols IH]; intros Hnd arr df c; [reflexivity|].
  destruct arr as [|x arr]; [reflexivity|].
  apply NoDup_cons in Hnd as [Hnotin Hnd].
  cbn [combine fold_left dict_get]. rewrite (IH Hnd), dict_get_set.
  destruct (String.eqb c c0) eqn:Ec.
  - apply String.eqb_eq in Ec. subst c0.
    rewrite (dict_get_combine_notin cols arr c Hnotin). reflexivity.
  - reflexivity.
Qed.

Lemma aligned_frame_inr d df :
  aligned_frame d = inr df ->
  keys df = feature_columns /\ forall c, c ∈ feature_columns -> is_Some (dict_get c df).
Proof.
  unfold Service.aligned_frame.
  destruct (apply_categorical _) as [e|df3]; [discriminate|].
  intros H. destruct (select_columns_inr _ _ _ H) as [Hk Hg].
  split; [exact Hk|]. intros c Hin. destruct (Hg c Hin) as [-> Hsome].
  exact Hsome.
Qed.

Lemma numerical_is_feature c : c ∈ numerical_columns -> c ∈ feature_columns.
Proof.
  unfold numerical_columns. intros H.
  repeat (apply elem_of_cons in H as [->|H];
          [apply (bool_decide_unpack _); vm_compute; exact I|]).
  inversion H.
Qed.

(** The model is called on the frame that [preprocess_input] returned. *)
Lemma predict_calls_model self m d t X :
  model self = Some m ->
  preprocess_input self d = (t, inr X) ->
  exists t', fst (predict self d) = t ++ CallPredict X :: t'.
Proof.
  intros Hm HX. unfold Service.predict. rewrite Hm, HX.
  unfold try_except, bind at 1.
  match goal with
  | |- context [bind (call_predict m X) ?k] =>
      generalize k; intros k0
  end.
  unfold call_predict, bind, emit, lift.
  unfold raise.
  destruct (model_predict m X) as [e|labels]; cbn [app].
  - cbv beta iota zeta. cbn [fst]. eexists.
    rewrite <- ?List.app_assoc. reflexivity.
  - destruct (k0 labels) as [t2 [e|r]]; cbv beta iota zeta; cbn [fst];
      eexists; rewrite <- ?List.app_assoc; reflexivity.
Qed.

(** C7. A loaded scaler is applied to the whole 14-column frame exactly
    when the number of feature names it recorded is 14, and to the 11
    numerical columns otherwise; without a scaler the aligned frame is
    returned as it is, and that frame is what the model is called on. *)
Theorem scaler_applied_by_feature_count self d df :
  aligned_frame d = inr df ->
  keys df = feature_columns
  /\ match scaler self with
     | None =>
         preprocess_input self d
         = ([LogInfo "No pre-trained scaler available, skipping scaling"], inr df)
         /\ (forall m, model self = Some m ->
             exists t', fst (predict self d)
                        = [LogInfo "No pre-trained scaler available, skipping scaling"]
                          ++ CallPredict df :: t')
     | Some s =>
         (recorded_feature_count s = Some 14%nat ->
            transform_calls (fst (preprocess_input self d)) = [df]
            /\ forall arr, transform s df = inr arr -> length arr = 14%nat ->
                 snd (preprocess_input self d)
                 = inr (combine feature_columns (map VNum arr)))
         /\ (recorded_feature_count s <> Some 14%nat ->
            exists X,
              select_columns numerical_columns df = inr X
              /\ keys X = numerical_columns
              /\ transform_calls (fst (preprocess_input self d)) = [X]
              /\ forall arr, transform s X = inr arr -> length arr = 11%nat ->
                   exists df',
                     snd (preprocess_input self d) = inr df'
                     /\ keys df' = feature_columns
                     /\ forall c,
                          dict_get c df'
                          = match dict_get c (combine numerical_columns arr) with
                            | Some x => Some (VNum x)
                            | None => dict_get c df
                            end)
     end.
Proof.
  intros Hdf. destruct (aligned_frame_inr d df Hdf) as [Hk Hsome].
  split; [exact Hk|].
  pose proof (preprocess_input_of_aligned self d df Hdf) as Hpre.
  destruct (scaler self) as [s|] eqn:Hs.
  - unfold apply_scaling in Hpre. rewrite Hs in Hpre. split.
    + intros Hcount. apply fitted_on_all_features_count in Hcount.
      rewrite Hcount in Hpre. rewrite Hpre. clear Hpre.
      unfold call_transform, frame_of_array, try_except, bind, emit, lift, ret.
      rewrite Hk. change (length feature_columns) with 14%nat.
      destruct (transform s df) as [e|arr0].
      * split; [reflexivity|]. intros arr Harr. discriminate.
      * destruct (length arr0 =? 14)%nat eqn:Hlen.
        -- split; [reflexivity|]. intros arr Harr _. injection Harr as <-.
           reflexivity.
        -- split; [reflexivity|]. intros arr Harr Hl. injection Harr as <-.
           apply Nat.eqb_neq in Hlen. contradiction.
    + intros Hcount.
      assert (Hfit : fitted_on_all_features s = false).
      { destruct (fitted_on_all_features s) eqn:Hf; [|reflexivity].
        apply fitted_on_all_features_count in Hf. contradiction. }
      rewrite Hfit in Hpre. rewrite Hpre. clear Hpre.
      pose proof (select_columns_total numerical_columns df) as Hsel.
      specialize (Hsel (fun c Hc => Hsome c (numerical_is_feature c Hc))).
      eexists. split; [exact Hsel|].
      split; [apply keys_tabulate|].
      unfold call_transform, assign_columns, try_except, bind, emit, lift, ret.
      rewrite Hsel. change (length numerical_columns) with 11%nat.
      remember numerical_columns as cols eqn:Hcols.
      remember (map _ cols) as X eqn:HX.
      destruct (transform s X) as [e|arr0].
      * split; [reflexivity|]. intros arr Harr. discriminate.
      * destruct (length arr0 =? 11)%nat eqn:Hlen.
        -- split; [reflexivity|]. intros arr Harr _. injection Harr as <-.
           eexists. split; [reflexivity|]. split.
           ++ rewrite <- Hk. apply assign_fold_keys.
              intros c Hc. apply Hsome. apply numerical_is_feature.
              rewrite <- Hcols. exact Hc.
           ++ intros c. apply assign_fold_get. rewrite Hcols.
              exact NoDup_numerical_columns.
        -- split; [reflexivity|]. intros arr Harr Hl. injection Harr as <-.
           apply Nat.eqb_neq in Hlen. contradiction.
  - unfold apply_scaling in Hpre. rewrite Hs in Hpre.
    split; [exact Hpre|].
    intros m Hm. exact (predict_calls_model self m d _ df Hm Hpre).
Qed.

Lemma dict_get_combine_map {B C} (f : B -> C) (cols : list string) (xs : list B) c :
  dict_get c (combine cols (map f xs)) = f <$> dict_get c (combine cols xs).
Proof.
  revert xs. induction cols as [|c0 cols IH]; intros [|x xs]; simpl;
    try reflexivity.
  destruct (String.eqb c c0); [reflexivity | apply IH].
Qed.

Lemma dict_get_combine_in {B} (cols : list string) (xs : list B) c :
  c ∈ cols -> length xs = length cols -> is_Some (dict_get c (combine cols xs)).
Proof.
  revert xs. induction cols as [|c0 cols IH]; intros xs Hin Hlen;
    [inversion Hin|].
  destruct xs as [|x xs]; [discriminate|]. simpl.
  destruct (String.eqb c c0) eqn:Ec; [eauto|].
  apply String.eqb_neq in Ec.
  apply elem_of_cons in Hin as [->|Hin]; [contradiction|].
  apply IH; [exact Hin|]. simpl in Hlen. lia.
Qed.

(** C6, as amended. When the categorical fields that are present hold
    scalars, [preprocess_input] does not raise, and every canonical key that
    is missing and every numeric field with an unparseable value is 0 in
    the aligned 14-column frame.  That frame is returned when no scaler is
    loaded.  A loaded scaler is called once, on that frame or on its
    numerical columns, where the column holds 0; the returned column holds
    what [transform] gave for it, and holds 0 when [transform] raises or
    returns a row of another width, or when the column is not among those
    given to the scaler. *)
Theorem missing_or_unparseable_is_zero self d c :
  categorical_scalars d ->
  c ∈ feature_columns ->
  dict_get c d = None
  \/ (c ∈ numerical_columns /\ exists v, dict_get c d = Some v /\ unparseable parse_number v) ->
  (exists df, aligned_frame d = inr df /\ dict_get c df = Some (VNum 0))
  /\ (exists t df, preprocess_input self d = (t, inr df))
  /\ (scaler self = None ->
      exists t df, preprocess_input self d = (t, inr df)
                   /\ dict_get c df = Some (VNum 0))
  /\ (forall s, scaler self = Some s ->
      exists X df',
        transform_calls (fst (preprocess_input self d)) = [X]
        /\ keys X = (if fitted_on_all_features s
                     then feature_columns else numerical_columns)
        /\ (c ∈ keys X -> dict_get c X = Some (VNum 0))
        /\ snd (preprocess_input self d) = inr df'
        /\ dict_get c df'
           = match transform s X with
             | inr arr =>
                 if (length arr =? length (keys X))%nat
                 then match dict_get c (combine (keys X) arr) with
                      | Some x => Some (VNum x)
                      | None => Some (VNum 0)
                      end
                 else Some (VNum 0)
             | inl _ => Some (VNum 0)
             end).
Proof.
  intros Hsc Hin Hcase.
  destruct (aligned_frame_column d c Hsc Hin) as (df & Hdf & Hc).
  assert (Hzero : column_value d c = VNum 0).
  { unfold Service.column_value. destruct Hcase as [Hnone|(Hnum & v & Hv & Hun)].
    - rewrite Hnone. reflexivity.
    - rewrite Hv, (bool_decide_eq_true_2 _ Hnum).
      destruct v; simpl in Hun; try contradiction; try reflexivity.
      simpl. rewrite Hun. reflexivity. }
  rewrite Hzero in Hc. split; [exists df; split; assumption|]. split.
  { destruct (preprocess_input_total self d Hsc) as (t & df' & Heq & _).
    exists t, df'. exact Heq. }
  pose proof (preprocess_input_of_aligned self d df Hdf) as Hpre.
  split.
  { intros Hnone. rewrite Hpre. unfold apply_scaling. rewrite Hnone.
    do 2 eexists. split; [reflexivity | exact Hc]. }
  intros s Hs. destruct (aligned_frame_inr d df Hdf) as [Hk Hsome].
  unfold apply_scaling in Hpre. rewrite Hs in Hpre. rewrite Hpre. clear Hpre.
  destruct (fitted_on_all_features s).
  - exists df.
    unfold call_transform, frame_of_array, try_except, bind, emit, lift, ret.
    rewrite Hk.
    destruct (transform s df) as [e|arr].
    { exists df. split; [reflexivity|]. split; [reflexivity|].
      split; [intros _; exact Hc|]. split; [reflexivity | exact Hc]. }
    destruct (length arr =? length feature_columns)%nat eqn:Hlen.
    + exists (combine feature_columns (map VNum arr)).
      split; [reflexivity|]. split; [reflexivity|]. split; [intros _; exact Hc|].
      split; [reflexivity|].
      rewrite dict_get_combine_map.
      apply Nat.eqb_eq in Hlen.
      destruct (dict_get_combine_in feature_columns arr c Hin Hlen) as [x ->].
      reflexivity.
    + exists df. split; [reflexivity|]. split; [reflexivity|].
      split; [intros _; exact Hc|]. split; [reflexivity | exact Hc].
  - pose proof (select_columns_total numerical_columns df) as Hsel.
    specialize (Hsel (fun c Hc => Hsome c (numerical_is_feature c Hc))).
    unfold call_transform, assign_columns, try_except, bind, emit, lift, ret.
    rewrite Hsel.
    remember numerical_columns as cols eqn:Hcols.
    remember (map _ cols) as X eqn:HX.
    assert (HkX : keys X = cols) by (rewrite HX; apply keys_tabulate).
    assert (HcX : c ∈ keys X -> dict_get c X = Some (VNum 0)).
    { rewrite HkX. intros Hcin. rewrite HX, dict_get_tabulate,
        (bool_decide_eq_true_2 _ Hcin), Hc. reflexivity. }
    exists X. rewrite HkX.
    destruct (transform s X) as [e|arr].
    { exists df. split; [reflexivity|]. split; [reflexivity|].
      split; [rewrite <- HkX; exact HcX|]. split; [reflexivity | exact Hc]. }
    destruct (length arr =? length cols)%nat eqn:Hlen.
    + eexists. split; [reflexivity|]. split; [reflexivity|].
      split; [rewrite <- HkX; exact HcX|]. split; [reflexivity|].
      rewrite assign_fold_get by (rewrite Hcols; exact NoDup_numerical_columns).
      rewrite Hc. destruct (dict_get c (combine cols arr)); reflexivity.
    + exists df. split; [reflexivity|]. split; [reflexivity|].
      split; [rewrite <- HkX; exact HcX|]. split; [reflexivity | exact Hc].
Qed.

End ServiceFacts.

(** ** The data shaper *)

Section ShaperFacts.
Import Shaper.

(** *** Rows *)

Lemma keys_header (cols : list string) : keys (map (fun c => (c, tt)) cols) = cols.
Proof. unfold keys. rewrite map_map. apply map_id. Qed.

Lemma keys_restrict keep A (r : list (string * A)) :
  keys (restrict keep A r) = List.filter keep (keys r).
Proof.
  unfold restrict, keys. induction r as [|[k v] r IH]; simpl; [reflexivity|].
  destruct (keep k); simpl; rewrite IH; reflexivity.
Qed.

Lemma keys_strip_labels A (r : list (string * A)) :
  keys (strip_labels A r) = map strip (keys r).
Proof. unfold strip_labels, keys. rewrite !map_map. reflexivity. Qed.

Lemma keys_pick labels A (r : list (string * A)) :
  keys (pick labels A r)
  = flat_map (fun l => List.filter (fun c => String.eqb c l) (keys r)) labels.
Proof.
  unfold pick, keys. induction labels as [|l labels IH]; simpl; [reflexivity|].
  rewrite map_app, IH. f_equal.
  exact (keys_restrict (fun k => String.eqb k l) A r).
Qed.

Lemma dict_get_restrict keep A (r : list (string * A)) c :
  dict_get c (restrict keep A r) = if keep c then dict_get c r else None.
Proof.
  unfold restrict. induction r as [|[k v] r IH]; simpl.
  - destruct (keep c); reflexivity.
  - destruct (String.eqb c k) eqn:Ec.
    + apply String.eqb_eq in Ec. subst k.
      destruct (keep c) eqn:Hk; simpl.
      * rewrite String.eqb_refl. reflexivity.
      * rewrite IH. rewrite ?Hk. reflexivity.
    + destruct (keep k); simpl; [rewrite Ec|]; exact IH.
Qed.

Lemma dict_get_app A (r1 r2 : list (string * A)) c :
  dict_get c (r1 ++ r2)
  = match dict_get c r1 with Some x => Some x | None => dict_get c r2 end.
Proof.
  induction r1 as [|[k v] r1 IH]; simpl; [reflexivity|].
  destruct (String.eqb c k); [reflexivity | exact IH].
Qed.

Lemma dict_get_pick labels A (r : list (string * A)) c :
  dict_get c (pick labels A r)
  = if bool_decide (c ∈ labels) then dict_get c r else None.
Proof.
  unfold pick. induction labels as [|l labels IH]; simpl; [reflexivity|].
  rewrite dict_get_app, IH.
  change (List.filter (fun kv : string * A => String.eqb (fst kv) l) r)
    with (restrict (fun k => String.eqb k l) A r).
  rewrite dict_get_restrict.
  destruct (String.eqb c l) eqn:Ec.
  - apply String.eqb_eq in Ec. subst l.
    rewrite (bool_decide_eq_true_2 (c ∈ c :: labels)) by left.
    destruct (dict_get c r); [reflexivity|].
    destruct (bool_decide (c ∈ labels)); reflexivity.
  - apply String.eqb_neq in Ec.
    destruct (bool_decide (c ∈ labels)) eqn:El.
    + apply bool_decide_eq_true_1 in El.
      rewrite bool_decide_eq_true_2 by (right; exact El). reflexivity.
    + apply bool_decide_eq_false_1 in El.
      rewrite bool_decide_eq_false_2; [reflexivity|].
      intros Hin. apply elem_of_cons in Hin as [->|Hin]; contradiction.
Qed.

Lemma dict_get_set_cells label v (r : list (string * value)) c :
  dict_get c (set_cells label v r)
  = match dict_get c r with
    | Some x => Some (if String.eqb c label then v else x)
    | None => None
    end.
Proof.
  unfold set_cells. induction r as [|[k x] r IH]; simpl; [reflexivity|].
  destruct (String.eqb k label) eqn:Ek; simpl.
  - destruct (String.eqb c k) eqn:Ec; [|exact IH].
    apply String.eqb_eq in Ec. subst k. rewrite Ek. reflexivity.
  - destruct (String.eqb c k) eqn:Ec; [|exact IH].
    apply String.eqb_eq in Ec. subst k. rewrite Ek. reflexivity.
Qed.

Lemma keys_set_cells label v (r : list (string * value)) :
  keys (set_cells label v r) = keys r.
Proof.
  unfold set_cells, keys. rewrite map_map. apply map_ext.
  intros [k x]. simpl. destruct (String.eqb k label); reflexivity.
Qed.

Lemma set_cells_In label v (r : list (string * value)) x :
  In (label, x) (set_cells label v r) -> x = v.
Proof.
  unfold set_cells. rewrite in_map_iff. intros ([k y] & Heq & _). simpl in Heq.
  destruct (String.eqb k label) eqn:Ek.
  - injection Heq as _ <-. reflexivity.
  - injection Heq as -> _. rewrite String.eqb_refl in Ek. discriminate.
Qed.

Lemma dict_get_Some_keys A (r : list (string * A)) c :
  c ∈ keys r -> is_Some (dict_get c r).
Proof.
  intros Hin. destruct (dict_get c r) eqn:E; [eauto|].
  apply dict_get_None_keys in E. contradiction.
Qed.

(** *** Frames *)

Lemma columns_restrict keep df :
  columns (on_columns (restrict keep) df) = List.filter keep (columns df).
Proof.
  unfold on_columns. cbn [columns]. rewrite keys_restrict, keys_header.
  reflexivity.
Qed.

Lemma columns_strip df :
  columns (on_columns strip_labels df) = map strip (columns df).
Proof.
  unfold on_columns. cbn [columns]. rewrite keys_strip_labels, keys_header.
  reflexivity.
Qed.

Lemma columns_pick labels df :
  columns (on_columns (pick labels) df)
  = flat_map (fun l => List.filter (fun c => String.eqb c l) (columns df)) labels.
Proof.
  unfold on_columns. cbn [columns]. rewrite keys_pick, keys_header.
  reflexivity.
Qed.

Lemma on_columns_well_formed f (g : list string -> list string) df :
  (forall A (r : list (string * A)), keys (f A r) = g (keys r)) ->
  well_formed df -> well_formed (on_columns f df).
Proof.
  intros Hf Hwf. unfold well_formed, on_columns in *. cbn [columns rows].
  rewrite List.Forall_forall in *. intros r' Hin.
  apply in_map_iff in Hin as (r & <- & Hin).
  rewrite !Hf, keys_header, (Hwf r Hin). reflexivity.
Qed.

Lemma filter_true {A} (l : list A) : List.filter (fun _ => true) l = l.
Proof. induction l as [|x l IH]; simpl; [reflexivity | rewrite IH; reflexivity]. Qed.

Lemma filter_filter {A} (p q : A -> bool) (l : list A) :
  List.filter q (List.filter p l) = List.filter (fun x => p x && q x) l.
Proof.
  induction l as [|x l IH]; simpl; [reflexivity|].
  destruct (p x); simpl; [destruct (q x)|]; rewrite IH; reflexivity.
Qed.

Lemma restriction_of_refl df : restriction_of df df.
Proof.
  exists (fun _ => true). split.
  - rewrite filter_true. reflexivity.
  - unfold restrict. rewrite <- (map_id (rows df)) at 1.
    apply map_ext. intros r. rewrite filter_true. reflexivity.
Qed.

Lemma restriction_of_trans a b c :
  restriction_of a b -> restriction_of b c -> restriction_of a c.
Proof.
  intros (p & Hc1 & Hr1) (q & Hc2 & Hr2).
  exists (fun x => p x && q x). split.
  - rewrite Hc2, Hc1. apply filter_filter.
  - rewrite Hr2, Hr1, map_map. apply map_ext. intros r.
    unfold restrict. apply filter_filter.
Qed.

Lemma restriction_of_on_columns keep df :
  restriction_of df (on_columns (restrict keep) df).
Proof. exists keep. split; [apply columns_restrict | reflexivity]. Qed.

Lemma drop_restriction label df df' :
  drop label df = inr df' -> restriction_of df df'.
Proof.
  unfold drop. destruct (bool_decide (label ∈ columns df)); [|discriminate].
  intros H. injection H as <-. apply restriction_of_on_columns.
Qed.

Lemma drop_fold_inl ms e :
  fold_left (fun acc m => match acc with inl e => inl e | inr df => drop m df end)
            ms (inl e) = inl e.
Proof. induction ms as [|m ms IH]; simpl; [reflexivity | exact IH]. Qed.

Lemma drop_fold_restriction ms : forall df df',
  fold_left (fun acc m => match acc with inl e => inl e | inr df => drop m df end)
            ms (inr df) = inr df' ->
  restriction_of df df'.
Proof.
  induction ms as [|m ms IH]; intros df df' H; simpl in H.
  - injection H as <-. apply restriction_of_refl.
  - destruct (drop m df) as [e|df1] eqn:Hd.
    + rewrite drop_fold_inl in H. discriminate.
    + eapply restriction_of_trans; [exact (drop_restriction _ _ _ Hd)|].
      apply IH. exact H.
Qed.

Lemma drop_matching_restriction col df df' :
  drop_matching col df = inr df' -> restriction_of df df'.
Proof. unfold drop_matching. apply drop_fold_restriction. Qed.

Lemma remove_columns_restriction g n g' n' :
  remove_columns g n = inr (g', n') ->
  restriction_of g g' /\ restriction_of n n'.
Proof.
  unfold remove_columns. generalize columns_to_remove as cols.
  intros cols. revert g n.
  induction cols as [|col cols IH]; intros g n H; simpl in H.
  - injection H as <- <-. split; apply restriction_of_refl.
  - destruct (drop_matching col g) as [e|g1] eqn:Hg.
    { exfalso. clear -H. induction cols as [|c cols IHc]; simpl in H;
        [discriminate | exact (IHc H)]. }
    destruct (drop_matching col n) as [e|n1] eqn:Hn.
    { exfalso. clear -H. induction cols as [|c cols IHc]; simpl in H;
        [discriminate | exact (IHc H)]. }
    destruct (IH g1 n1 H) as [Hg' Hn']. split.
    + eapply restriction_of_trans; [|exact Hg'].
      exact (drop_matching_restriction _ _ _ Hg).
    + eapply restriction_of_trans; [|exact Hn'].
      exact (drop_matching_restriction _ _ _ Hn).
Qed.

Lemma restriction_well_formed df df' :
  restriction_of df df' -> well_formed df -> well_formed df'.
Proof.
  intros (keep & Hc & Hr) Hwf. unfold well_formed in *.
  rewrite Hr, Hc. rewrite List.Forall_forall in *. intros r' Hin.
  apply in_map_iff in Hin as (r & <- & Hin).
  rewrite keys_restrict, (Hwf r Hin). reflexivity.
Qed.

Lemma restriction_preserves df df' :
  restriction_of df df' -> preserves_except [] df df'.
Proof.
  intros (keep & Hc & Hr). split.
  - intros c Hin _. rewrite Hc in Hin.
    apply list_elem_of_In, filter_In in Hin as [Hin _].
    apply list_elem_of_In. exact Hin.
  - exists (restrict keep value). split; [exact Hr|].
    intros r c Hin _. rewrite Hc in Hin.
    apply list_elem_of_In, filter_In in Hin as [_ Hk].
    rewrite dict_get_restrict, Hk. reflexivity.
Qed.

Lemma preserves_except_trans X Y a b c :
  preserves_except X a b -> preserves_except Y b c ->
  preserves_except (X ++ Y) a c.
Proof.
  intros (Hc1 & f & Hr1 & Hf) (Hc2 & g & Hr2 & Hg). split.
  - intros k Hin Hn. apply not_elem_of_app in Hn as [HnX HnY].
    apply Hc1; [apply Hc2|]; assumption.
  - exists (fun r => g (f r)). split.
    + rewrite Hr2, Hr1, map_map. reflexivity.
    + intros r k Hin Hn. apply not_elem_of_app in Hn as [HnX HnY].
      rewrite (Hg _ _ Hin HnY). apply Hf; [apply Hc2|]; assumption.
Qed.

Lemma setitem_well_formed label v df :
  well_formed df -> well_formed (setitem label v df).
Proof.
  intros Hwf. unfold setitem, well_formed in *.
  rewrite List.Forall_forall in Hwf.
  destruct (bool_decide (label ∈ columns df)); cbn [columns rows];
    rewrite List.Forall_forall; intros r' Hin;
    apply in_map_iff in Hin as (r & <- & Hin).
  - rewrite keys_set_cells. apply Hwf. exact Hin.
  - unfold keys. rewrite map_app. cbn. f_equal. apply Hwf. exact Hin.
Qed.

Lemma setitem_labelled label v df :
  well_formed df -> Forall (labelled label v) (rows (setitem label v df)).
Proof.
  intros Hwf. unfold setitem, well_formed in *.
  rewrite List.Forall_forall in Hwf.
  destruct (bool_decide (label ∈ columns df)) eqn:Hl; cbn [rows];
    rewrite List.Forall_forall; intros r' Hin;
    apply in_map_iff in Hin as (r & <- & Hin); split.
  - apply bool_decide_eq_true_1 in Hl. rewrite <- (Hwf r Hin) in Hl.
    destruct (dict_get_Some_keys _ r label Hl) as [x Hx].
    rewrite dict_get_set_cells, Hx, String.eqb_refl. reflexivity.
  - intros x. apply set_cells_In.
  - apply bool_decide_eq_false_1 in Hl. rewrite <- (Hwf r Hin) in Hl.
    apply dict_get_None_keys in Hl.
    rewrite dict_get_app, Hl. cbn. rewrite String.eqb_refl. reflexivity.
  - intros x Hx. apply in_app_or in Hx as [Hx|[Hx|[]]].
    + apply bool_decide_eq_false_1 in Hl. rewrite <- (Hwf r Hin) in Hl.
      exfalso. apply Hl. apply list_elem_of_In.
      apply (in_map fst) in Hx. exact Hx.
    + injection Hx as <-. reflexivity.
Qed.

Lemma setitem_columns label v df : label ∈ columns (setitem label v df).
Proof.
  unfold setitem. destruct (bool_decide (label ∈ columns df)) eqn:Hl;
    cbn [columns].
  - apply bool_decide_eq_true_1 in Hl. exact Hl.
  - apply elem_of_app. right. left.
Qed.

Lemma setitem_preserves label v df :
  preserves_except [label] df (setitem label v df).
Proof.
  unfold setitem.
  destruct (bool_decide (label ∈ columns df)); cbn [columns rows]; split.
  - intros c Hin _. exact Hin.
  - exists (set_cells label v). split; [reflexivity|].
    intros r c _ Hn. apply not_elem_of_cons in Hn as [Hne _].
    rewrite dict_get_set_cells. apply String.eqb_neq in Hne. rewrite Hne.
    destruct (dict_get c r); reflexivity.
  - intros c Hin Hn. apply not_elem_of_cons in Hn as [Hne _].
    apply elem_of_app in Hin as [Hin|Hin]; [exact Hin|].
    apply list_elem_of_singleton in Hin. contradiction.
  - exists (fun r => r ++ [(label, v)]). split; [reflexivity|].
    intros r c _ Hn. apply not_elem_of_cons in Hn as [Hne _].
    rewrite dict_get_app. cbn. apply String.eqb_neq in Hne. rewrite Hne.
    destruct (dict_get c r); reflexivity.
Qed.

Lemma preserves_except_refl df : preserves_except [] df df.
Proof. apply restriction_preserves, restriction_of_refl. Qed.

Lemma preserves_except_weaken X Y a b :
  (forall c, c ∈ X -> c ∈ Y) -> preserves_except X a b -> preserves_except Y a b.
Proof.
  intros Hsub (Hc & f & Hr & Hf). split.
  - intros c Hin Hn. apply Hc; [exact Hin|]. intros HX. apply Hn, Hsub, HX.
  - exists f. split; [exact Hr|]. intros r c Hin Hn.
    apply Hf; [exact Hin|]. intros HX. apply Hn, Hsub, HX.
Qed.

Lemma add_treatment_well_formed df :
  well_formed df -> well_formed (add_treatment df).
Proof.
  intros Hwf. unfold add_treatment.
  destruct (bool_decide _); [exact Hwf | apply setitem_well_formed, Hwf].
Qed.

Lemma add_treatment_preserves df :
  preserves_except ["Type of treatment"] df (add_treatment df).
Proof.
  unfold add_treatment. destruct (bool_decide _).
  - apply (preserves_except_weaken []); [|apply preserves_except_refl].
    intros c Hc. inversion Hc.
  - apply setitem_preserves.
Qed.

Lemma getitem_inr labels df df' :
  getitem labels df = inr df' -> df' = on_columns (pick labels) df.
Proof.
  unfold getitem. destruct (List.find _ labels); [discriminate|].
  intros H. injection H as <-. reflexivity.
Qed.

Lemma elem_of_columns_pick labels df c :
  c ∈ columns (on_columns (pick labels) df) -> c ∈ labels /\ c ∈ columns df.
Proof.
  rewrite columns_pick. intros Hin.
  apply list_elem_of_In, in_flat_map in Hin as (l & Hl & Hin).
  apply filter_In in Hin as [Hin Heq]. apply String.eqb_eq in Heq. subst l.
  split; apply list_elem_of_In; assumption.
Qed.

Lemma pick_well_formed labels df :
  well_formed df -> well_formed (on_columns (pick labels) df).
Proof.
  apply (on_columns_well_formed (pick labels)
           (fun ks => flat_map (fun l => List.filter (fun c => String.eqb c l) ks)
                               labels)).
  intros A r. apply keys_pick.
Qed.

Lemma pick_preserves labels df :
  preserves_except [] df (on_columns (pick labels) df).
Proof.
  split.
  - intros c Hin _. apply (elem_of_columns_pick labels df c Hin).
  - exists (pick labels value). split; [reflexivity|].
    intros r c Hin _. apply elem_of_columns_pick in Hin as [Hin _].
    rewrite dict_get_pick, (bool_decide_eq_true_2 _ Hin). reflexivity.
Qed.

Lemma strip_well_formed df :
  well_formed df -> well_formed (on_columns strip_labels df).
Proof.
  apply (on_columns_well_formed strip_labels (map strip)).
  intros A r. apply keys_strip_labels.
Qed.

Lemma concat_inr a b df :
  concat a b = inr df ->
  columns df = columns a /\ columns a = columns b /\ rows df = rows a ++ rows b.
Proof.
  unfold concat. destruct (bool_decide (columns a = columns b)) eqn:Hc;
    [|discriminate].
  apply bool_decide_eq_true_1 in Hc. intros H. injection H as <-.
  repeat split. exact Hc.
Qed.

Lemma filter_eqb_NoDup (cols : list string) l :
  NoDup cols -> l ∈ cols -> List.filter (fun c => String.eqb c l) cols = [l].
Proof.
  induction cols as [|c cols IH]; intros Hnd Hin; [inversion Hin|].
  apply NoDup_cons in Hnd as [Hnotin Hnd]. simpl.
  destruct (String.eqb c l) eqn:Ec.
  - apply String.eqb_eq in Ec. subst c. f_equal.
    clear IH Hin Hnd. induction cols as [|c cols IH]; [reflexivity|].
    apply not_elem_of_cons in Hnotin as [Hne Hnotin]. simpl.
    apply not_eq_sym, String.eqb_neq in Hne. rewrite Hne. apply IH, Hnotin.
  - apply String.eqb_neq in Ec.
    apply elem_of_cons in Hin as [->|Hin]; [contradiction|].
    apply IH; assumption.
Qed.

Lemma pick_unique_header labels df :
  NoDup (columns df) -> (forall l, l ∈ labels -> l ∈ columns df) ->
  columns (on_columns (pick labels) df) = labels.
Proof.
  intros Hnd Hsub. rewrite columns_pick.
  induction labels as [|l labels IH]; [reflexivity|]. simpl.
  rewrite (filter_eqb_NoDup _ l Hnd) by (apply Hsub; left).
  simpl. f_equal. apply IH. intros l' Hl'. apply Hsub. right. exact Hl'.
Qed.

(** Two frames without repeated labels, cut down to their common labels
    and labelled, have the same header: [concat] finds different headers
    only when a sheet has a repeated label. *)
Lemma selected_headers_agree a b label v v' :
  NoDup (columns a) -> NoDup (columns b) ->
  columns (setitem label v
             (on_columns (pick (common (columns a) (columns b))) a))
  = columns (setitem label v'
               (on_columns (pick (common (columns a) (columns b))) b)).
Proof.
  intros Ha Hb.
  assert (Hcommon : forall l, l ∈ common (columns a) (columns b) ->
                              l ∈ columns a /\ l ∈ columns b).
  { intros l Hl. unfold common in Hl.
    apply elem_of_elements, elem_of_intersection in Hl as [Hl1 Hl2].
    apply elem_of_list_to_set in Hl1, Hl2. split; assumption. }
  unfold setitem.
  rewrite !pick_unique_header; try assumption;
    try (intros l Hl; apply (Hcommon l Hl)).
  destruct (bool_decide _); reflexivity.
Qed.

(** *** Runs of the script *)

(** Nothing is written before the last step. *)
Lemma shape_and_save_cases file_path output_file w :
  (exists e, shape_and_save file_path output_file w = (w, inl e))
  \/ exists sheets gdm ngdm cleaned gdm_common ngdm_common combined,
       files w !! file_path = Some (Workbook sheets)
       /\ dict_get "GDM" sheets = Some gdm
       /\ dict_get "NGDM" sheets = Some ngdm
       /\ remove_columns
            (on_columns (restrict named) (on_columns strip_labels gdm))
            (on_columns (restrict named) (on_columns strip_labels ngdm))
          = inr cleaned
       /\ getitem (common (columns (fst cleaned))
                          (columns (add_treatment (snd cleaned))))
                  (fst cleaned) = inr gdm_common
       /\ getitem (common (columns (fst cleaned))
                          (columns (add_treatment (snd cleaned))))
                  (add_treatment (snd cleaned)) = inr ngdm_common
       /\ concat (setitem "GDM" (VNum 0) ngdm_common)
                 (setitem "GDM" (VNum 1) gdm_common) = inr combined
       /\ (output_file ∉ unwritable w)
       /\ shape_and_save file_path output_file w
          = ({| files := <[output_file := Csv combined]> (files w);
                unwritable := unwritable w |}, inr combined).
Proof.
  unfold shape_and_save, bind, read_excel, lift, ret.
  destruct (files w !! file_path) as [[sheets| |]|] eqn:Hfile;
    try (left; eexists; reflexivity).
  destruct (dict_get "GDM" sheets) as [gdm|] eqn:Hg;
    [|left; eexists; reflexivity].
  rewrite Hfile.
  destruct (dict_get "NGDM" sheets) as [ngdm|] eqn:Hn;
    [|left; eexists; reflexivity].
  destruct (remove_columns _ _) as [e|cleaned] eqn:Hclean;
    [left; eexists; reflexivity|].
  cbv zeta.
  destruct (getitem _ (fst cleaned)) as [e|gc] eqn:Hgc;
    [left; eexists; reflexivity|].
  destruct (getitem _ (add_treatment (snd cleaned))) as [e|nc] eqn:Hnc;
    [left; eexists; reflexivity|].
  destruct (concat _ _) as [e|combined] eqn:Hcat;
    [left; eexists; reflexivity|].
  unfold to_csv.
  destruct (bool_decide (output_file ∈ unwritable w)) eqn:Hw;
    [left; eexists; reflexivity|].
  apply bool_decide_eq_false_1 in Hw.
  right. exists sheets, gdm, ngdm, cleaned, gc, nc, combined.
  repeat split; try assumption; reflexivity.
Qed.

(** A run ends in one of three ways. *)
Lemma process_gdm_data_cases file_path output_file w :
  process_gdm_data file_path output_file w = (w, inr false)
  \/ exists w' combined,
       shape_and_save file_path output_file w = (w', inr combined)
       /\ ((exists e, target_distribution combined = inl e)
           /\ process_gdm_data file_path output_file w = (w', inr false)
           \/ target_distribution combined = inr tt
              /\ process_gdm_data file_path output_file w = (w', inr true)).
Proof.
  unfold process_gdm_data.
  destruct (negb (path_exists file_path w)); [left; reflexivity|].
  unfold try_except, bind, ret, lift.
  destruct (shape_and_save_cases file_path output_file w)
    as [[e He]|(sheets & gdm & ngdm & cleaned & gc & nc & combined & H)].
  - rewrite He. left. reflexivity.
  - destruct H as (_ & _ & _ & _ & _ & _ & _ & _ & Hrun).
    rewrite Hrun. right. do 2 eexists. split; [reflexivity|].
    destruct (target_distribution combined) as [e|[]].
    + left. split; [eexists|]; reflexivity.
    + right. split; reflexivity.
Qed.

(** C9, as amended. [process_gdm_data] never raises.  When the input file
    does not exist it returns False.  When a step up to and including the
    opening of the output file raises, the exception is caught, it returns
    False, and the files are as they were before the call.  When the
    summary printed after the write raises, it returns False as well; the
    complete CSV is on disk by then and stays there.  These are the only
    runs that return False: True is returned exactly when the write and
    the summary both succeed. *)
Theorem process_gdm_data_failure_policy file_path output_file w :
  (exists b w', process_gdm_data file_path output_file w = (w', inr b))
  /\ (files w !! file_path = None ->
      process_gdm_data file_path output_file w = (w, inr false))
  /\ (forall w1 e, shape_and_save file_path output_file w = (w1, inl e) ->
      w1 = w /\ process_gdm_data file_path output_file w = (w, inr false))
  /\ (forall w', process_gdm_data file_path output_file w = (w', inr false) ->
      w' = w
      \/ exists combined e,
           shape_and_save file_path output_file w = (w', inr combined)
           /\ target_distribution combined = inl e
           /\ files w' !! output_file = Some (Csv combined))
  /\ (forall w' combined e,
      shape_and_save file_path output_file w = (w', inr combined) ->
      target_distribution combined = inl e ->
      process_gdm_data file_path output_file w = (w', inr false)
      /\ files w' !! output_file = Some (Csv combined))
  /\ (forall w',
      process_gdm_data file_path output_file w = (w', inr true)
      <-> exists combined,
            shape_and_save file_path output_file w = (w', inr combined)
            /\ target_distribution combined = inr tt).
Proof.
  pose proof (process_gdm_data_cases file_path output_file w) as Hcases.
  assert (Hafter : forall w' combined,
             shape_and_save file_path output_file w = (w', inr combined) ->
             process_gdm_data file_path output_file w
             = (w', inr (match target_distribution combined with
                         | inr _ => true
                         | inl _ => false
                         end))
             /\ files w' !! output_file = Some (Csv combined)).
  { intros w' combined Hsave.
    destruct (shape_and_save_cases file_path output_file w)
      as [[e' He']|(sheets & ? & ? & ? & ? & ? & combined'
                    & Hfile & _ & _ & _ & _ & _ & _ & _ & Hrun)].
    { rewrite He' in Hsave. discriminate. }
    pose proof Hsave as Hsave'. rewrite Hrun in Hsave'.
    injection Hsave' as <- <-.
    split; [|cbn [files]; apply lookup_insert_eq].
    unfold process_gdm_data, path_exists.
    rewrite (bool_decide_eq_true_2 (is_Some (files w !! file_path)))
      by (rewrite Hfile; eauto).
    cbn [negb]. unfold try_except, bind, lift, ret. rewrite Hrun.
    destruct (target_distribution combined') as [e|[]]; reflexivity. }
  split; [|split; [|split; [|split; [|split]]]].
  - destruct Hcases as [H|(w' & c & _ & [[_ H]|[_ H]])];
      rewrite H; do 2 eexists; reflexivity.
  - intros Hnone. unfold process_gdm_data, path_exists.
    rewrite bool_decide_eq_false_2; [reflexivity|].
    rewrite Hnone. intros [x Hx]. discriminate.
  - intros w1 e He.
    destruct (shape_and_save_cases file_path output_file w)
      as [[e' He']|(? & ? & ? & ? & ? & ? & ? & H)].
    + rewrite He' in He. injection He as <- _.
      split; [reflexivity|].
      destruct Hcases as [H|(w' & c & Hrun & _)]; [exact H|].
      rewrite Hrun in He'. discriminate.
    + destruct H as (_ & _ & _ & _ & _ & _ & _ & _ & Hrun).
      rewrite Hrun in He. discriminate.
  - intros w' H.
    destruct Hcases as [H0|(w2 & c & Hrun & [[[e He] H2]|[_ H2]])].
    + rewrite H0 in H. injection H as <-. left. reflexivity.
    + rewrite H2 in H. injection H as <-. right. exists c, e.
      split; [exact Hrun|]. split; [exact He|].
      exact (proj2 (Hafter w2 c Hrun)).
    + rewrite H2 in H. discriminate.
  - intros w' combined e Hsave Htd.
    destruct (Hafter w' combined Hsave) as [Hrun Hfile].
    rewrite Htd in Hrun. split; assumption.
  - intros w'. split.
    + intros H.
      destruct Hcases as [H0|(w2 & c & Hrun & [[_ H2]|[Htd H2]])];
        [rewrite H0 in H; discriminate | rewrite H2 in H; discriminate |].
      rewrite H2 in H. injection H as <-. exists c. split; assumption.
    + intros (combined & Hsave & Htd).
      destruct (Hafter w' combined Hsave) as [Hrun _].
      rewrite Htd in Hrun. exact Hrun.
Qed.

Lemma rows_strip sheet :
  rows (on_columns strip_labels sheet) = map (strip_labels value) (rows sheet).
Proof. reflexivity. Qed.

(** From a sheet to its block of the output: strip, drop the placeholder
    columns, drop the unwanted columns. *)
Lemma cleaned_sheet sheet cleaned :
  restriction_of (on_columns (restrict named) (on_columns strip_labels sheet))
                 cleaned ->
  well_formed sheet ->
  well_formed cleaned
  /\ preserves_except [] (on_columns strip_labels sheet) cleaned.
Proof.
  intros Hres Hwf.
  assert (Hall : restriction_of (on_columns strip_labels sheet) cleaned).
  { eapply restriction_of_trans; [apply restriction_of_on_columns | exact Hres]. }
  split.
  - eapply restriction_well_formed; [exact Hall|]. apply strip_well_formed, Hwf.
  - apply restriction_preserves, Hall.
Qed.

(** C8. When the shaper succeeds, the CSV holds one row per row of the two
    sheets: first the rows of the NGDM sheet in their order, each labelled
    0 in column "GDM", then the rows of the GDM sheet in their order, each
    labelled 1; every other column of the output holds the cell that the
    row had in its sheet. *)
Theorem combined_rows_and_labels file_path output_file w w' sheets gdm ngdm :
  files w !! file_path = Some (Workbook sheets) ->
  dict_get "GDM" sheets = Some gdm ->
  dict_get "NGDM" sheets = Some ngdm ->
  well_formed gdm -> well_formed ngdm ->
  process_gdm_data file_path output_file w = (w', inr true) ->
  exists out,
    files w' !! output_file = Some (Csv out)
    /\ length (rows out) = (length (rows gdm) + length (rows ngdm))%nat
    /\ "GDM" ∈ columns out
    /\ (forall i r, nth_error (rows ngdm) i = Some r ->
        exists r', nth_error (rows out) i = Some r'
          /\ labelled "GDM" (VNum 0) r'
          /\ forall c, c ∈ columns out -> c <> "GDM" ->
               c <> "Type of treatment" ->
               dict_get c r' = dict_get c (strip_labels value r))
    /\ (forall i r, nth_error (rows gdm) i = Some r ->
        exists r', nth_error (rows out) (length (rows ngdm) + i) = Some r'
          /\ labelled "GDM" (VNum 1) r'
          /\ forall c, c ∈ columns out -> c <> "GDM" ->
               dict_get c r' = dict_get c (strip_labels value r)).
Proof.
  intros Hfile Hg Hn Hwfg Hwfn Hrun.
  destruct (process_gdm_data_cases file_path output_file w)
    as [H|(w2 & out & Hsave & [[_ H]|[_ H]])];
    rewrite H in Hrun; try discriminate.
  injection Hrun as <-. clear H.
  destruct (shape_and_save_cases file_path output_file w)
    as [[e He]|(sheets' & gdm' & ngdm' & [g1 n1] & gc & nc & combined
                & Hfile' & Hg' & Hn' & Hclean & Hgc & Hnc & Hcat & _ & Hrun)].
  { rewrite He in Hsave. discriminate. }
  rewrite Hrun in Hsave. injection Hsave as <- <-. clear Hrun.
  rewrite Hfile in Hfile'. injection Hfile' as <-.
  rewrite Hg in Hg'. injection Hg' as <-.
  rewrite Hn in Hn'. injection Hn' as <-.
  cbn [fst snd] in Hgc, Hnc.
  apply remove_columns_restriction in Hclean as [Hresg Hresn].
  destruct (cleaned_sheet gdm g1 Hresg Hwfg) as [Hwfg1 Hpg1].
  destruct (cleaned_sheet ngdm n1 Hresn Hwfn) as [Hwfn1 Hpn1].
  apply getitem_inr in Hgc, Hnc. subst gc nc.
  set (cc := common (columns g1) (columns (add_treatment n1))) in *.
  set (gc := on_columns (pick cc) g1) in *.
  set (nc := on_columns (pick cc) (add_treatment n1)) in *.
  assert (Hwfgc : well_formed gc) by apply pick_well_formed, Hwfg1.
  assert (Hwfnc : well_formed nc)
    by apply pick_well_formed, add_treatment_well_formed, Hwfn1.
  (* the two blocks, row by row *)
  assert (Hpg : preserves_except ["GDM"] (on_columns strip_labels gdm)
                                 (setitem "GDM" (VNum 1) gc)).
  { apply (preserves_except_trans [] ["GDM"] _ gc);
      [|apply setitem_preserves].
    apply (preserves_except_trans [] [] _ g1); [exact Hpg1|].
    apply pick_preserves. }
  assert (Hpn : preserves_except ["Type of treatment"; "GDM"]
                                 (on_columns strip_labels ngdm)
                                 (setitem "GDM" (VNum 0) nc)).
  { apply (preserves_except_trans ["Type of treatment"] ["GDM"] _ nc);
      [|apply setitem_preserves].
    apply (preserves_except_trans ["Type of treatment"] [] _ (add_treatment n1));
      [|apply pick_preserves].
    apply (preserves_except_trans [] ["Type of treatment"] _ n1);
      [exact Hpn1 | apply add_treatment_preserves]. }
  destruct Hpg as (_ & fg & Hrows_g & Hcells_g).
  destruct Hpn as (_ & fn & Hrows_n & Hcells_n).
  rewrite rows_strip in Hrows_g, Hrows_n.
  pose proof (setitem_labelled "GDM" (VNum 1) gc Hwfgc) as Hlab_g.
  pose proof (setitem_labelled "GDM" (VNum 0) nc Hwfnc) as Hlab_n.
  rewrite Hrows_g in Hlab_g. rewrite Hrows_n in Hlab_n.
  rewrite List.Forall_forall in Hlab_g, Hlab_n.
  destruct (concat_inr _ _ _ Hcat) as (Hcols & Hsame & Hrows).
  rewrite Hrows_g, Hrows_n in Hrows.
  exists combined. split; [cbn [files]; apply lookup_insert_eq|].
  split; [rewrite Hrows, length_app, !length_map; lia|].
  split; [rewrite Hcols; apply setitem_columns|].
  split.
  - intros i r Hi. exists (fn (strip_labels value r)).
    assert (Hnth : nth_error (map fn (map (strip_labels value) (rows ngdm))) i
                   = Some (fn (strip_labels value r))).
    { rewrite map_map.
      apply (map_nth_error (fun x => fn (strip_labels value x))). exact Hi. }
    split; [rewrite Hrows; rewrite nth_error_app1;
            [exact Hnth | apply nth_error_Some; rewrite Hnth; discriminate]|].
    split; [apply Hlab_n; eapply nth_error_In; exact Hnth|].
    intros c Hc Hne1 Hne2. apply Hcells_n.
    + rewrite <- Hcols. exact Hc.
    + intros Hin. apply elem_of_cons in Hin as [->|Hin]; [contradiction|].
      apply list_elem_of_singleton in Hin. contradiction.
  - intros i r Hi. exists (fg (strip_labels value r)).
    assert (Hnth : nth_error (map fg (map (strip_labels value) (rows gdm))) i
                   = Some (fg (strip_labels value r))).
    { rewrite map_map.
      apply (map_nth_error (fun x => fg (strip_labels value x))). exact Hi. }
    split.
    { rewrite Hrows, nth_error_app2; rewrite !length_map; [|lia].
      replace (length (rows ngdm) + i - length (rows ngdm))%nat with i by lia.
      exact Hnth. }
    split; [apply Hlab_g; eapply nth_error_In; exact Hnth|].
    intros c Hc Hne. apply Hcells_g.
    + rewrite <- Hsame, <- Hcols. exact Hc.
    + intros Hin. apply list_elem_of_singleton in Hin. contradiction.
Qed.

End ShaperFacts.

(** ** More on the prediction service *)

Section ServiceMore.
Import Service.
Variable parse_number : string -> option Q.
Variable float_round : Q -> Q.

Abbreviation aligned_frame := (aligned_frame parse_number).
Abbreviation preprocess_input := (preprocess_input parse_number).
Abbreviation predict := (predict parse_number float_round).
Abbreviation column_value := (column_value parse_number).
Abbreviation to_numeric := (to_numeric parse_number).

(** The request is read at the canonical keys only. *)
Lemma rename_fields_ext_on d d' :
  (forall k, k ∈ feature_columns -> dict_get k d = dict_get k d') ->
  rename_fields d = rename_fields d'.
Proof.
  intros Hext. unfold rename_fields.
  assert (Hkeys : forall fk mk, In (fk, mk) mapping -> fk ∈ feature_columns).
  { intros fk mk Hin. unfold mapping in Hin. cbn in Hin.
    repeat (destruct Hin as [Hin|Hin];
            [injection Hin as <- _; apply (bool_decide_unpack _); vm_compute; exact I|]).
    contradiction. }
  revert Hkeys. generalize (@nil (string * value)) as acc. generalize mapping as m.
  induction m as [|[fk mk] m IH]; intros acc Hkeys; simpl.
  - reflexivity.
  - rewrite (Hext fk) by (apply (Hkeys fk mk); left; reflexivity).
    apply IH. intros fk' mk' Hin. apply (Hkeys fk' mk'). right. exact Hin.
Qed.

Lemma predict_of_preprocess self d d' :
  preprocess_input self d = preprocess_input self d' ->
  predict self d = predict self d'.
Proof. intros H. unfold Service.predict. rewrite H. reflexivity. Qed.

(** X1.  A key that is not one of the 14 canonical names has no effect:
    adding it to a request, or changing its value, changes neither the
    frame that [preprocess_input] returns nor the answer of [predict]. *)
Theorem unknown_keys_are_ignored self d k v :
  k ∉ feature_columns ->
  preprocess_input self (dict_set k v d) = preprocess_input self d
  /\ predict self (dict_set k v d) = predict self d.
Proof.
  intros Hk.
  assert (Hpre : preprocess_input self (dict_set k v d) = preprocess_input self d).
  { unfold Service.preprocess_input, Service.aligned_frame.
    rewrite (rename_fields_ext_on (dict_set k v d) d); [reflexivity|].
    intros c Hc. apply dict_get_set_ne. intros ->. contradiction. }
  split; [exact Hpre | apply predict_of_preprocess, Hpre].
Qed.

Lemma aligned_frame_inr_scalars d df :
  aligned_frame d = inr df -> categorical_scalars d.
Proof.
  intros Hdf c v Hin Hc. destruct (hashable v) eqn:Hh; [reflexivity|].
  destruct (aligned_frame_unhashable parse_number d c v Hin Hc Hh) as [msg Hmsg].
  rewrite Hmsg in Hdf. discriminate.
Qed.

Lemma aligned_frame_inr_closed d df :
  aligned_frame d = inr df ->
  df = map (fun c => (c, column_value d c)) feature_columns.
Proof.
  intros Hdf.
  pose proof (aligned_frame_closed_form parse_number d
                (aligned_frame_inr_scalars d df Hdf)) as Hcl.
  rewrite Hcl in Hdf. injection Hdf as <-. reflexivity.
Qed.

Lemma aligned_frame_inr_cell d df c v :
  aligned_frame d = inr df -> dict_get c df = Some v ->
  c ∈ feature_columns /\ v = column_value d c.
Proof.
  intros Hdf Hc. rewrite (aligned_frame_inr_closed d df Hdf) in Hc.
  rewrite dict_get_tabulate in Hc.
  destruct (bool_decide (c ∈ feature_columns)) eqn:Hin; [|discriminate].
  apply bool_decide_eq_true_1 in Hin. injection Hc as <-. split; [exact Hin|].
  reflexivity.
Qed.

Lemma feature_kinds c :
  c ∈ feature_columns ->
  c ∈ numerical_columns
  \/ (bool_decide (c ∈ numerical_columns) = false
      /\ exists table, dict_get c categorical_mappings = Some table).
Proof.
  unfold feature_columns. intros H.
  repeat (apply elem_of_cons in H as [->|H];
          [first [ left; apply (bool_decide_unpack _); vm_compute; exact I
                 | right; split; [vm_compute; reflexivity | eexists; reflexivity] ]|]).
  inversion H.
Qed.

Lemma table_ranges :
  (forall s n, hypertension_table !! s = Some n -> (0 <= n <= 1)%Z)
  /\ (forall s n, treatment_table !! s = Some n -> (0 <= n <= 2)%Z)
  /\ (forall s n, nationality_table !! s = Some n -> (0 <= n <= 17)%Z).
Proof.
  split; [|split]; intros s n H;
    apply elem_of_list_to_map_2 in H;
    repeat (apply elem_of_cons in H as [H|H];
            [assert (Hn : n = snd (s, n)) by reflexivity;
             rewrite H in Hn; simpl in Hn; lia|]);
    inversion H.
Qed.

(** What the recoding of a scalar gives: the code of a known label, or 0. *)
Lemma recode_inr table v v' :
  recode table v = inr v' ->
  exists n : Z, v' = VNum (inject_Z n)
                /\ (n = 0%Z \/ exists s, v = VStr s /\ table !! s = Some n).
Proof.
  unfold recode. destruct v; simpl; intros H; try discriminate;
    try (injection H as <-; exists 0%Z; split; [reflexivity | left; reflexivity]).
  destruct (table !! s) as [n|] eqn:Hs; injection H as <-.
  - exists n. split; [reflexivity|]. right. exists s. split; [reflexivity|exact Hs].
  - exists 0%Z. split; [reflexivity | left; reflexivity].
Qed.

(** X2.  In the frame that is handed to the scaler every cell is a number,
    except that a JSON boolean sent for a numerical field stays a boolean:
    no NaN, no null, no text and no container is left. *)
Theorem aligned_cells_are_numbers d df c v :
  aligned_frame d = inr df ->
  dict_get c df = Some v ->
  (exists q, v = VNum q)
  \/ (exists b, v = VBool b /\ c ∈ numerical_columns /\ dict_get c d = Some (VBool b)).
Proof.
  intros Hdf Hc.
  destruct (aligned_frame_inr_cell d df c v Hdf Hc) as [Hin ->].
  pose proof (aligned_frame_inr_scalars d df Hdf) as Hsc.
  unfold Service.column_value.
  destruct (dict_get c d) as [x|] eqn:Hx; [|left; eexists; reflexivity].
  destruct (feature_kinds c Hin) as [Hnum|[Hnum [table Ht]]].
  - rewrite (bool_decide_eq_true_2 _ Hnum).
    destruct x; simpl; try (left; eexists; reflexivity).
    + right. exists b. repeat split. exact Hnum.
    + destruct (parse_number s); left; eexists; reflexivity.
  - rewrite Hnum, Ht. left.
    destruct (recode table x) as [e|v'] eqn:Hr; [eexists; reflexivity|].
    destruct (recode_inr table x v' Hr) as (n & -> & _). eexists. reflexivity.
Qed.

(** X3.  A categorical cell of the aligned frame is an integer code within
    the range of its table: 0 or 1 for hypertension, 0 to 2 for the
    treatment, 0 to 17 for the nationality. *)
Theorem category_codes_in_range d df c v :
  aligned_frame d = inr df ->
  c ∈ keys categorical_mappings ->
  dict_get c df = Some v ->
  exists n : Z,
    v = VNum (inject_Z n)
    /\ (c = "hypertensiveDisorders" -> (0 <= n <= 1)%Z)
    /\ (c = "typeOfTreatment" -> (0 <= n <= 2)%Z)
    /\ (c = "nationality" -> (0 <= n <= 17)%Z).
Proof.
  intros Hdf Hcat Hc.
  destruct (aligned_frame_inr_cell d df c v Hdf Hc) as [Hin ->].
  destruct table_ranges as (Hh & Ht & Hn).
  unfold Service.column_value.
  rewrite (categorical_not_numerical c Hcat).
  destruct (dict_get c d) as [x|] eqn:Hx.
  2:{ exists 0%Z. split; [reflexivity|]. split; [|split]; intros _; lia. }
  assert (Hcode : forall table lo hi,
             (forall s n, table !! s = Some n -> (lo <= n <= hi)%Z) ->
             (lo <= 0 <= hi)%Z ->
             exists n : Z,
               match recode table x with
               | inl _ => VNum 0
               | inr v => v
               end = VNum (inject_Z n) /\ (lo <= n <= hi)%Z).
  { intros table lo hi Hrange H0.
    destruct (recode table x) as [e|v'] eqn:Hr.
    - exists 0%Z. split; [reflexivity|exact H0].
    - destruct (recode_inr table x v' Hr) as (n & -> & [->|(s & _ & Hs)]).
      + exists 0%Z. split; [reflexivity|exact H0].
      + exists n. split; [reflexivity|exact (Hrange s n Hs)]. }
  cbn in Hcat.
  apply elem_of_cons in Hcat as [->|Hcat];
    [|apply elem_of_cons in Hcat as [->|Hcat];
      [|apply elem_of_cons in Hcat as [->|Hcat]; [|inversion Hcat]]].
  - replace (dict_get "hypertensiveDisorders" categorical_mappings)
      with (Some hypertension_table) by reflexivity.
    destruct (Hcode hypertension_table 0%Z 1%Z Hh ltac:(lia)) as (n & Hv & Hr).
    exists n. split; [exact Hv|].
    split; [intros _; exact Hr | split; intros; discriminate].
  - replace (dict_get "typeOfTreatment" categorical_mappings)
      with (Some treatment_table) by reflexivity.
    destruct (Hcode treatment_table 0%Z 2%Z Ht ltac:(lia)) as (n & Hv & Hr).
    exists n. split; [exact Hv|].
    split; [intros; discriminate | split; [intros _; exact Hr | intros; discriminate]].
  - replace (dict_get "nationality" categorical_mappings)
      with (Some nationality_table) by reflexivity.
    destruct (Hcode nationality_table 0%Z 17%Z Hn ltac:(lia)) as (n & Hv & Hr).
    exists n. split; [exact Hv|].
    split; [intros; discriminate | split; [intros; discriminate | intros _; exact Hr]].
Qed.

(** *** When the scaler fails *)

(** X4.  A loaded scaler whose [transform] raises, or returns a row of
    the wrong width, does not fail the request: the aligned frame is
    returned unscaled, as if no scaler were loaded, and the log holds a
    warning after the one call of [transform]. *)
Theorem failed_scaling_is_skipped self s d df :
  aligned_frame d = inr df ->
  scaler self = Some s ->
  (forall X arr, transform s X = inr arr -> length arr <> length (keys X)) ->
  snd (preprocess_input self d) = inr df
  /\ exists X msg,
       fst (preprocess_input self d)
       = [CallTransform X;
          LogWarning ("Could not apply pre-trained scaler: " +:+ msg
                      +:+ ". Skipping scaling.")].
Proof.
  intros Hdf Hs Hbad. destruct (aligned_frame_inr parse_number d df Hdf) as [Hk Hsome].
  rewrite (preprocess_input_of_aligned parse_number self d df Hdf).
  unfold apply_scaling. rewrite Hs.
  destruct (fitted_on_all_features s).
  - unfold call_transform, frame_of_array, try_except, bind, emit, lift, ret.
    destruct (transform s df) as [e|arr] eqn:Ht.
    + split; [reflexivity|]. do 2 eexists. reflexivity.
    + apply Hbad in Ht. apply Nat.eqb_neq in Ht. rewrite Ht.
      split; [reflexivity|]. do 2 eexists. reflexivity.
  - pose proof (select_columns_total numerical_columns df) as Hsel.
    specialize (Hsel (fun c Hc => Hsome c (numerical_is_feature c Hc))).
    unfold call_transform, assign_columns, try_except, bind, emit, lift, ret.
    rewrite Hsel.
    remember numerical_columns as cols eqn:Hcols.
    remember (map _ cols) as X eqn:HX.
    assert (HkX : keys X = cols) by (rewrite HX; apply keys_tabulate).
    destruct (transform s X) as [e|arr] eqn:Ht.
    + split; [reflexivity|]. do 2 eexists. reflexivity.
    + apply Hbad in Ht. rewrite HkX in Ht. apply Nat.eqb_neq in Ht. rewrite Ht.
      split; [reflexivity|]. do 2 eexists. reflexivity.
Qed.

(** *** The exceptions of [predict] *)

Lemma wrapped_inl_inv {A} (m : M A) (tag prefix : string) t e :
  try_except m
    (fun e => emit (LogError (tag +:+ str e)) ;;;
              raise (ValueError (prefix +:+ str e))) = (t, inl e) ->
  exists t0 cause,
    m = (t0, inl cause)
    /\ t = t0 ++ [LogError (tag +:+ str cause)]
    /\ e = ValueError (prefix +:+ str cause).
Proof.
  destruct m as [t0 [cause|a]]; unfold try_except, bind, emit, raise; cbn.
  - intros H. exists t0, cause. split; [reflexivity|].
    split; congruence.
  - discriminate.
Qed.

Lemma predict_inl_inv self d t e :
  predict self d = (t, inl e) ->
  (model self = None /\ t = [] /\ e = not_loaded)
  \/ exists t0 cause,
       model self <> None
       /\ t = t0 ++ [LogError ("Prediction error: " +:+ str cause)]
       /\ e = ValueError ("Prediction failed: " +:+ str cause).
Proof.
  unfold Service.predict. destruct (model self) as [m|].
  - intros H. apply wrapped_inl_inv in H as (t0 & cause & _ & Ht & He).
    right. exists t0, cause. split; [discriminate|]. split; assumption.
  - unfold raise. intros H. left. split; [reflexivity|]. split; congruence.
Qed.

(** X5.  Whatever goes wrong inside [predict], preprocessing or a call
    into the model, the caller sees a [ValueError]: the not-loaded message
    with nothing logged, or the cause wrapped as ["Prediction failed: ..."]
    after a log record; no other kind of exception leaves [predict]. *)
Theorem predict_raises_only_value_errors self d t e :
  predict self d = (t, inl e) ->
  (exists msg, e = ValueError msg)
  /\ (model self = None -> t = [] /\ e = not_loaded)
  /\ (model self <> None ->
      exists t0 cause,
        t = t0 ++ [LogError ("Prediction error: " +:+ str cause)]
        /\ e = ValueError ("Prediction failed: " +:+ str cause)).
Proof.
  intros H.
  destruct (predict_inl_inv self d t e H)
    as [(Hm & Ht & He)|(t0 & cause & Hm & Ht & He)].
  - split; [eexists; exact He|]. split; [intros _; split; assumption|].
    intros Hn. contradiction.
  - split; [eexists; exact He|]. split; [intros Hn; contradiction|].
    intros _. exists t0, cause. split; assumption.
Qed.

(** X6.  [sendFI] needs one importance per canonical column: with a model
    whose [feature_importances_] does not have 14 entries no request is
    ever answered, although the model itself is called first. *)
Theorem importances_must_cover_the_columns self m d :
  model self = Some m ->
  length (feature_importances_ m) <> 14%nat ->
  sendFI m = inl (ValueError "All arrays must be of the same length")
  /\ exists t msg, predict self d = (t, inl (ValueError msg)).
Proof.
  intros Hm Hlen.
  assert (Hfi : sendFI m = inl (ValueError "All arrays must be of the same length")).
  { unfold sendFI. change (length feature_columns) with 14%nat.
    destruct (14 =? length (feature_importances_ m))%nat eqn:E; [|reflexivity].
    apply Nat.eqb_eq in E. congruence. }
  split; [exact Hfi|].
  destruct (predict self d) as [t [e|r]] eqn:Hp.
  - destruct (predict_inl_inv self d t e Hp)
      as [(Hn & _)|(t0 & cause & _ & _ & He)]; [congruence|].
    exists t. eexists. rewrite He. reflexivity.
  - apply (predict_inr_inv parse_number float_round) in Hp
      as (m' & ? & ? & ? & ? & ? & ? & ? & imp & Hm' & _ & _ & _ & _ & _ & _ & Himp & _).
    assert (m' = m) by congruence. subst m'. congruence.
Qed.

(** *** When [predict] answers *)

Lemma map_fst_combine {A B} (l : list A) (k : list B) :
  length l = length k -> map fst (combine l k) = l.
Proof.
  revert k. induction l as [|a l IH]; intros [|b k] Hlen; try discriminate.
  - reflexivity.
  - simpl. f_equal. apply IH. simpl in Hlen. lia.
Qed.

(** With one importance per column the ranking is a rearrangement of the
    canonical names. *)
Lemma ranking_names m ranking :
  sendFI m = inr ranking -> map fst ranking ≡ₚ feature_columns.
Proof.
  unfold sendFI.
  destruct (length feature_columns =? length (feature_importances_ m))%nat eqn:Hlen;
    [|discriminate].
  apply Nat.eqb_eq in Hlen. intros H.
  assert (Hr : ranking
               = sort_values_desc (combine feature_columns (feature_importances_ m)))
    by congruence.
  rewrite Hr, (Permutation_map fst (sort_values_desc_perm _)).
  rewrite (map_fst_combine _ _ Hlen). reflexivity.
Qed.

Lemma sendFI_total m :
  length (feature_importances_ m) = 14%nat -> exists ranking, sendFI m = inr ranking.
Proof.
  intros Hlen. unfold sendFI. rewrite Hlen. eexists. reflexivity.
Qed.

(** X7.  [predict] answers every request with scalar categorical fields
    as soon as the model returns a label and a non-empty probability row
    for frames over the canonical columns and has 14 importances.  The
    label of the answer is one of the two texts, and the factors are five
    different canonical column names. *)
Theorem predict_answers self m d :
  model self = Some m ->
  categorical_scalars d ->
  (forall X, keys X = feature_columns ->
             exists lbl rest, model_predict m X = inr (lbl :: rest)) ->
  (forall X, keys X = feature_columns ->
             exists p ps rest, model_predict_proba m X = inr ((p :: ps) :: rest)) ->
  length (feature_importances_ m) = 14%nat ->
  exists t r,
    predict self d = (t, inr r)
    /\ (prediction r = "GDM Risk" \/ prediction r = "No GDM Risk")
    /\ length (factors r) = 5%nat
    /\ NoDup (factors r)
    /\ (forall f, f ∈ factors r -> f ∈ feature_columns)
    /\ model_version r = "1.0".
Proof.
  intros Hm Hsc Hpred Hproba Hlen.
  destruct (preprocess_input_total parse_number self d Hsc) as (t0 & X & HX & Hk).
  destruct (Hpred X Hk) as (lbl & rest & Hl).
  destruct (Hproba X Hk) as (p & ps & rest' & Hp).
  destruct (sendFI_total m Hlen) as [ranking Hfi].
  pose proof (ranking_names m ranking Hfi) as Hperm.
  unfold Service.predict. rewrite Hm, HX.
  unfold call_predict, call_predict_proba, try_except, bind, emit, lift, ret, first.
  rewrite Hl, Hp, Hfi. cbv beta iota zeta.
  do 2 eexists. split; [reflexivity|]. cbn [prediction factors model_version].
  split; [destruct (lbl =? 1)%Z; [left | right]; reflexivity|].
  split.
  { rewrite length_take, (Permutation_length Hperm). reflexivity. }
  split.
  { apply (sublist_NoDup _ (map fst ranking)); [|apply sublist_take].
    rewrite Hperm. exact NoDup_feature_columns. }
  split; [|reflexivity].
  intros f Hf. rewrite <- Hperm.
  exact (elem_of_sublist _ _ _ Hf (sublist_take _ _)).
Qed.

(** *** Numbers sent as text *)

Lemma categorical_scalars_set d c v :
  categorical_scalars d -> c ∈ numerical_columns ->
  categorical_scalars (dict_set c v d).
Proof.
  intros Hsc Hnum c' v' Hcat Hget. rewrite dict_get_set in Hget.
  destruct (String.eqb c' c) eqn:E.
  - apply String.eqb_eq in E. subst c'.
    pose proof (categorical_not_numerical c Hcat) as Hn.
    rewrite (bool_decide_eq_true_2 _ Hnum) in Hn. discriminate.
  - exact (Hsc c' v' Hcat Hget).
Qed.

(** X8.  In a numerical field a string that pandas reads as the number
    [q] is the same request as the number [q] itself: the frame and the
    answer are the same. *)
Theorem numeric_text_is_its_number self d c s q :
  categorical_scalars d ->
  c ∈ numerical_columns ->
  parse_number s = Some q ->
  preprocess_input self (dict_set c (VStr s) d)
  = preprocess_input self (dict_set c (VNum q) d)
  /\ predict self (dict_set c (VStr s) d) = predict self (dict_set c (VNum q) d).
Proof.
  intros Hsc Hnum Hparse.
  assert (Hpre : preprocess_input self (dict_set c (VStr s) d)
                 = preprocess_input self (dict_set c (VNum q) d)).
  { rewrite (preprocess_input_of_aligned parse_number self _ _
               (aligned_frame_closed_form parse_number _
                  (categorical_scalars_set d c (VStr s) Hsc Hnum))).
    rewrite (preprocess_input_of_aligned parse_number self _ _
               (aligned_frame_closed_form parse_number _
                  (categorical_scalars_set d c (VNum q) Hsc Hnum))).
    f_equal. apply map_ext. intros k. f_equal.
    unfold Service.column_value. rewrite !dict_get_set.
    destruct (String.eqb k c) eqn:E; [|reflexivity].
    apply String.eqb_eq in E. subst k.
    rewrite (bool_decide_eq_true_2 _ Hnum). simpl. rewrite Hparse. reflexivity. }
  split; [exact Hpre|]. apply predict_of_preprocess. exact Hpre.
Qed.

End ServiceMore.

(** ** Start-up and the handlers *)

Section EndpointFacts.
Import Service Endpoints.

Variable parse_number : string -> option Q.
Variable float_round : Q -> Q.
Variable repr_float : Q -> string.

Abbreviation predict := (Service.predict parse_number float_round).
Abbreviation preprocess_input := (Service.preprocess_input parse_number).
Abbreviation aligned_frame := (Service.aligned_frame parse_number).
Abbreviation aligned_frame_json := (Endpoints.aligned_frame_json parse_number).
Abbreviation preprocess_input_json := (Endpoints.preprocess_input_json parse_number).
Abbreviation answer := (Endpoints.answer float_round).
Abbreviation predict_json := (Endpoints.predict_json parse_number float_round).
Abbreviation predict_gdm := (Endpoints.predict_gdm parse_number float_round repr_float).

(** *** A JSON object is the dictionary of the service *)

Lemma rename_fields_json_dict d :
  rename_fields_json (VDict d) = inr (rename_fields d).
Proof.
  unfold rename_fields_json, rename_fields.
  generalize (@nil (string * value)) as acc. generalize mapping as m.
  induction m as [|[fk mk] m IH]; intros acc; simpl; [reflexivity|].
  unfold dict_mem. destruct (dict_get fk d) as [v|]; simpl; apply IH.
Qed.

Lemma aligned_frame_json_dict d : aligned_frame_json (VDict d) = aligned_frame d.
Proof.
  unfold Endpoints.aligned_frame_json, Service.aligned_frame.
  rewrite rename_fields_json_dict. reflexivity.
Qed.

Lemma predict_json_dict self d : predict_json self (VDict d) = predict self d.
Proof.
  unfold Endpoints.predict_json, Service.predict,
    Endpoints.preprocess_input_json, Service.preprocess_input.
  rewrite aligned_frame_json_dict. reflexivity.
Qed.

Lemma predict_json_inl_inv self v t e :
  predict_json self v = (t, inl e) ->
  (model self = None /\ t = [] /\ e = not_loaded)
  \/ exists t0 cause,
       model self <> None
       /\ predict_json self v
          = (t0 ++ [LogError ("Prediction error: " +:+ str cause)],
             inl (ValueError ("Prediction failed: " +:+ str cause))).
Proof.
  intros H. pose proof H as H'. revert H'.
  unfold Endpoints.predict_json at 1. destruct (model self) as [m|].
  - intros H'. apply wrapped_inl_inv in H' as (t0 & cause & _ & Ht & He).
    right. exists t0, cause. split; [discriminate|]. rewrite H, Ht, He.
    reflexivity.
  - unfold raise. intros H'. left. split; [reflexivity|]. split; congruence.
Qed.

Lemma predict_json_inr_inv self v t r :
  predict_json self v = (t, inr r) ->
  exists m t0 X t1,
    model self = Some m
    /\ preprocess_input_json self v = (t0, inr X)
    /\ answer m X = (t1, inr r).
Proof.
  unfold Endpoints.predict_json. destruct (model self) as [m|]; [|discriminate].
  intros H. apply try_except_inr_inv in H.
  2:{ intros e. do 2 eexists. reflexivity. }
  apply bind_inr_inv in H as (t0 & X & t1 & HX & H & _).
  exists m, t0, X, t1. repeat split; assumption.
Qed.

(** What every answer looks like *)
Lemma answer_shape m X t r :
  answer m X = (t, inr r) ->
  (prediction r = "GDM Risk" \/ prediction r = "No GDM Risk")
  /\ length (factors r) = 5%nat
  /\ NoDup (factors r)
  /\ (forall f, f ∈ factors r -> f ∈ feature_columns)
  /\ model_version r = "1.0".
Proof.
  unfold Endpoints.answer. intros H.
  apply bind_inr_inv in H as (? & labels & ? & _ & H & _).
  apply bind_inr_inv in H as (? & lbl & ? & _ & H & _).
  apply bind_inr_inv in H as (? & probas & ? & _ & H & _).
  apply bind_inr_inv in H as (? & p & ? & _ & H & _).
  apply bind_inr_inv in H as (? & top & ? & _ & H & _).
  apply bind_inr_inv in H as (? & imp & ? & Himp & H & _).
  apply lift_inr_inv in Himp as [Himp _].
  pose proof (ranking_names m imp Himp) as Hperm.
  unfold ret in H. injection H as _ <-. cbn [prediction factors model_version].
  split; [destruct (lbl =? 1)%Z; [left | right]; reflexivity|].
  split.
  { rewrite length_take, (Permutation_length Hperm). reflexivity. }
  split.
  { apply (sublist_NoDup _ (map fst imp)); [|apply sublist_take].
    rewrite Hperm. exact NoDup_feature_columns. }
  split; [|reflexivity].
  intros f Hf. rewrite <- Hperm.
  exact (elem_of_sublist _ _ _ Hf (sublist_take _ _)).
Qed.

(** *** [POST /predict] *)

(** X9.  For a request whose [patientData] is a non-empty object the
    handler is [predict] on that object: 200 with the result and the
    measured time when [predict] answers, and 400 with the text of the
    exception otherwise, because [predict] raises nothing but
    [ValueError]s. *)
Theorem predict_gdm_serves_predict app kvs d rt :
  dict_get "patientData" kvs = Some (VDict d) ->
  d <> [] ->
  predict_gdm app (Parsed (VDict kvs)) rt
  = match predict (predictor app) d with
    | (t, inr r) =>
        (t ++ [LogInfo ("Prediction made: " +:+ prediction r
                        +:+ " with " +:+ repr_float (confidence r)
                        +:+ "% confidence")],
         {| status := 200; body := result_json r rt |})
    | (t, inl e) =>
        (t ++ [LogError ("Validation error: " +:+ str e)],
         error_response (str e) 400)
    end.
Proof.
  intros Hpd Hd. unfold Endpoints.predict_gdm.
  destruct kvs as [|kv kvs']; [discriminate|].
  cbv [truthy negb]. rewrite Hpd. cbv [default from_option id].
  destruct d as [|x d']; [contradiction|]. cbv beta iota.
  rewrite predict_json_dict.
  destruct (predict (predictor app) (x :: d')) as [t [e|r]] eqn:Hp; [|reflexivity].
  destruct (predict_inl_inv parse_number float_round _ _ t e Hp)
    as [(_ & _ & ->)|(t0 & cause & _ & _ & ->)]; reflexivity.
Qed.

Lemma truthy_object kvs (v : value) :
  dict_get "patientData" kvs = Some v -> truthy (VDict kvs) = true.
Proof. destruct kvs; [discriminate | reflexivity]. Qed.

(** The two outcomes of a request whose body is an object *)
Lemma predict_gdm_object_cases app kvs rt :
  (exists msg,
     snd (predict_gdm app (Parsed (VDict kvs)) rt) = error_response msg 400)
  \/ (exists t r,
        predict_json (predictor app) (default (VDict []) (dict_get "patientData" kvs))
        = (t, inr r)
        /\ snd (predict_gdm app (Parsed (VDict kvs)) rt)
           = {| status := 200; body := result_json r rt |}).
Proof.
  unfold Endpoints.predict_gdm.
  destruct (negb (truthy (VDict kvs))); [left; eexists; reflexivity|].
  destruct (negb (truthy (default (VDict []) (dict_get "patientData" kvs))));
    [left; eexists; reflexivity|].
  destruct (predict_json _ _) as [t [e|r]] eqn:Hp.
  - left.
    destruct (predict_json_inl_inv _ _ t e Hp)
      as [(_ & _ & ->)|(t0 & cause & _ & Heq)].
    + eexists. reflexivity.
    + rewrite Hp in Heq. injection Heq as _ ->. eexists. reflexivity.
  - right. exists t, r. split; reflexivity.
Qed.

(** X10.  The status of [POST /predict] is 200, 400 or 500, and it is 500
    exactly for a body that cannot be read as JSON or whose JSON value is
    not an object (and not empty): every failure inside [predict] comes
    back as 400.  A 200 needs a loaded model, and any other response is an
    object with the one key ["error"], whose text for a 500 is the fixed
    sentence. *)
Theorem server_error_only_for_malformed_bodies app req rt :
  let resp := snd (predict_gdm app req rt) in
  (status resp = 200 \/ status resp = 400 \/ status resp = 500)%Z
  /\ (status resp = 500%Z <->
      match req with
      | Unreadable _ => True
      | Parsed (VDict _) => False
      | Parsed data => truthy data = true
      end)
  /\ (status resp = 200%Z -> model (predictor app) <> None)
  /\ (status resp <> 200%Z ->
      exists msg, body resp = {[ "error" := VStr msg ]}
                  /\ (status resp = 500%Z -> msg = "Internal server error occurred")).
Proof.
  destruct req as [data|msg].
  2:{ cbn. split; [tauto|]. split; [tauto|]. split; [discriminate|].
      intros _. eexists. split; reflexivity. }
  destruct data as [q| |b|s| |xs|kvs].
  7:{ destruct (predict_gdm_object_cases app kvs rt)
        as [[msg Hr]|(t & r & Hp & Hr)]; cbv zeta; rewrite Hr; cbn [status body].
      - split; [tauto|]. split; [split; [discriminate|tauto]|].
        split; [discriminate|]. intros _. exists msg.
        split; [reflexivity|discriminate].
      - split; [tauto|]. split; [split; [discriminate|tauto]|].
        split; [|intros Hn; contradiction]. intros _.
        apply predict_json_inr_inv in Hp as (m & _ & _ & _ & Hm & _).
        congruence. }
  all: unfold Endpoints.predict_gdm;
    match goal with |- context [truthy ?v] => destruct (truthy v) end;
    cbn;
    (split; [tauto|]); (split; [split; [discriminate || tauto | discriminate || tauto]|]);
    (split; [discriminate|]); intros _; eexists;
    (split; [reflexivity | discriminate || reflexivity]).
Qed.

(** X11.  A 200 response is an object with exactly the six keys
    prediction, confidence, gdm_probability, factors, model_version and
    apiResponseTime; the time is the measured one, the version is 1.0, the
    prediction is one of the two texts, and factors is a list of five
    different canonical column names. *)
Theorem success_body app req rt :
  let resp := snd (predict_gdm app req rt) in
  status resp = 200%Z ->
  dom (body resp)
  = list_to_set [ "prediction"; "confidence"; "gdm_probability"; "factors";
                  "model_version"; "apiResponseTime" ]
  /\ body resp !! "apiResponseTime" = Some (VNum (inject_Z rt))
  /\ body resp !! "model_version" = Some (VStr "1.0")
  /\ (body resp !! "prediction" = Some (VStr "GDM Risk")
      \/ body resp !! "prediction" = Some (VStr "No GDM Risk"))
  /\ (exists c p, body resp !! "confidence" = Some (VNum c)
                  /\ body resp !! "gdm_probability" = Some (VNum p))
  /\ exists fs, body resp !! "factors" = Some (VList (map VStr fs))
                /\ length fs = 5%nat /\ NoDup fs
                /\ forall f, f ∈ fs -> f ∈ feature_columns.
Proof.
  cbv zeta. intros Hst.
  assert (Hr : exists t r,
             predict_json (predictor app)
               (match req with
                | Parsed (VDict kvs) => default (VDict []) (dict_get "patientData" kvs)
                | _ => VNone
                end) = (t, inr r)
             /\ snd (predict_gdm app req rt)
                = {| status := 200; body := result_json r rt |}).
  { destruct req as [data|msg]; [|discriminate].
    destruct data as [q| |b|s| |xs|kvs];
      try (exfalso; revert Hst; unfold Endpoints.predict_gdm;
           match goal with |- context [truthy ?v] => destruct (truthy v) end;
           discriminate).
    destruct (predict_gdm_object_cases app kvs rt) as [[msg Hr]|Hr];
      [rewrite Hr in Hst; discriminate | exact Hr]. }
  destruct Hr as (t & r & Hp & ->). cbn [body].
  apply predict_json_inr_inv in Hp as (m & t0 & X & t1 & _ & _ & Hans).
  destruct (answer_shape m X t1 r Hans) as (Hlabel & Hlen & Hnd & Hsub & Hver).
  unfold result_json.
  split.
  { rewrite dom_insert_L, dom_list_to_map_L. apply set_eq. intros k.
    cbn. set_solver. }
  split; [apply lookup_insert_eq|].
  rewrite !lookup_insert_ne by discriminate.
  split; [rewrite <- Hver; reflexivity|].
  split; [destruct Hlabel as [Hl|Hl]; [left | right]; rewrite <- Hl; reflexivity|].
  split; [do 2 eexists; split; reflexivity|].
  exists (factors r). split; [reflexivity|]. repeat split; assumption.
Qed.

(** *** Start-up *)

Lemma init_model disk mp sp :
  model (predictor (snd (init disk mp sp)))
  = match model_pickles disk !! mp with
    | Some (inr m) => Some m
    | _ => None
    end.
Proof.
  unfold init, load_model, load_scaler.
  destruct (model_pickles disk !! mp) as [[e|m]|];
    destruct (scaler_pickles disk !! sp) as [[e'|s]|]; reflexivity.
Qed.

Lemma init_scaler disk mp sp :
  scaler (predictor (snd (init disk mp sp)))
  = match scaler_pickles disk !! sp with
    | Some (inr s) => Some s
    | _ => None
    end.
Proof.
  unfold init, load_model, load_scaler.
  destruct (model_pickles disk !! mp) as [[e|m]|];
    destruct (scaler_pickles disk !! sp) as [[e'|s]|]; reflexivity.
Qed.

Lemma predict_gdm_not_loaded app kvs pd rt :
  model (predictor app) = None ->
  dict_get "patientData" kvs = Some pd ->
  truthy pd = true ->
  predict_gdm app (Parsed (VDict kvs)) rt
  = ([LogError ("Validation error: " +:+ str not_loaded)],
     error_response (str not_loaded) 400).
Proof.
  intros Hm Hpd Ht. unfold Endpoints.predict_gdm.
  rewrite (truthy_object kvs pd Hpd), Hpd. cbv [default from_option id negb].
  rewrite Ht. cbv beta iota.
  unfold Endpoints.predict_json. rewrite Hm. reflexivity.
Qed.

(** X12.  When the model file is absent or does not unpickle, the service
    still starts; every request that passes the two emptiness checks is
    answered 400 with the not-loaded sentence and one log record, and the
    three GET endpoints report the model as not loaded, [/health] still
    with status ["healthy"]. *)
Theorem service_without_model disk mp sp kvs pd rt ts :
  (forall m, model_pickles disk !! mp <> Some (inr m)) ->
  dict_get "patientData" kvs = Some pd ->
  truthy pd = true ->
  let app := snd (init disk mp sp) in
  predict_gdm app (Parsed (VDict kvs)) rt
  = ([LogError ("Validation error: " +:+ str not_loaded)],
     error_response (str not_loaded) 400)
  /\ body (home app) !! "model_loaded" = Some (VBool false)
  /\ body (model_status app) !! "model_loaded" = Some (VBool false)
  /\ body (health_check app ts) !! "model_status" = Some (VStr "not_loaded")
  /\ body (health_check app ts) !! "status" = Some (VStr "healthy")
  /\ status (health_check app ts) = 200%Z.
Proof.
  intros Hno Hpd Ht app.
  assert (Hm : model (predictor app) = None).
  { unfold app. rewrite init_model.
    destruct (model_pickles disk !! mp) as [[e|m]|] eqn:E; try reflexivity.
    destruct (Hno m). reflexivity. }
  split; [exact (predict_gdm_not_loaded app kvs pd rt Hm Hpd Ht)|].
  unfold home, model_status, health_check. cbn [body status]. rewrite Hm.
  repeat split.
Qed.

(** X13.  When the model loads but the scaler file is absent or does not
    unpickle, requests are served without scaling: [preprocess_input]
    returns the aligned frame itself and the model is called on it. *)
Theorem service_without_scaler disk mp sp m d df :
  model_pickles disk !! mp = Some (inr m) ->
  (forall s, scaler_pickles disk !! sp <> Some (inr s)) ->
  aligned_frame d = inr df ->
  let app := snd (init disk mp sp) in
  model (predictor app) = Some m
  /\ preprocess_input (predictor app) d
     = ([LogInfo "No pre-trained scaler available, skipping scaling"], inr df)
  /\ exists t', fst (predict (predictor app) d)
                = LogInfo "No pre-trained scaler available, skipping scaling"
                  :: CallPredict df :: t'.
Proof.
  intros Hmodel Hno Hdf app.
  assert (Hm : model (predictor app) = Some m).
  { unfold app. rewrite init_model, Hmodel. reflexivity. }
  assert (Hs : scaler (predictor app) = None).
  { unfold app. rewrite init_scaler.
    destruct (scaler_pickles disk !! sp) as [[e|s]|] eqn:E; try reflexivity.
    destruct (Hno s). reflexivity. }
  assert (Hpre : preprocess_input (predictor app) d
                 = ([LogInfo "No pre-trained scaler available, skipping scaling"],
                    inr df)).
  { rewrite (preprocess_input_of_aligned parse_number _ d df Hdf).
    unfold apply_scaling. rewrite Hs. reflexivity. }
  split; [exact Hm|]. split; [exact Hpre|].
  exact (predict_calls_model parse_number float_round _ m d _ df Hm Hpre).
Qed.

(** *** [patientData] that holds none of the canonical keys *)

Lemma mapping_keys fk mk : (fk, mk) ∈ mapping -> fk ∈ feature_columns.
Proof.
  intros H. change feature_columns with (map fst mapping).
  apply list_elem_of_In. apply (in_map fst mapping (fk, mk)).
  apply list_elem_of_In. exact H.
Qed.

Lemma rename_fields_json_keyless v :
  (forall k, k ∈ feature_columns -> py_contains k v = inr false) ->
  rename_fields_json v = inr [].
Proof.
  intros Hno. unfold rename_fields_json.
  assert (Hm : forall fk mk, (fk, mk) ∈ mapping -> py_contains fk v = inr false).
  { intros fk mk H. apply Hno. exact (mapping_keys fk mk H). }
  revert Hm. generalize (@nil (string * value)) as acc. generalize mapping as m.
  induction m as [|[fk mk] m IH]; intros acc Hm; [reflexivity|].
  cbn [fold_left]. rewrite (Hm fk mk) by apply list_elem_of_here.
  apply IH. intros fk' mk' H. apply (Hm fk' mk'). apply list_elem_of_further.
  exact H.
Qed.

(** X14.  Only the 14 membership tests read [patientData]: a value in
    which none of the canonical names is found, be it an object with other
    keys, an array or a string, is served exactly as the empty record, so
    it gets the prediction for the all-zero frame. *)
Theorem keyless_patient_data_is_the_empty_record self v :
  (forall k, k ∈ feature_columns -> py_contains k v = inr false) ->
  aligned_frame_json v = inr (map (fun c => (c, VNum 0)) feature_columns)
  /\ predict_json self v = predict self [].
Proof.
  intros Hno. pose proof (rename_fields_json_keyless v Hno) as Hr.
  assert (Ha : aligned_frame_json v = aligned_frame []).
  { unfold Endpoints.aligned_frame_json, Service.aligned_frame. rewrite Hr.
    reflexivity. }
  split.
  - rewrite Ha. reflexivity.
  - unfold Endpoints.predict_json, Service.predict,
      Endpoints.preprocess_input_json, Service.preprocess_input.
    rewrite Ha. reflexivity.
Qed.

(** *** A failure while preprocessing *)

(** X15.  A request whose preprocessing raises is answered 400 when a
    model is loaded, and the failure is logged three times, by
    [preprocess_input], by [predict] and by the handler, each record
    wrapping the text of the one before; the client gets the text of the
    last. *)
Theorem preprocessing_failure_is_logged_three_times app kvs pd cause rt :
  model (predictor app) <> None ->
  dict_get "patientData" kvs = Some pd ->
  truthy pd = true ->
  aligned_frame_json pd = inl cause ->
  let msg := "Data preprocessing failed: " +:+ str cause in
  predict_gdm app (Parsed (VDict kvs)) rt
  = ([LogError ("Error preprocessing data: " +:+ str cause);
      LogError ("Prediction error: " +:+ msg);
      LogError ("Validation error: " +:+ ("Prediction failed: " +:+ msg))],
     error_response ("Prediction failed: " +:+ msg) 400).
Proof.
  intros Hm Hpd Ht Hcause. cbv zeta. unfold Endpoints.predict_gdm.
  rewrite (truthy_object kvs pd Hpd), Hpd. cbv [default from_option id negb].
  rewrite Ht. cbv beta iota.
  unfold Endpoints.predict_json. destruct (model (predictor app)) as [m|];
    [|contradiction].
  unfold Endpoints.preprocess_input_json. rewrite Hcause. reflexivity.
Qed.

(** X16.  A number, [true] or NaN sent as [patientData] passes the
    emptiness check and then fails the first membership test, so with a
    loaded model it is answered 400, never 500. *)
Theorem scalar_patient_data_is_rejected app kvs pd rt :
  model (predictor app) <> None ->
  dict_get "patientData" kvs = Some pd ->
  truthy pd = true ->
  non_string_scalar pd ->
  status (snd (predict_gdm app (Parsed (VDict kvs)) rt)) = 400%Z
  /\ length (fst (predict_gdm app (Parsed (VDict kvs)) rt)) = 3%nat.
Proof.
  intros Hm Hpd Ht Hsc.
  assert (Hcause : exists cause, aligned_frame_json pd = inl cause).
  { destruct pd; try contradiction; eexists; reflexivity. }
  destruct Hcause as [cause Hcause].
  unfold Endpoints.predict_gdm.
  rewrite (truthy_object kvs pd Hpd), Hpd. cbv [default from_option id negb].
  rewrite Ht. cbv beta iota.
  unfold Endpoints.predict_json. destruct (model (predictor app)) as [m|];
    [|contradiction].
  unfold Endpoints.preprocess_input_json. rewrite Hcause.
  split; reflexivity.
Qed.

(** *** The GET endpoints *)

(** X17.  The three GET endpoints always answer 200, and what they report
    about the model is the outcome of start-up: the flag of [/] and of
    [/model/status] is true, and the text of [/health] is ["loaded"],
    exactly when the model file was there and unpickled; [/model/status]
    reports the path given to the constructor either way, and the 14
    canonical names. *)
Theorem status_endpoints_report_the_model disk mp sp ts :
  let app := snd (init disk mp sp) in
  let loaded := exists m, model_pickles disk !! mp = Some (inr m) in
  (body (home app) !! "model_loaded" = Some (VBool true) <-> loaded)
  /\ (body (model_status app) !! "model_loaded" = Some (VBool true) <-> loaded)
  /\ (body (health_check app ts) !! "model_status" = Some (VStr "loaded")
      <-> loaded)
  /\ body (model_status app) !! "model_path" = Some (VStr mp)
  /\ body (model_status app) !! "feature_columns"
     = Some (VList (map VStr feature_columns))
  /\ status (home app) = 200%Z
  /\ status (model_status app) = 200%Z
  /\ status (health_check app ts) = 200%Z.
Proof.
  cbv zeta.
  assert (Hpath : model_path (snd (init disk mp sp)) = mp).
  { unfold init, load_model, load_scaler.
    destruct (model_pickles disk !! mp) as [[e|m]|];
      destruct (scaler_pickles disk !! sp) as [[e'|s]|]; reflexivity. }
  unfold home, model_status, health_check. cbn [body status].
  rewrite Hpath, init_model.
  destruct (model_pickles disk !! mp) as [[e|m]|].
  - repeat split; try discriminate; intros [m Hm]; discriminate.
  - repeat split; intros; eauto.
  - repeat split; try discriminate; intros [m Hm]; discriminate.
Qed.

End EndpointFacts.

(** ** More on the data shaper *)

Section ShaperMore.
Import Shaper.

(** A run that wrote the file, step by step *)
Lemma shape_and_save_inv file_path output_file w w' out :
  shape_and_save file_path output_file w = (w', inr out) ->
  exists sheets gdm ngdm g1 n1,
    files w !! file_path = Some (Workbook sheets)
    /\ dict_get "GDM" sheets = Some gdm
    /\ dict_get "NGDM" sheets = Some ngdm
    /\ remove_columns
         (on_columns (restrict named) (on_columns strip_labels gdm))
         (on_columns (restrict named) (on_columns strip_labels ngdm))
       = inr (g1, n1)
    /\ concat
         (setitem "GDM" (VNum 0)
            (on_columns (pick (common (columns g1) (columns (add_treatment n1))))
                        (add_treatment n1)))
         (setitem "GDM" (VNum 1)
            (on_columns (pick (common (columns g1) (columns (add_treatment n1))))
                        g1))
       = inr out
    /\ (output_file ∉ unwritable w)
    /\ w' = {| files := <[output_file := Csv out]> (files w);
               unwritable := unwritable w |}.
Proof.
  intros Hrun.
  destruct (shape_and_save_cases file_path output_file w)
    as [[e He]|(sheets & gdm & ngdm & [g1 n1] & gc & nc & combined
                & Hfile & Hg & Hn & Hclean & Hgc & Hnc & Hcat & Hw & Hrun')].
  { rewrite He in Hrun. discriminate. }
  rewrite Hrun' in Hrun. injection Hrun as <- <-.
  cbn [fst snd] in Hgc, Hnc. apply getitem_inr in Hgc, Hnc. subst gc nc.
  exists sheets, gdm, ngdm, g1, n1. repeat split; assumption.
Qed.

(** *** The files *)

(** X18.  A run changes at most the file at the output path: every other
    path holds what it held, the set of unwritable paths is the same, and
    after a run that returned True the output path holds a CSV. *)
Theorem only_the_output_path_is_written file_path output_file w w' b :
  process_gdm_data file_path output_file w = (w', inr b) ->
  unwritable w' = unwritable w
  /\ (forall p, p <> output_file -> files w' !! p = files w !! p)
  /\ (b = true -> exists out, files w' !! output_file = Some (Csv out))
  /\ (w' <> w -> is_Some (files w !! file_path) /\ output_file ∉ unwritable w).
Proof.
  intros Hrun.
  destruct (process_gdm_data_cases file_path output_file w)
    as [H|(w2 & out & Hsave & H)].
  - rewrite H in Hrun. injection Hrun as <- <-.
    split; [reflexivity|]. split; [reflexivity|].
    split; [discriminate|]. intros Hne. contradiction.
  - assert (Hw2 : w2 = w').
    { destruct H as [[_ H]|[_ H]]; rewrite H in Hrun; congruence. }
    subst w2.
    destruct (shape_and_save_inv _ _ _ _ _ Hsave)
      as (sheets & ? & ? & ? & ? & Hfile & _ & _ & _ & _ & Hw & ->).
    cbn [files unwritable].
    split; [reflexivity|].
    split; [intros p Hp; apply lookup_insert_ne; congruence|].
    split; [intros _; exists out; apply lookup_insert_eq|].
    intros _. split; [rewrite Hfile; eauto | exact Hw].
Qed.

(** *** The header of the output *)

Lemma restriction_columns df df' c :
  restriction_of df df' -> c ∈ columns df' -> c ∈ columns df.
Proof.
  intros (keep & Hc & _) Hin. rewrite Hc in Hin.
  apply list_elem_of_In, filter_In in Hin as [Hin _].
  apply list_elem_of_In. exact Hin.
Qed.

Lemma drop_columns label df df' :
  drop label df = inr df' ->
  columns df' = List.filter (fun c => negb (String.eqb c label)) (columns df).
Proof.
  unfold drop. destruct (bool_decide (label ∈ columns df)); [|discriminate].
  intros H. injection H as <-. apply columns_restrict.
Qed.

(** Dropping the matches of [col] leaves no label that matches it. *)
Lemma drop_fold_removes ms : forall df df' c,
  fold_left (fun acc m => match acc with inl e => inl e | inr df => drop m df end)
            ms (inr df) = inr df' ->
  c ∈ ms -> c ∉ columns df'.
Proof.
  induction ms as [|m ms IH]; intros df df' c H Hin; [inversion Hin|].
  simpl in H. destruct (drop m df) as [e|df1] eqn:Hd.
  { rewrite drop_fold_inl in H. discriminate. }
  destruct (String.eqb c m) eqn:E.
  - apply String.eqb_eq in E. subst m. intros Hc.
    apply (restriction_columns df1 df' c (drop_fold_restriction _ _ _ H)) in Hc.
    rewrite (drop_columns _ _ _ Hd) in Hc.
    apply list_elem_of_In, filter_In in Hc as [_ Hc].
    rewrite String.eqb_refl in Hc. discriminate.
  - apply String.eqb_neq in E.
    apply elem_of_cons in Hin as [->|Hin]; [contradiction|].
    exact (IH df1 df' c H Hin).
Qed.

Lemma drop_matching_removes col df df' c :
  drop_matching col df = inr df' ->
  String.eqb (strip c) (strip col) = true -> c ∉ columns df'.
Proof.
  intros H Hmatch Hc.
  pose proof (restriction_columns df df' c (drop_matching_restriction _ _ _ H) Hc)
    as Hin.
  revert Hc. apply (drop_fold_removes _ df df' c H).
  apply list_elem_of_In, filter_In. split; [apply list_elem_of_In, Hin|].
  exact Hmatch.
Qed.

Lemma remove_columns_inl cols e :
  fold_left
    (fun acc col =>
       match acc with
       | inl e => inl e
       | inr (g, n) =>
           match drop_matching col g with
           | inl e => inl e
           | inr g' =>
               match drop_matching col n with
               | inl e => inl e
               | inr n' => inr (g', n')
               end
           end
       end) cols (inl e) = inl e.
Proof. induction cols as [|c cols IH]; simpl; [reflexivity | exact IH]. Qed.

Lemma remove_fold_restriction cols : forall g n g' n',
  fold_left
    (fun acc col =>
       match acc with
       | inl e => inl e
       | inr (g, n) =>
           match drop_matching col g with
           | inl e => inl e
           | inr g' =>
               match drop_matching col n with
               | inl e => inl e
               | inr n' => inr (g', n')
               end
           end
       end) cols (inr (g, n)) = inr (g', n') ->
  restriction_of g g' /\ restriction_of n n'.
Proof.
  induction cols as [|col cols IH]; intros g n g' n' H; simpl in H.
  - injection H as <- <-. split; apply restriction_of_refl.
  - destruct (drop_matching col g) as [e|g1] eqn:Hg;
      [rewrite remove_columns_inl in H; discriminate|].
    destruct (drop_matching col n) as [e|n1] eqn:Hn;
      [rewrite remove_columns_inl in H; discriminate|].
    destruct (IH g1 n1 g' n' H) as [Hg' Hn']. split.
    + eapply restriction_of_trans; [|exact Hg'].
      exact (drop_matching_restriction _ _ _ Hg).
    + eapply restriction_of_trans; [|exact Hn'].
      exact (drop_matching_restriction _ _ _ Hn).
Qed.

(** After [remove_columns] no label of either frame matches an entry of
    [columns_to_remove]. *)
Lemma remove_columns_removes g n g' n' col c :
  remove_columns g n = inr (g', n') ->
  col ∈ columns_to_remove ->
  String.eqb (strip c) (strip col) = true ->
  (c ∉ columns g') /\ (c ∉ columns n').
Proof.
  unfold remove_columns. generalize columns_to_remove as cols.
  intros cols. revert g n.
  induction cols as [|col0 cols IH]; intros g n H Hin Hmatch; [inversion Hin|].
  simpl in H.
  destruct (drop_matching col0 g) as [e|g1] eqn:Hg;
    [rewrite remove_columns_inl in H; discriminate|].
  destruct (drop_matching col0 n) as [e|n1] eqn:Hn;
    [rewrite remove_columns_inl in H; discriminate|].
  apply elem_of_cons in Hin as [->|Hin].
  - destruct (remove_fold_restriction cols g1 n1 g' n' H) as [Rg Rn].
    split; intros Hc.
    + apply (restriction_columns g1 g' c Rg) in Hc.
      exact (drop_matching_removes _ _ _ c Hg Hmatch Hc).
    + apply (restriction_columns n1 n' c Rn) in Hc.
      exact (drop_matching_removes _ _ _ c Hn Hmatch Hc).
  - exact (IH g1 n1 H Hin Hmatch).
Qed.

Lemma drop_fold_keeps ms : forall df df' c,
  fold_left (fun acc m => match acc with inl e => inl e | inr df => drop m df end)
            ms (inr df) = inr df' ->
  c ∈ columns df -> c ∉ ms -> c ∈ columns df'.
Proof.
  induction ms as [|m ms IH]; intros df df' c H Hin Hn; simpl in H.
  - injection H as <-. exact Hin.
  - destruct (drop m df) as [e|df1] eqn:Hd;
      [rewrite drop_fold_inl in H; discriminate|].
    apply not_elem_of_cons in Hn as [Hne Hn].
    apply (IH df1 df' c H); [|exact Hn].
    rewrite (drop_columns _ _ _ Hd). apply list_elem_of_In, filter_In.
    split; [apply list_elem_of_In, Hin|].
    apply String.eqb_neq in Hne. rewrite Hne. reflexivity.
Qed.

Lemma drop_matching_keeps col df df' c :
  drop_matching col df = inr df' ->
  c ∈ columns df -> String.eqb (strip c) (strip col) = false -> c ∈ columns df'.
Proof.
  intros H Hin Hno. apply (drop_fold_keeps _ df df' c H Hin).
  intros Hm. apply list_elem_of_In, filter_In in Hm as [_ Hm]. congruence.
Qed.

Lemma remove_columns_keeps g n g' n' c :
  remove_columns g n = inr (g', n') ->
  (forall col, col ∈ columns_to_remove ->
               String.eqb (strip c) (strip col) = false) ->
  (c ∈ columns g -> c ∈ columns g') /\ (c ∈ columns n -> c ∈ columns n').
Proof.
  unfold remove_columns. generalize columns_to_remove as cols.
  intros cols. revert g n.
  induction cols as [|col0 cols IH]; intros g n H Hno; simpl in H.
  - injection H as <- <-. split; trivial.
  - destruct (drop_matching col0 g) as [e|g1] eqn:Hg;
      [rewrite remove_columns_inl in H; discriminate|].
    destruct (drop_matching col0 n) as [e|n1] eqn:Hn;
      [rewrite remove_columns_inl in H; discriminate|].
    destruct (IH g1 n1 H) as [Kg Kn].
    { intros col Hc. apply Hno. right. exact Hc. }
    assert (H0 : String.eqb (strip c) (strip col0) = false) by (apply Hno; left).
    split; intros Hin.
    + apply Kg. exact (drop_matching_keeps _ _ _ c Hg Hin H0).
    + apply Kn. exact (drop_matching_keeps _ _ _ c Hn Hin H0).
Qed.

Lemma elem_of_common a b c : c ∈ common a b <-> c ∈ a /\ c ∈ b.
Proof.
  unfold common. rewrite elem_of_elements, elem_of_intersection.
  rewrite !elem_of_list_to_set. reflexivity.
Qed.

Lemma elem_of_pick labels df c :
  c ∈ columns (on_columns (pick labels) df) <-> c ∈ labels /\ c ∈ columns df.
Proof.
  split; [apply elem_of_columns_pick|]. intros [Hl Hc]. rewrite columns_pick.
  apply list_elem_of_In, in_flat_map. exists c.
  split; [apply list_elem_of_In, Hl|].
  apply filter_In. split; [apply list_elem_of_In, Hc | apply String.eqb_refl].
Qed.

Lemma elem_of_setitem label v df c :
  c ∈ columns (setitem label v df) <-> c = label \/ c ∈ columns df.
Proof.
  unfold setitem. destruct (bool_decide (label ∈ columns df)) eqn:Hl;
    cbn [columns].
  - apply bool_decide_eq_true_1 in Hl. split; [tauto|].
    intros [->|H]; assumption.
  - rewrite elem_of_app, list_elem_of_singleton. tauto.
Qed.

Lemma elem_of_add_treatment df c :
  c ∈ columns (add_treatment df) <-> c = "Type of treatment" \/ c ∈ columns df.
Proof.
  unfold add_treatment.
  destruct (bool_decide ("Type of treatment" ∈ columns df)) eqn:Hl.
  - apply bool_decide_eq_true_1 in Hl. split; [tauto|].
    intros [->|H]; assumption.
  - apply elem_of_setitem.
Qed.

(** The labels that the cleaning of a sheet leaves *)
Lemma cleaned_columns gdm ngdm g1 n1 c :
  remove_columns
    (on_columns (restrict named) (on_columns strip_labels gdm))
    (on_columns (restrict named) (on_columns strip_labels ngdm))
  = inr (g1, n1) ->
  let survives :=
    named c = true
    /\ forall col, col ∈ columns_to_remove ->
                   String.eqb (strip c) (strip col) = false in
  (c ∈ columns g1 <-> survives /\ c ∈ map strip (columns gdm))
  /\ (c ∈ columns n1 <-> survives /\ c ∈ map strip (columns ngdm)).
Proof.
  intros Hclean survives.
  destruct (remove_columns_restriction _ _ _ _ Hclean) as [Rg Rn].
  assert (Hfwd : forall sheet df,
             restriction_of (on_columns (restrict named)
                                        (on_columns strip_labels sheet)) df ->
             c ∈ columns df -> named c = true /\ c ∈ map strip (columns sheet)).
  { intros sheet df R Hc. apply (restriction_columns _ _ c R) in Hc.
    rewrite columns_restrict, columns_strip in Hc.
    apply list_elem_of_In, filter_In in Hc as [Hc Hn].
    split; [exact Hn | apply list_elem_of_In, Hc]. }
  assert (Hbwd : forall sheet,
             named c = true -> c ∈ map strip (columns sheet) ->
             c ∈ columns (on_columns (restrict named)
                                     (on_columns strip_labels sheet))).
  { intros sheet Hn Hc. rewrite columns_restrict, columns_strip.
    apply list_elem_of_In, filter_In.
    split; [apply list_elem_of_In, Hc | exact Hn]. }
  assert (Hgone : c ∈ columns g1 \/ c ∈ columns n1 ->
                  forall col, col ∈ columns_to_remove ->
                              String.eqb (strip c) (strip col) = false).
  { intros Hc col Hcol.
    destruct (String.eqb (strip c) (strip col)) eqn:E; [|reflexivity].
    destruct (remove_columns_removes _ _ _ _ col c Hclean Hcol E) as [Hg Hn].
    destruct Hc; contradiction. }
  split; split.
  - intros Hc. destruct (Hfwd gdm g1 Rg Hc) as [Hn Hs].
    split; [split; [exact Hn | apply Hgone; left; exact Hc] | exact Hs].
  - intros [[Hn Hno] Hs].
    apply (proj1 (remove_columns_keeps _ _ _ _ c Hclean Hno)).
    exact (Hbwd gdm Hn Hs).
  - intros Hc. destruct (Hfwd ngdm n1 Rn Hc) as [Hn Hs].
    split; [split; [exact Hn | apply Hgone; right; exact Hc] | exact Hs].
  - intros [[Hn Hno] Hs].
    apply (proj2 (remove_columns_keeps _ _ _ _ c Hclean Hno)).
    exact (Hbwd ngdm Hn Hs).
Qed.

Lemma success_inv file_path output_file w w' :
  process_gdm_data file_path output_file w = (w', inr true) ->
  exists out,
    shape_and_save file_path output_file w = (w', inr out)
    /\ target_distribution out = inr tt.
Proof.
  intros Hrun.
  destruct (process_gdm_data_cases file_path output_file w)
    as [H|(w2 & out & Hsave & [[_ H]|[Ht H]])];
    rewrite H in Hrun; try discriminate.
  injection Hrun as <-. exists out. split; assumption.
Qed.

(** X19.  The header of the CSV of a successful run, as a set: the label
    column "GDM", and every label that, after stripping, is in the header
    of both sheets, does not start with "Unnamed" and matches no entry of
    [columns_to_remove]; "Type of treatment" needs to be in the GDM sheet
    only.  So a column of one sheet only, a placeholder column and a
    removed column never reach the output. *)
Theorem output_header file_path output_file w w' sheets gdm ngdm :
  files w !! file_path = Some (Workbook sheets) ->
  dict_get "GDM" sheets = Some gdm ->
  dict_get "NGDM" sheets = Some ngdm ->
  process_gdm_data file_path output_file w = (w', inr true) ->
  exists out,
    files w' !! output_file = Some (Csv out)
    /\ forall c,
         c ∈ columns out <->
         c = "GDM"
         \/ (named c = true
             /\ (forall col, col ∈ columns_to_remove ->
                             String.eqb (strip c) (strip col) = false))
            /\ c ∈ map strip (columns gdm)
            /\ (c ∈ map strip (columns ngdm) \/ c = "Type of treatment").
Proof.
  intros Hfile Hg Hn Hrun.
  destruct (success_inv _ _ _ _ Hrun) as (out & Hsave & _).
  destruct (shape_and_save_inv _ _ _ _ _ Hsave)
    as (sheets' & gdm' & ngdm' & g1 & n1
        & Hfile' & Hg' & Hn' & Hclean & Hcat & _ & ->).
  rewrite Hfile in Hfile'. injection Hfile' as <-.
  rewrite Hg in Hg'. injection Hg' as <-.
  rewrite Hn in Hn'. injection Hn' as <-.
  exists out. split; [cbn [files]; apply lookup_insert_eq|].
  intros c. destruct (concat_inr _ _ _ Hcat) as (Hcols & _ & _).
  rewrite Hcols, elem_of_setitem, elem_of_pick, elem_of_common,
    elem_of_add_treatment.
  destruct (cleaned_columns gdm ngdm g1 n1 c Hclean) as [Hcg Hcn].
  cbv zeta in Hcg, Hcn. rewrite Hcg, Hcn.
  assert (Htreat : c = "Type of treatment" ->
                   named c = true
                   /\ forall col, col ∈ columns_to_remove ->
                                  String.eqb (strip c) (strip col) = false).
  { intros ->. split; [reflexivity|]. intros col Hcol.
    unfold columns_to_remove in Hcol.
    repeat (apply elem_of_cons in Hcol as [->|Hcol]; [vm_compute; reflexivity|]).
    inversion Hcol. }
  tauto.
Qed.

(** X20.  The CSV of a successful run is rectangular, every row holding
    exactly the cells of the header, and exactly one column of its header
    is labelled "GDM". *)
Theorem output_is_rectangular file_path output_file w w' sheets gdm ngdm :
  files w !! file_path = Some (Workbook sheets) ->
  dict_get "GDM" sheets = Some gdm ->
  dict_get "NGDM" sheets = Some ngdm ->
  well_formed gdm -> well_formed ngdm ->
  process_gdm_data file_path output_file w = (w', inr true) ->
  exists out,
    files w' !! output_file = Some (Csv out)
    /\ well_formed out
    /\ List.filter (fun c => String.eqb c "GDM") (columns out) = ["GDM"].
Proof.
  intros Hfile Hg Hn Hwfg Hwfn Hrun.
  destruct (success_inv _ _ _ _ Hrun) as (out & Hsave & Htd).
  destruct (shape_and_save_inv _ _ _ _ _ Hsave)
    as (sheets' & gdm' & ngdm' & g1 & n1
        & Hfile' & Hg' & Hn' & Hclean & Hcat & _ & ->).
  rewrite Hfile in Hfile'. injection Hfile' as <-.
  rewrite Hg in Hg'. injection Hg' as <-.
  rewrite Hn in Hn'. injection Hn' as <-.
  exists out. split; [cbn [files]; apply lookup_insert_eq|].
  destruct (remove_columns_restriction _ _ _ _ Hclean) as [Rg Rn].
  destruct (cleaned_sheet gdm g1 Rg Hwfg) as [Hwfg1 _].
  destruct (cleaned_sheet ngdm n1 Rn Hwfn) as [Hwfn1 _].
  destruct (concat_inr _ _ _ Hcat) as (Hcols & Hsame & Hrows).
  split.
  - unfold well_formed. rewrite Hrows. apply Forall_app. split.
    + rewrite Hcols.
      apply setitem_well_formed, pick_well_formed, add_treatment_well_formed.
      exact Hwfn1.
    + rewrite Hcols, Hsame. apply setitem_well_formed, pick_well_formed.
      exact Hwfg1.
  - unfold target_distribution in Htd.
    destruct (List.filter _ (columns out)) as [|x [|y l]] eqn:Hf;
      try discriminate.
    assert (Hx : In x (List.filter (fun c => String.eqb c "GDM") (columns out)))
      by (rewrite Hf; left; reflexivity).
    apply filter_In in Hx as [_ Hx]. apply String.eqb_eq in Hx. subst x.
    reflexivity.
Qed.

(** *** When the run succeeds *)

Lemma NoDup_list_filter {A} (p : A -> bool) (l : list A) :
  NoDup l -> NoDup (List.filter p l).
Proof.
  induction l as [|x l IH]; intros Hnd; [constructor|].
  apply NoDup_cons in Hnd as [Hx Hnd]. simpl. destruct (p x).
  - apply NoDup_cons. split; [|apply IH, Hnd].
    intros Hin. apply list_elem_of_In, filter_In in Hin as [Hin _].
    apply Hx, list_elem_of_In, Hin.
  - apply IH, Hnd.
Qed.

Lemma drop_fold_ok ms : forall df,
  NoDup ms -> (forall m, m ∈ ms -> m ∈ columns df) -> NoDup (columns df) ->
  exists df',
    fold_left (fun acc m => match acc with inl e => inl e | inr df => drop m df end)
              ms (inr df) = inr df'
    /\ NoDup (columns df').
Proof.
  induction ms as [|m ms IH]; intros df Hms Hsub Hnd.
  - exists df. split; [reflexivity | exact Hnd].
  - apply NoDup_cons in Hms as [Hm Hms]. simpl. unfold drop at 2.
    rewrite (bool_decide_eq_true_2 (m ∈ columns df)) by (apply Hsub; left).
    apply IH; [exact Hms | | rewrite columns_restrict; apply NoDup_list_filter, Hnd].
    intros m' Hm'. rewrite columns_restrict. apply list_elem_of_In, filter_In.
    split; [apply list_elem_of_In, Hsub; right; exact Hm'|].
    destruct (String.eqb m' m) eqn:E; [|reflexivity].
    apply String.eqb_eq in E. subst m'. contradiction.
Qed.

Lemma drop_matching_ok col df :
  NoDup (columns df) ->
  exists df', drop_matching col df = inr df' /\ NoDup (columns df').
Proof.
  intros Hnd. unfold drop_matching. apply drop_fold_ok.
  - apply NoDup_list_filter, Hnd.
  - intros m Hm. apply list_elem_of_In, filter_In in Hm as [Hm _].
    apply list_elem_of_In, Hm.
  - exact Hnd.
Qed.

Lemma remove_columns_ok g n :
  NoDup (columns g) -> NoDup (columns n) ->
  exists g' n',
    remove_columns g n = inr (g', n')
    /\ NoDup (columns g') /\ NoDup (columns n').
Proof.
  unfold remove_columns. generalize columns_to_remove as cols.
  intros cols. revert g n.
  induction cols as [|col cols IH]; intros g n Hg Hn.
  - exists g, n. repeat split; assumption.
  - simpl.
    destruct (drop_matching_ok col g Hg) as (g1 & -> & Hg1).
    destruct (drop_matching_ok col n Hn) as (n1 & -> & Hn1).
    exact (IH g1 n1 Hg1 Hn1).
Qed.

Lemma setitem_NoDup label v df :
  NoDup (columns df) -> NoDup (columns (setitem label v df)).
Proof.
  intros Hnd. unfold setitem.
  destruct (bool_decide (label ∈ columns df)) eqn:Hl; cbn [columns];
    [exact Hnd|].
  apply bool_decide_eq_false_1 in Hl. apply NoDup_app.
  split; [exact Hnd|]. split; [|apply NoDup_singleton].
  intros x Hx Hx'. apply list_elem_of_singleton in Hx'. subst x. contradiction.
Qed.

Lemma add_treatment_NoDup df :
  NoDup (columns df) -> NoDup (columns (add_treatment df)).
Proof.
  intros Hnd. unfold add_treatment.
  destruct (bool_decide _); [exact Hnd | apply setitem_NoDup, Hnd].
Qed.

Lemma getitem_ok labels df :
  (forall l, l ∈ labels -> l ∈ columns df) ->
  getitem labels df = inr (on_columns (pick labels) df).
Proof.
  intros Hsub. unfold getitem.
  destruct (List.find _ labels) as [l|] eqn:Hf; [|reflexivity].
  apply find_some in Hf as [Hin Hl].
  rewrite (bool_decide_eq_true_2 (l ∈ columns df)) in Hl
    by (apply Hsub, list_elem_of_In, Hin).
  discriminate.
Qed.

(** X21.  The run succeeds, returning True after writing the CSV, whenever
    the workbook has the two sheets, no two columns of a sheet have the same
    label after stripping, and the output path can be written. *)
Theorem process_gdm_data_succeeds file_path output_file w sheets gdm ngdm :
  files w !! file_path = Some (Workbook sheets) ->
  dict_get "GDM" sheets = Some gdm ->
  dict_get "NGDM" sheets = Some ngdm ->
  NoDup (map strip (columns gdm)) ->
  NoDup (map strip (columns ngdm)) ->
  output_file ∉ unwritable w ->
  exists out,
    process_gdm_data file_path output_file w
    = ({| files := <[output_file := Csv out]> (files w);
          unwritable := unwritable w |}, inr true)
    /\ NoDup (columns out).
Proof.
  intros Hfile Hg Hn Hndg Hndn Hw.
  assert (HG0 : NoDup (columns (on_columns (restrict named)
                                           (on_columns strip_labels gdm))))
    by (rewrite columns_restrict, columns_strip; apply NoDup_list_filter, Hndg).
  assert (HN0 : NoDup (columns (on_columns (restrict named)
                                           (on_columns strip_labels ngdm))))
    by (rewrite columns_restrict, columns_strip; apply NoDup_list_filter, Hndn).
  destruct (remove_columns_ok _ _ HG0 HN0) as (g1 & n1 & Hclean & Hg1 & Hn1).
  pose proof (add_treatment_NoDup n1 Hn1) as Hn2.
  set (cc := common (columns g1) (columns (add_treatment n1))).
  assert (Hcc : forall l, l ∈ cc ->
                          l ∈ columns g1 /\ l ∈ columns (add_treatment n1))
    by (intros l; apply elem_of_common).
  pose proof (getitem_ok cc g1 (fun l Hl => proj1 (Hcc l Hl))) as Hgc.
  pose proof (getitem_ok cc (add_treatment n1) (fun l Hl => proj2 (Hcc l Hl)))
    as Hnc.
  pose proof (selected_headers_agree g1 (add_treatment n1) "GDM"
                (VNum 1) (VNum 0) Hg1 Hn2) as Hsame.
  fold cc in Hsame.
  set (A := setitem "GDM" (VNum 0) (on_columns (pick cc) (add_treatment n1))) in *.
  set (B := setitem "GDM" (VNum 1) (on_columns (pick cc) g1)) in *.
  assert (HndA : NoDup (columns A)).
  { apply setitem_NoDup.
    rewrite (pick_unique_header cc _ Hn2 (fun l Hl => proj2 (Hcc l Hl))).
    apply NoDup_elements. }
  assert (Hcat : concat A B
                 = inr {| columns := columns A; rows := rows A ++ rows B |}).
  { unfold concat. rewrite (bool_decide_eq_true_2 (columns A = columns B));
      [reflexivity | symmetry; exact Hsame]. }
  eexists. split.
  - unfold process_gdm_data, path_exists.
    rewrite (bool_decide_eq_true_2 (is_Some (files w !! file_path)))
      by (rewrite Hfile; eauto).
    cbn [negb].
    unfold try_except, bind, shape_and_save, bind, read_excel, lift, ret, to_csv.
    rewrite Hfile, Hg, Hfile, Hn, Hclean. cbv zeta. cbn [fst snd].
    fold cc. rewrite Hgc, Hnc. fold A B. rewrite Hcat.
    rewrite (bool_decide_eq_false_2 (output_file ∈ unwritable w)) by exact Hw.
    unfold target_distribution. cbn [columns].
    rewrite (filter_eqb_NoDup (columns A) "GDM" HndA)
      by (apply setitem_columns).
    reflexivity.
  - exact HndA.
Qed.

(** *** The treatment of the NGDM rows *)

Lemma restriction_rows_length df df' :
  restriction_of df df' -> length (rows df') = length (rows df).
Proof. intros (keep & _ & Hr). rewrite Hr. apply length_map. Qed.

(** X22.  When the NGDM sheet has no column "Type of treatment", every
    row that comes from it holds "No Treatment" in that column of the
    output, whatever treatment the rows of the GDM sheet name. *)
Theorem ngdm_rows_have_no_treatment file_path output_file w w' sheets gdm ngdm :
  files w !! file_path = Some (Workbook sheets) ->
  dict_get "GDM" sheets = Some gdm ->
  dict_get "NGDM" sheets = Some ngdm ->
  well_formed ngdm ->
  "Type of treatment" ∉ map strip (columns ngdm) ->
  process_gdm_data file_path output_file w = (w', inr true) ->
  exists out,
    files w' !! output_file = Some (Csv out)
    /\ forall i r',
         (i < length (rows ngdm))%nat ->
         nth_error (rows out) i = Some r' ->
         "Type of treatment" ∈ columns out ->
         dict_get "Type of treatment" r' = Some (VStr "No Treatment").
Proof.
  intros Hfile Hg Hn Hwfn Hno Hrun.
  destruct (success_inv _ _ _ _ Hrun) as (out & Hsave & _).
  destruct (shape_and_save_inv _ _ _ _ _ Hsave)
    as (sheets' & gdm' & ngdm' & g1 & n1
        & Hfile' & Hg' & Hn' & Hclean & Hcat & _ & ->).
  rewrite Hfile in Hfile'. injection Hfile' as <-.
  rewrite Hg in Hg'. injection Hg' as <-.
  rewrite Hn in Hn'. injection Hn' as <-.
  exists out. split; [cbn [files]; apply lookup_insert_eq|].
  destruct (remove_columns_restriction _ _ _ _ Hclean) as [_ Rn].
  destruct (cleaned_sheet ngdm n1 Rn Hwfn) as [Hwfn1 _].
  assert (Hn1 : "Type of treatment" ∉ columns n1).
  { intros Hin. apply (restriction_columns _ _ _ Rn) in Hin.
    rewrite columns_restrict, columns_strip in Hin.
    apply list_elem_of_In, filter_In in Hin as [Hin _].
    apply Hno, list_elem_of_In, Hin. }
  assert (Hadd : add_treatment n1
                 = setitem "Type of treatment" (VStr "No Treatment") n1).
  { unfold add_treatment. rewrite bool_decide_eq_false_2 by exact Hn1.
    reflexivity. }
  pose proof (setitem_labelled "Type of treatment" (VStr "No Treatment") n1 Hwfn1)
    as Hlab.
  rewrite <- Hadd in Hlab. rewrite List.Forall_forall in Hlab.
  set (cc := common (columns g1) (columns (add_treatment n1))) in *.
  set (A := setitem "GDM" (VNum 0) (on_columns (pick cc) (add_treatment n1))) in *.
  assert (Hp : preserves_except ["GDM"] (add_treatment n1) A).
  { apply (preserves_except_trans [] ["GDM"] _
             (on_columns (pick cc) (add_treatment n1)));
      [apply pick_preserves | apply setitem_preserves]. }
  destruct Hp as (_ & f & HrowsA & Hcells).
  assert (Hlen : length (rows A) = length (rows ngdm)).
  { rewrite HrowsA, length_map, Hadd. unfold setitem.
    rewrite bool_decide_eq_false_2 by exact Hn1. cbn [rows].
    rewrite length_map, (restriction_rows_length _ _ Rn).
    unfold on_columns. cbn [rows]. rewrite !length_map. reflexivity. }
  destruct (concat_inr _ _ _ Hcat) as (Hcols & _ & Hrows).
  intros i r' Hi Hnth Hcol.
  rewrite Hrows, nth_error_app1 in Hnth by (rewrite Hlen; exact Hi).
  apply nth_error_In in Hnth. rewrite HrowsA in Hnth.
  apply in_map_iff in Hnth as (r & <- & Hr).
  rewrite Hcells.
  - exact (proj1 (Hlab r Hr)).
  - rewrite <- Hcols. exact Hcol.
  - intros Hin. apply list_elem_of_singleton in Hin. discriminate.
Qed.

(** *** A removed column that occurs twice *)

Lemma drop_fold_absent ms : forall df m,
  m ∈ ms -> m ∉ columns df ->
  exists e,
    fold_left (fun acc m => match acc with inl e => inl e | inr df => drop m df end)
              ms (inr df) = inl e.
Proof.
  induction ms as [|m0 ms IH]; intros df m Hin Hno; [inversion Hin|].
  simpl. unfold drop at 2.
  destruct (bool_decide (m0 ∈ columns df)) eqn:Hm0.
  - apply bool_decide_eq_true_1 in Hm0.
    apply elem_of_cons in Hin as [->|Hin]; [contradiction|].
    apply (IH _ m Hin). rewrite columns_restrict. intros Hc.
    apply list_elem_of_In, filter_In in Hc as [Hc _].
    apply Hno, list_elem_of_In, Hc.
  - rewrite drop_fold_inl. eexists. reflexivity.
Qed.

Lemma drop_fold_twice ms : forall df m,
  (2 <= length (List.filter (String.eqb m) ms))%nat ->
  exists e,
    fold_left (fun acc m => match acc with inl e => inl e | inr df => drop m df end)
              ms (inr df) = inl e.
Proof.
  induction ms as [|m0 ms IH]; intros df m Hcount; [simpl in Hcount; lia|].
  simpl. unfold drop at 2.
  destruct (bool_decide (m0 ∈ columns df)) eqn:Hm0;
    [|rewrite drop_fold_inl; eexists; reflexivity].
  simpl in Hcount. destruct (String.eqb m m0) eqn:E.
  - apply String.eqb_eq in E. subst m0. simpl in Hcount.
    apply (drop_fold_absent ms _ m).
    + destruct (List.filter (String.eqb m) ms) as [|x l] eqn:Hf;
        [simpl in Hcount; lia|].
      assert (Hx : In x (List.filter (String.eqb m) ms)) by (rewrite Hf; left; reflexivity).
      apply filter_In in Hx as [Hx Heq]. apply String.eqb_eq in Heq. subst x.
      apply list_elem_of_In, Hx.
    + rewrite columns_restrict. intros Hc.
      apply list_elem_of_In, filter_In in Hc as [_ Hc].
      rewrite String.eqb_refl in Hc. discriminate.
  - apply (IH _ m Hcount).
Qed.

Lemma filter_eqb_filter (p : string -> bool) m l :
  p m = true ->
  List.filter (String.eqb m) (List.filter p l) = List.filter (String.eqb m) l.
Proof.
  intros Hp. rewrite filter_filter. apply filter_ext. intros x.
  destruct (String.eqb m x) eqn:E; [|apply andb_false_r].
  apply String.eqb_eq in E. subst x. rewrite Hp. reflexivity.
Qed.

Lemma drop_matching_twice col df m :
  String.eqb (strip m) (strip col) = true ->
  (2 <= length (List.filter (String.eqb m) (columns df)))%nat ->
  exists e, drop_matching col df = inl e.
Proof.
  intros Hmatch Hcount. unfold drop_matching. apply (drop_fold_twice _ df m).
  rewrite (filter_eqb_filter (fun c => String.eqb (strip c) (strip col)) m _ Hmatch).
  exact Hcount.
Qed.

Lemma drop_fold_count ms : forall df df' m,
  fold_left (fun acc m => match acc with inl e => inl e | inr df => drop m df end)
            ms (inr df) = inr df' ->
  m ∉ ms ->
  List.filter (String.eqb m) (columns df') = List.filter (String.eqb m) (columns df).
Proof.
  induction ms as [|m0 ms IH]; intros df df' m H Hno; simpl in H.
  - injection H as <-. reflexivity.
  - destruct (drop m0 df) as [e|df1] eqn:Hd;
      [rewrite drop_fold_inl in H; discriminate|].
    apply not_elem_of_cons in Hno as [Hne Hno].
    rewrite (IH df1 df' m H Hno), (drop_columns _ _ _ Hd).
    apply filter_eqb_filter. apply String.eqb_neq in Hne. rewrite Hne.
    reflexivity.
Qed.

Lemma drop_matching_count col df df' m :
  drop_matching col df = inr df' ->
  String.eqb (strip m) (strip col) = false ->
  List.filter (String.eqb m) (columns df') = List.filter (String.eqb m) (columns df).
Proof.
  intros H Hno. apply (drop_fold_count _ df df' m H).
  intros Hin. apply list_elem_of_In, filter_In in Hin as [_ Hin]. congruence.
Qed.

Lemma remove_fold_twice cols : forall g n col m,
  col ∈ cols ->
  String.eqb (strip m) (strip col) = true ->
  (2 <= length (List.filter (String.eqb m) (columns g))
   \/ 2 <= length (List.filter (String.eqb m) (columns n)))%nat ->
  exists e,
    fold_left
      (fun acc col =>
         match acc with
         | inl e => inl e
         | inr (g, n) =>
             match drop_matching col g with
             | inl e => inl e
             | inr g' =>
                 match drop_matching col n with
                 | inl e => inl e
                 | inr n' => inr (g', n')
                 end
             end
         end) cols (inr (g, n)) = inl e.
Proof.
  induction cols as [|col0 cols IH]; intros g n col m Hin Hmatch Hcount;
    [inversion Hin|].
  simpl.
  destruct (drop_matching col0 g) as [e|g1] eqn:Hg;
    [rewrite remove_columns_inl; eexists; reflexivity|].
  destruct (drop_matching col0 n) as [e|n1] eqn:Hn;
    [rewrite remove_columns_inl; eexists; reflexivity|].
  destruct (String.eqb (strip m) (strip col0)) eqn:E.
  - exfalso. destruct Hcount as [Hc|Hc].
    + destruct (drop_matching_twice col0 g m E Hc) as [e He]. congruence.
    + destruct (drop_matching_twice col0 n m E Hc) as [e He]. congruence.
  - apply (IH g1 n1 col m).
    + apply elem_of_cons in Hin as [->|Hin]; [congruence | exact Hin].
    + exact Hmatch.
    + rewrite (drop_matching_count _ _ _ m Hg E),
        (drop_matching_count _ _ _ m Hn E). exact Hcount.
Qed.

(** X23.  The matches of a name of [columns_to_remove] are collected
    first and dropped one by one, and one [drop] takes every column of that
    label: a sheet in which such a name labels two columns after stripping
    makes the second [drop] raise, so the run returns False and leaves the
    files as they were. *)
Theorem repeated_removed_column_fails file_path output_file w sheets gdm ngdm col :
  files w !! file_path = Some (Workbook sheets) ->
  dict_get "GDM" sheets = Some gdm ->
  dict_get "NGDM" sheets = Some ngdm ->
  col ∈ columns_to_remove ->
  (2 <= length (List.filter (String.eqb col) (map strip (columns gdm)))
   \/ 2 <= length (List.filter (String.eqb col) (map strip (columns ngdm))))%nat ->
  process_gdm_data file_path output_file w = (w, inr false).
Proof.
  intros Hfile Hg Hn Hcol Hcount.
  destruct (process_gdm_data_cases file_path output_file w)
    as [H|(w2 & out & Hsave & _)]; [exact H|].
  exfalso.
  destruct (shape_and_save_inv _ _ _ _ _ Hsave)
    as (sheets' & gdm' & ngdm' & g1 & n1
        & Hfile' & Hg' & Hn' & Hclean & _).
  rewrite Hfile in Hfile'. injection Hfile' as <-.
  rewrite Hg in Hg'. injection Hg' as <-.
  rewrite Hn in Hn'. injection Hn' as <-.
  assert (Hnamed : named col = true).
  { unfold columns_to_remove in Hcol.
    repeat (apply elem_of_cons in Hcol as [->|Hcol]; [reflexivity|]).
    inversion Hcol. }
  destruct (remove_fold_twice columns_to_remove
              (on_columns (restrict named) (on_columns strip_labels gdm))
              (on_columns (restrict named) (on_columns strip_labels ngdm))
              col col Hcol (String.eqb_refl _)) as [e He].
  { rewrite !columns_restrict, !columns_strip.
    rewrite !(filter_eqb_filter named col _ Hnamed). exact Hcount. }
  unfold remove_columns in Hclean. congruence.
Qed.

End ShaperMore.

(** ** The statements at the sample objects *)

Module Instances.
Import Service Examples.

Ltac in_list := apply (bool_decide_unpack _); vm_compute; exact I.

(** *** Runs *)

Example sparse_request_aligned :
  aligned_frame parse_digits request_sparse
  = inr [ ("oneHourGlucose", VNum 0); ("bpSystolic", VNum 120);
          ("bmiBaseline", VNum 0); ("fastingBloodGlucose", VNum 0);
          ("weightKg", VNum 0); ("pulseHeartRate", VNum 0);
          ("hypertensiveDisorders", VNum 0); ("typeOfTreatment", VNum 0);
          ("twoHourGlucose", VNum 0); ("nationality", VNum 1);
          ("ageYears", VNum 0); ("bpDiastolic", VNum 0);
          ("height", VNum 0); ("weightGainDuringPregnancy", VNum 0) ].
Proof. vm_compute. reflexivity. Qed.

(** Categories sent as numbers are lost: 1 and 12 both become 0. *)
Example encoded_request_aligned :
  aligned_frame parse_digits request_encoded
  = inr [ ("oneHourGlucose", VNum 0); ("bpSystolic", VNum 0);
          ("bmiBaseline", VNum 0); ("fastingBloodGlucose", VNum 0);
          ("weightKg", VNum 0); ("pulseHeartRate", VNum 0);
          ("hypertensiveDisorders", VNum 0); ("typeOfTreatment", VNum 0);
          ("twoHourGlucose", VNum 0); ("nationality", VNum 0);
          ("ageYears", VNum 29); ("bpDiastolic", VNum 0);
          ("height", VNum 0); ("weightGainDuringPregnancy", VNum 0) ].
Proof. vm_compute. reflexivity. Qed.

Example full_request_answer :
  snd (predict parse_digits binary64 service request_full)
  = inr {| prediction := "GDM Risk";
           confidence := 7500 # 100;
           gdm_probability := 7500 # 100;
           factors := [ "typeOfTreatment"; "bpDiastolic"; "bpSystolic";
                        "fastingBloodGlucose"; "twoHourGlucose" ];
           model_version := "1.0" |}.
Proof. vm_compute. reflexivity. Qed.

Example rounding_ties_to_even :
  round2 (12345 # 1000) = 1234 # 100 /\ round2 (12355 # 1000) = 1236 # 100
  /\ round2 (1 # 3) = 33 # 100 /\ round2 100 = 10000 # 100.
Proof. repeat split. Qed.

Example strip_examples :
  Shaper.strip "  Age " = "Age" /\ Shaper.strip "Mode of Delivery" = "Mode of Delivery"
  /\ Shaper.strip "   " = "".
Proof. repeat split. Qed.

Example shaped_csv :
  Shaper.files
    (fst (Shaper.process_gdm_data "GDM_UOS.xlsx" "GDM_UOS_NoC.csv" disk))
    !! "GDM_UOS_NoC.csv"
  = Some (Shaper.Csv
      {| Shaper.columns := ["Age"; "BMI"; "Type of treatment"; "GDM"];
         Shaper.rows :=
           [ [("Age", VNum 28); ("BMI", VNum 22);
              ("Type of treatment", VStr "No Treatment"); ("GDM", VNum 0)];
             [("Age", VNum 29); ("BMI", VNum 23);
              ("Type of treatment", VStr "No Treatment"); ("GDM", VNum 0)];
             [("Age", VNum 40); ("BMI", VNum 24);
              ("Type of treatment", VStr "No Treatment"); ("GDM", VNum 0)];
             [("Age", VNum 30); ("BMI", VNum 25);
              ("Type of treatment", VStr "Metformin"); ("GDM", VNum 1)];
             [("Age", VNum 35); ("BMI", VNum 31);
              ("Type of treatment", VStr "yes"); ("GDM", VNum 1)] ] |}).
Proof. vm_compute. reflexivity. Qed.

(** *** The claims at the sample objects *)

Lemma categorical_scalars_sparse : categorical_scalars request_sparse.
Proof.
  intros c v Hc Hv. cbn in Hc.
  repeat (apply elem_of_cons in Hc as [->|Hc];
          [vm_compute in Hv; first [discriminate | injection Hv as <-; reflexivity]|]).
  inversion Hc.
Defined.

Lemma preprocess_input_canonical_columns_witness :
  (exists t df, preprocess_input parse_digits service request_full = (t, inr df)
                /\ keys df = feature_columns /\ length df = 14%nat)
  /\ (forall d', NoDup (keys request_full) -> Permutation request_full d' ->
                 preprocess_input parse_digits service d'
                 = preprocess_input parse_digits service request_full).
Proof.
  apply (preprocess_input_canonical_columns parse_digits service request_full).
  intros c Hc. unfold feature_columns in Hc.
  repeat (apply elem_of_cons in Hc as [->|Hc]; [eexists; reflexivity|]).
  inversion Hc.
Defined.

Lemma unseen_category_maps_to_zero_witness :
  recode hypertension_table (VStr "maybe") = inr (VNum 0)
  /\ recode hypertension_table (VStr "") = inr (VNum 0)
  /\ ("hypertensiveDisorders" = "hypertensiveDisorders" ->
      recode hypertension_table (VStr "maybe")
      = recode hypertension_table (VStr "No"))
  /\ (forall d, categorical_scalars d ->
      dict_get "hypertensiveDisorders" d = Some (VStr "maybe") ->
      exists df, aligned_frame parse_digits d = inr df
                 /\ dict_get "hypertensiveDisorders" df = Some (VNum 0)).
Proof.
  apply (unseen_category_maps_to_zero parse_digits
           "hypertensiveDisorders" hypertension_table "maybe").
  - reflexivity.
  - vm_compute. reflexivity.
Defined.

Lemma factors_input_independent_witness :
  factors (result_of (predict parse_digits binary64 service request_full))
  = factors (result_of (predict parse_digits binary64 service request_sparse))
  /\ exists m ranking,
       model service = Some m
       /\ sendFI m = inr ranking
       /\ Permutation ranking (combine feature_columns (feature_importances_ m))
       /\ descending ranking
       /\ factors (result_of (predict parse_digits binary64 service request_full))
          = firstn 5 (map fst ranking)
       /\ length (factors (result_of (predict parse_digits binary64 service request_full)))
          = 5%nat.
Proof.
  apply (factors_input_independent parse_digits binary64 service
           request_full request_sparse
           (fst (predict parse_digits binary64 service request_full))
           (fst (predict parse_digits binary64 service request_sparse))).
  - vm_compute. reflexivity.
  - vm_compute. reflexivity.
Defined.

Lemma toy_model_probabilities :
  forall m X probas p, model service = Some m ->
    model_predict_proba m X = inr probas -> In p probas ->
    Forall (fun x => 0 <= x <= 1)%Q p.
Proof.
  intros m X probas p Hm Hp Hin. injection Hm as <-.
  cbn in Hp. injection Hp as <-. destruct Hin as [<-|[]].
  repeat constructor; discriminate.
Defined.

(** The binary formats keep a product in [0, 100] within [0, 100]. *)
Lemma binade_le (x : Q) : (0 <= x <= 100)%Q -> (binade x <= 7)%Z.
Proof.
  intros [H0 H1]. destruct x as [n d]. unfold Qle in H0, H1. cbn in H0, H1.
  unfold binade. cbn [Qnum Qden].
  assert (Z.log2 n <= Z.log2 (Z.pos d) + 7)%Z.
  { transitivity (Z.log2 (Z.pos d * 2 ^ 7)).
    - apply Z.log2_le_mono. lia.
    - rewrite Z.log2_mul_pow2 by lia. lia. }
  destruct (0 <=? _)%Z; destruct (_ <? _)%Z; lia.
Defined.

Lemma float_nearest_range prec emin x :
  (8 <= prec)%Z -> (emin <= 0)%Z -> (0 <= x <= 100)%Q ->
  (0 <= float_nearest prec emin x <= 100)%Q.
Proof.
  intros Hprec Hemin Hx. unfold float_nearest.
  destruct (Qeq_bool x 0); [split; discriminate|].
  assert (Habs : Qabs x = x).
  { destruct x as [n d]. destruct Hx as [H0 _]. unfold Qle in H0. cbn in H0.
    unfold Qabs. f_equal. apply Z.abs_eq. lia. }
  rewrite Habs.
  rewrite (proj2 (Qle_bool_iff 0 x)) by apply Hx.
  pose proof (binade_le x Hx) as Hb.
  set (k := (prec - 1 - Z.max (binade x) emin)%Z).
  assert (Hk : (0 <= k)%Z) by lia.
  rewrite (proj2 (Z.leb_le 0 k) Hk).
  pose proof (round_half_even_near (x * inject_Z (2 ^ k))) as Hnear.
  set (m := round_half_even _) in *.
  assert (Hpow : (0 < 2 ^ k)%Z) by (apply Z.pow_pos_nonneg; lia).
  destruct x as [n d]. destruct Hx as [H0 H1]. unfold Qle in H0, H1 |- *.
  cbn in *. rewrite Z2Pos.id by exact Hpow.
  rewrite Pos.mul_1_r in Hnear.
  split; nia.
Defined.

(** The product is rounded to the float format before it is rounded to two
    decimals: the double 0.00125 times 100 is the double 0.125, a tie, which
    goes to 0.12; the exact product lies above 0.125 and would go to 0.13. *)
Example double_product_is_rounded :
  gdm_probability (result_of (predict parse_digits binary64 sure_service request_full))
  = 12 # 100
  /\ (binary64 (binary64 (125 # 100000) * 100) == 1 # 8)%Q
  /\ round2 (binary64 (125 # 100000) * 100) = 13 # 100.
Proof. vm_compute. repeat split. Qed.

(** C4, the claim as it is worded, at a classifier whose label is class 0
    while class 1 is the more probable one: the probabilities lie in
    [0, 1], the answer is "No GDM Risk", and the confidence is 75, the
    largest probability times 100, where the probability of the predicted
    class times 100 is 25. *)
Lemma predicted_class_confidence_counterexample :
  (forall X, model_predict contrary_model X = inr [0%Z])
  /\ (forall X, model_predict_proba contrary_model X = inr [[0.25; 0.75]%Q])
  /\ Forall (fun x => 0 <= x <= 1)%Q [0.25; 0.75]%Q
  /\ exists t r,
       predict parse_digits binary64 contrary_service request_full = (t, inr r)
       /\ prediction r = "No GDM Risk"
       /\ confidence r = 7500 # 100
       /\ round2 (binary64 (nth 0%nat [0.25; 0.75]%Q 0%Q * 100)%Q) = 2500 # 100
       /\ ~ (confidence r == 2500 # 100)%Q.
Proof.
  split; [reflexivity|]. split; [reflexivity|].
  split; [repeat constructor; discriminate|].
  do 2 eexists. split; [vm_compute; reflexivity|].
  split; [reflexivity|]. split; [reflexivity|]. split; [reflexivity|].
  discriminate.
Qed.

Lemma confidence_and_probability_bounds_witness :
  let r := result_of (predict parse_digits binary64 service request_full) in
  exists m t0 X labels lbl probas p top,
    model service = Some m
    /\ preprocess_input parse_digits service request_full = (t0, inr X)
    /\ model_predict m X = inr labels /\ first labels = inr lbl
    /\ model_predict_proba m X = inr probas /\ first probas = inr p
    /\ In top p /\ (forall x, In x p -> (x <= top)%Q)
    /\ confidence r = round2 (binary64 (top * 100)%Q)
    /\ gdm_probability r
       = round2 (if (1 <? length p)%nat
                 then binary64 (nth 1%nat p 0 * 100)%Q else 0%Q)
    /\ (0 <= confidence r <= 100)%Q
    /\ (0 <= gdm_probability r <= 100)%Q
    /\ (exists k : Z, confidence r = k # 100)
    /\ (exists k : Z, gdm_probability r = k # 100)
    /\ (binary64 (top * 100) * 100 - (1 # 2) <= confidence r * 100
        <= binary64 (top * 100) * 100 + (1 # 2))%Q
    /\ ((1 < length p)%nat ->
        (binary64 (nth 1%nat p 0 * 100) * 100 - (1 # 2)
         <= gdm_probability r * 100
         <= binary64 (nth 1%nat p 0 * 100) * 100 + (1 # 2))%Q)
    /\ (length p = 1%nat -> (gdm_probability r == 0)%Q)
    /\ (nth (Z.to_nat lbl) p 0%Q = top ->
        confidence r = round2 (binary64 (nth (Z.to_nat lbl) p 0 * 100)%Q)).
Proof.
  apply (confidence_and_probability_bounds parse_digits binary64 service
           request_full (fst (predict parse_digits binary64 service request_full))).
  - intros x Hx. apply float_nearest_range; [lia | lia | exact Hx].
  - exact toy_model_probabilities.
  - vm_compute. reflexivity.
Defined.

Lemma predict_without_model_witness :
  predict parse_digits binary64 scaled_only request_full = ([], inl not_loaded)
  /\ str not_loaded
     = "Model is not loaded, maybe model.pkl does not exist in your dir"
  /\ (forall self' d', fst (preprocess_input parse_digits self' d') <> [])
  /\ (forall t r, predict parse_digits binary64 scaled_only request_full <> (t, inr r)).
Proof.
  apply (predict_without_model parse_digits binary64 scaled_only request_full).
  reflexivity.
Defined.

(** C6, the claim as it is worded, at a predictor with a loaded scaler: the
    key "height" is absent from the request and the value under
    "oneHourGlucose" is not a number, yet the frame that [preprocess_input]
    returns holds -1 in both columns, because the zeros were scaled. *)
Lemma missing_field_scaled_counterexample :
  dict_get "height" request_sparse = None
  /\ dict_get "oneHourGlucose" request_sparse = Some (VStr "n/a")
  /\ unparseable parse_digits (VStr "n/a")
  /\ exists t df,
       preprocess_input parse_digits service request_sparse = (t, inr df)
       /\ dict_get "height" df = Some (VNum (-1))
       /\ dict_get "oneHourGlucose" df = Some (VNum (-1))
       /\ ~ (-1 == 0)%Q.
Proof.
  split; [reflexivity|]. split; [reflexivity|]. split; [reflexivity|].
  do 2 eexists. split; [vm_compute; reflexivity|].
  split; [reflexivity|]. split; [reflexivity|]. discriminate.
Qed.

Lemma missing_or_unparseable_is_zero_witness :
  ((exists df, aligned_frame parse_digits request_sparse = inr df
               /\ dict_get "oneHourGlucose" df = Some (VNum 0))
   /\ (exists t df,
         preprocess_input parse_digits unscaled_service request_sparse = (t, inr df))
   /\ (scaler unscaled_service = None ->
       exists t df,
         preprocess_input parse_digits unscaled_service request_sparse = (t, inr df)
         /\ dict_get "oneHourGlucose" df = Some (VNum 0))
   /\ (forall s, scaler unscaled_service = Some s ->
       exists X df',
         transform_calls (fst (preprocess_input parse_digits unscaled_service request_sparse))
         = [X]
         /\ keys X = (if fitted_on_all_features s
                      then feature_columns else numerical_columns)
         /\ ("oneHourGlucose" ∈ keys X ->
             dict_get "oneHourGlucose" X = Some (VNum 0))
         /\ snd (preprocess_input parse_digits unscaled_service request_sparse) = inr df'
         /\ dict_get "oneHourGlucose" df'
            = match transform s X with
              | inr arr =>
                  if (length arr =? length (keys X))%nat
                  then match dict_get "oneHourGlucose" (combine (keys X) arr) with
                       | Some x => Some (VNum x)
                       | None => Some (VNum 0)
                       end
                  else Some (VNum 0)
              | inl _ => Some (VNum 0)
              end))
  /\ ((exists df, aligned_frame parse_digits request_sparse = inr df
               /\ dict_get "oneHourGlucose" df = Some (VNum 0))
   /\ (exists t df,
         preprocess_input parse_digits service request_sparse = (t, inr df))
   /\ (scaler service = None ->
       exists t df,
         preprocess_input parse_digits service request_sparse = (t, inr df)
         /\ dict_get "oneHourGlucose" df = Some (VNum 0))
   /\ (forall s, scaler service = Some s ->
       exists X df',
         transform_calls (fst (preprocess_input parse_digits service request_sparse))
         = [X]
         /\ keys X = (if fitted_on_all_features s
                      then feature_columns else numerical_columns)
         /\ ("oneHourGlucose" ∈ keys X ->
             dict_get "oneHourGlucose" X = Some (VNum 0))
         /\ snd (preprocess_input parse_digits service request_sparse) = inr df'
         /\ dict_get "oneHourGlucose" df'
            = match transform s X with
              | inr arr =>
                  if (length arr =? length (keys X))%nat
                  then match dict_get "oneHourGlucose" (combine (keys X) arr) with
                       | Some x => Some (VNum x)
                       | None => Some (VNum 0)
                       end
                  else Some (VNum 0)
              | inl _ => Some (VNum 0)
              end)).
Proof.
  split.
  - apply (missing_or_unparseable_is_zero parse_digits unscaled_service
             request_sparse "oneHourGlucose").
    + exact categorical_scalars_sparse.
    + in_list.
    + right. split; [in_list|]. exists (VStr "n/a"). split; reflexivity.
  - apply (missing_or_unparseable_is_zero parse_digits service
             request_sparse "oneHourGlucose").
    + exact categorical_scalars_sparse.
    + in_list.
    + right. split; [in_list|]. exists (VStr "n/a"). split; reflexivity.
Defined.

Lemma scaler_applied_by_feature_count_witness :
  keys aligned_full = feature_columns
  /\ match scaler numeric_scaled_service with
     | None =>
         preprocess_input parse_digits numeric_scaled_service request_full
         = ([LogInfo "No pre-trained scaler available, skipping scaling"],
            inr aligned_full)
         /\ (forall m, model numeric_scaled_service = Some m ->
             exists t', fst (predict parse_digits binary64 numeric_scaled_service request_full)
                        = [LogInfo "No pre-trained scaler available, skipping scaling"]
                          ++ CallPredict aligned_full :: t')
     | Some s =>
         (recorded_feature_count s = Some 14%nat ->
            transform_calls
              (fst (preprocess_input parse_digits numeric_scaled_service request_full))
            = [aligned_full]
            /\ forall arr, transform s aligned_full = inr arr ->
                 length arr = 14%nat ->
                 snd (preprocess_input parse_digits numeric_scaled_service request_full)
                 = inr (combine feature_columns (map VNum arr)))
         /\ (recorded_feature_count s <> Some 14%nat ->
            exists X,
              select_columns numerical_columns aligned_full = inr X
              /\ keys X = numerical_columns
              /\ transform_calls
                   (fst (preprocess_input parse_digits numeric_scaled_service
                           request_full))
                 = [X]
              /\ forall arr, transform s X = inr arr -> length arr = 11%nat ->
                   exists df',
                     snd (preprocess_input parse_digits numeric_scaled_service
                            request_full) = inr df'
                     /\ keys df' = feature_columns
                     /\ forall c,
                          dict_get c df'
                          = match dict_get c (combine numerical_columns arr) with
                            | Some x => Some (VNum x)
                            | None => dict_get c aligned_full
                            end)
     end.
Proof.
  apply (scaler_applied_by_feature_count parse_digits binary64 numeric_scaled_service
           request_full aligned_full).
  vm_compute. reflexivity.
Defined.



Lemma well_formed_sheets :
  Shaper.well_formed gdm_sheet /\ Shaper.well_formed ngdm_sheet.
Proof. split; repeat constructor. Defined.

Lemma combined_rows_and_labels_witness :
  exists out,
    Shaper.files (fst (Shaper.process_gdm_data "GDM_UOS.xlsx" "GDM_UOS_NoC.csv" disk))
      !! "GDM_UOS_NoC.csv" = Some (Shaper.Csv out)
    /\ length (Shaper.rows out)
       = (length (Shaper.rows gdm_sheet) + length (Shaper.rows ngdm_sheet))%nat
    /\ "GDM" ∈ Shaper.columns out
    /\ (forall i r, nth_error (Shaper.rows ngdm_sheet) i = Some r ->
        exists r', nth_error (Shaper.rows out) i = Some r'
          /\ Shaper.labelled "GDM" (VNum 0) r'
          /\ forall c, c ∈ Shaper.columns out -> c <> "GDM" ->
               c <> "Type of treatment" ->
               dict_get c r' = dict_get c (Shaper.strip_labels value r))
    /\ (forall i r, nth_error (Shaper.rows gdm_sheet) i = Some r ->
        exists r', nth_error (Shaper.rows out)
                             (length (Shaper.rows ngdm_sheet) + i) = Some r'
          /\ Shaper.labelled "GDM" (VNum 1) r'
          /\ forall c, c ∈ Shaper.columns out -> c <> "GDM" ->
               dict_get c r' = dict_get c (Shaper.strip_labels value r)).
Proof.
  apply (combined_rows_and_labels "GDM_UOS.xlsx" "GDM_UOS_NoC.csv" disk
           (fst (Shaper.process_gdm_data "GDM_UOS.xlsx" "GDM_UOS_NoC.csv" disk))
           workbook gdm_sheet ngdm_sheet).
  - reflexivity.
  - reflexivity.
  - reflexivity.
  - exact (proj1 well_formed_sheets).
  - exact (proj2 well_formed_sheets).
  - vm_compute. reflexivity.
Defined.

(** C9, the claim as it is worded, at a workbook whose sheets have two
    columns that are both named "GDM" once the headers are stripped: the CSV
    is written, the summary that follows raises, and the function returns
    False with the new file on disk. *)
Lemma summary_failure_leaves_csv :
  Shaper.files status_disk !! "GDM_UOS_NoC.csv" = None
  /\ exists w' out,
       Shaper.process_gdm_data "GDM_UOS.xlsx" "GDM_UOS_NoC.csv" status_disk
       = (w', inr false)
       /\ Shaper.files w' !! "GDM_UOS_NoC.csv" = Some (Shaper.Csv out)
       /\ length (Shaper.rows out) = 2%nat.
Proof.
  split; [reflexivity|]. do 2 eexists.
  split; [vm_compute; reflexivity|]. split; reflexivity.
Qed.

Lemma process_gdm_data_failure_policy_witness :
  (exists b w',
     Shaper.process_gdm_data "GDM_UOS.xlsx" "/proc/out.csv" disk = (w', inr b))
  /\ (Shaper.files disk !! "missing.xlsx" = None ->
      Shaper.process_gdm_data "missing.xlsx" "/proc/out.csv" disk
      = (disk, inr false))
  /\ Shaper.process_gdm_data "GDM_UOS.xlsx" "/proc/out.csv" disk
     = (disk, inr false)
  /\ Shaper.process_gdm_data "GDM_UOS.xlsx" "GDM_UOS_NoC.csv" bad_disk
     = (bad_disk, inr false)
  /\ (let run := Shaper.shape_and_save "GDM_UOS.xlsx" "GDM_UOS_NoC.csv" status_disk in
      exists combined,
        snd run = inr combined
        /\ Shaper.process_gdm_data "GDM_UOS.xlsx" "GDM_UOS_NoC.csv" status_disk
           = (fst run, inr false)
        /\ Shaper.files (fst run) !! "GDM_UOS_NoC.csv" = Some (Shaper.Csv combined)).
Proof.
  split; [|split; [|split; [|split]]].
  - apply (process_gdm_data_failure_policy "GDM_UOS.xlsx" "/proc/out.csv" disk).
  - apply (process_gdm_data_failure_policy "missing.xlsx" "/proc/out.csv" disk).
  - apply (proj1 (proj2 (proj2
             (process_gdm_data_failure_policy "GDM_UOS.xlsx" "/proc/out.csv"
                disk)))
             disk (OSError "Permission denied")).
    vm_compute. reflexivity.
  - apply (proj1 (proj2 (proj2
             (process_gdm_data_failure_policy "GDM_UOS.xlsx" "GDM_UOS_NoC.csv"
                bad_disk)))
             bad_disk (KeyError "Patients")).
    vm_compute. reflexivity.
  - cbv zeta. eexists. split; [vm_compute; reflexivity|].
    apply (proj1 (proj2 (proj2 (proj2 (proj2
             (process_gdm_data_failure_policy "GDM_UOS.xlsx" "GDM_UOS_NoC.csv"
                status_disk)))))
             _ _ (ValueError "Grouper for 'GDM' not 1-dimensional")).
    + vm_compute. reflexivity.
    + vm_compute. reflexivity.
Defined.

End Instances.

(** ** The further properties at the sample objects *)

Module MoreInstances.
Import Service Endpoints Examples.

Ltac by_computation := apply (bool_decide_unpack _); vm_compute; exact I.

Lemma sparse_scalars : categorical_scalars request_sparse.
Proof.
  intros c v Hc Hv. cbn in Hc.
  repeat (apply elem_of_cons in Hc as [->|Hc];
          [vm_compute in Hv; first [discriminate | injection Hv as <-; reflexivity]|]).
  inversion Hc.
Defined.

Lemma unknown_keys_are_ignored_witness :
  preprocess_input parse_digits service
    (dict_set "comment" (VStr "walk-in") request_full)
  = preprocess_input parse_digits service request_full
  /\ predict parse_digits binary64 service
       (dict_set "comment" (VStr "walk-in") request_full)
     = predict parse_digits binary64 service request_full.
Proof.
  apply (unknown_keys_are_ignored parse_digits binary64 service request_full
           "comment" (VStr "walk-in")).
  by_computation.
Defined.

Lemma aligned_cells_are_numbers_witness :
  (exists q, VNum 120 = VNum q)
  \/ (exists b, VNum 120 = VBool b /\ "bpSystolic" ∈ numerical_columns
                /\ dict_get "bpSystolic" request_sparse = Some (VBool b)).
Proof.
  apply (aligned_cells_are_numbers parse_digits request_sparse aligned_sparse
           "bpSystolic" (VNum 120)).
  - vm_compute. reflexivity.
  - reflexivity.
Defined.

Lemma category_codes_in_range_witness :
  exists n : Z,
    VNum 1 = VNum (inject_Z n)
    /\ ("nationality" = "hypertensiveDisorders" -> (0 <= n <= 1)%Z)
    /\ ("nationality" = "typeOfTreatment" -> (0 <= n <= 2)%Z)
    /\ ("nationality" = "nationality" -> (0 <= n <= 17)%Z).
Proof.
  apply (category_codes_in_range parse_digits request_sparse aligned_sparse
           "nationality" (VNum 1)).
  - vm_compute. reflexivity.
  - by_computation.
  - reflexivity.
Defined.

Lemma failed_scaling_is_skipped_witness :
  snd (preprocess_input parse_digits broken_scaler_service request_full)
  = inr aligned_full
  /\ exists X msg,
       fst (preprocess_input parse_digits broken_scaler_service request_full)
       = [CallTransform X;
          LogWarning ("Could not apply pre-trained scaler: " +:+ msg
                      +:+ ". Skipping scaling.")].
Proof.
  apply (failed_scaling_is_skipped parse_digits broken_scaler_service
           broken_scaler request_full aligned_full).
  - vm_compute. reflexivity.
  - reflexivity.
  - intros X arr H. discriminate.
Defined.

Lemma predict_raises_only_value_errors_witness :
  (exists msg,
     ValueError "Prediction failed: Data preprocessing failed: unhashable type: 'list'"
     = ValueError msg)
  /\ (model service = None ->
      fst (predict parse_digits binary64 service request_array) = []
      /\ ValueError "Prediction failed: Data preprocessing failed: unhashable type: 'list'"
         = not_loaded)
  /\ (model service <> None ->
      exists t0 cause,
        fst (predict parse_digits binary64 service request_array)
        = t0 ++ [LogError ("Prediction error: " +:+ str cause)]
        /\ ValueError "Prediction failed: Data preprocessing failed: unhashable type: 'list'"
           = ValueError ("Prediction failed: " +:+ str cause)).
Proof.
  apply (predict_raises_only_value_errors parse_digits binary64 service request_array).
  vm_compute. reflexivity.
Defined.

Lemma importances_must_cover_the_columns_witness :
  sendFI short_model = inl (ValueError "All arrays must be of the same length")
  /\ exists t msg,
       predict parse_digits binary64 short_service request_full = (t, inl (ValueError msg)).
Proof.
  apply (importances_must_cover_the_columns parse_digits binary64 short_service
           short_model request_full).
  - reflexivity.
  - vm_compute. discriminate.
Defined.

Lemma predict_answers_witness :
  exists t r,
    predict parse_digits binary64 service request_sparse = (t, inr r)
    /\ (prediction r = "GDM Risk" \/ prediction r = "No GDM Risk")
    /\ length (factors r) = 5%nat
    /\ NoDup (factors r)
    /\ (forall f, f ∈ factors r -> f ∈ feature_columns)
    /\ model_version r = "1.0".
Proof.
  apply (predict_answers parse_digits binary64 service toy_model request_sparse).
  - reflexivity.
  - exact sparse_scalars.
  - intros X _. do 2 eexists. reflexivity.
  - intros X _. do 3 eexists. reflexivity.
  - reflexivity.
Defined.

Lemma numeric_text_is_its_number_witness :
  preprocess_input parse_digits service
    (dict_set "bpSystolic" (VStr "120") request_sparse)
  = preprocess_input parse_digits service
      (dict_set "bpSystolic" (VNum 120) request_sparse)
  /\ predict parse_digits binary64 service
       (dict_set "bpSystolic" (VStr "120") request_sparse)
     = predict parse_digits binary64 service
         (dict_set "bpSystolic" (VNum 120) request_sparse).
Proof.
  apply (numeric_text_is_its_number parse_digits binary64 service request_sparse
           "bpSystolic" "120" 120).
  - exact sparse_scalars.
  - by_computation.
  - vm_compute. reflexivity.
Defined.

Lemma predict_gdm_serves_predict_witness :
  predict_gdm parse_digits binary64 two_decimals app (Parsed (VDict body_full)) 12
  = match predict parse_digits binary64 (predictor app) request_full with
    | (t, inr r) =>
        (t ++ [LogInfo ("Prediction made: " +:+ prediction r
                        +:+ " with " +:+ two_decimals (confidence r)
                        +:+ "% confidence")],
         {| status := 200; body := result_json r 12 |})
    | (t, inl e) =>
        (t ++ [LogError ("Validation error: " +:+ str e)],
         error_response (str e) 400)
    end.
Proof.
  apply (predict_gdm_serves_predict parse_digits binary64 two_decimals app body_full
           request_full 12).
  - reflexivity.
  - discriminate.
Defined.

Lemma server_error_only_for_malformed_bodies_witness :
  let resp :=
    snd (predict_gdm parse_digits binary64 two_decimals app (Parsed (VList [VNum 1])) 12) in
  (status resp = 200 \/ status resp = 400 \/ status resp = 500)%Z
  /\ (status resp = 500%Z <-> truthy (VList [VNum 1]) = true)
  /\ (status resp = 200%Z -> model (predictor app) <> None)
  /\ (status resp <> 200%Z ->
      exists msg, body resp = {[ "error" := VStr msg ]}
                  /\ (status resp = 500%Z -> msg = "Internal server error occurred")).
Proof.
  exact (server_error_only_for_malformed_bodies parse_digits binary64 two_decimals app
           (Parsed (VList [VNum 1])) 12).
Defined.

Lemma success_body_witness :
  let resp :=
    snd (predict_gdm parse_digits binary64 two_decimals app (Parsed (VDict body_full)) 12) in
  dom (body resp)
  = list_to_set [ "prediction"; "confidence"; "gdm_probability"; "factors";
                  "model_version"; "apiResponseTime" ]
  /\ body resp !! "apiResponseTime" = Some (VNum (inject_Z 12))
  /\ body resp !! "model_version" = Some (VStr "1.0")
  /\ (body resp !! "prediction" = Some (VStr "GDM Risk")
      \/ body resp !! "prediction" = Some (VStr "No GDM Risk"))
  /\ (exists c p, body resp !! "confidence" = Some (VNum c)
                  /\ body resp !! "gdm_probability" = Some (VNum p))
  /\ exists fs, body resp !! "factors" = Some (VList (map VStr fs))
                /\ length fs = 5%nat /\ NoDup fs
                /\ forall f, f ∈ fs -> f ∈ feature_columns.
Proof.
  apply (success_body parse_digits binary64 two_decimals app (Parsed (VDict body_full)) 12).
  vm_compute. reflexivity.
Defined.

Lemma service_without_model_witness :
  let app := snd (init corrupt_model "/python-scripts/model.pkl"
                       "/python-scripts/scaler.pkl") in
  predict_gdm parse_digits binary64 two_decimals app (Parsed (VDict body_full)) 12
  = ([LogError ("Validation error: " +:+ str not_loaded)],
     error_response (str not_loaded) 400)
  /\ body (home app) !! "model_loaded" = Some (VBool false)
  /\ body (model_status app) !! "model_loaded" = Some (VBool false)
  /\ body (health_check app "2024-05-01T09:30:00") !! "model_status"
     = Some (VStr "not_loaded")
  /\ body (health_check app "2024-05-01T09:30:00") !! "status"
     = Some (VStr "healthy")
  /\ status (health_check app "2024-05-01T09:30:00") = 200%Z.
Proof.
  apply (service_without_model parse_digits binary64 two_decimals corrupt_model
           "/python-scripts/model.pkl" "/python-scripts/scaler.pkl"
           body_full (VDict request_full) 12 "2024-05-01T09:30:00").
  - intros m H. vm_compute in H. discriminate.
  - reflexivity.
  - reflexivity.
Defined.

Lemma service_without_scaler_witness :
  let app := snd (init no_scaler "/python-scripts/model.pkl"
                       "/python-scripts/scaler.pkl") in
  model (predictor app) = Some toy_model
  /\ preprocess_input parse_digits (predictor app) request_full
     = ([LogInfo "No pre-trained scaler available, skipping scaling"],
        inr aligned_full)
  /\ exists t', fst (predict parse_digits binary64 (predictor app) request_full)
                = LogInfo "No pre-trained scaler available, skipping scaling"
                  :: CallPredict aligned_full :: t'.
Proof.
  apply (service_without_scaler parse_digits binary64 no_scaler
           "/python-scripts/model.pkl" "/python-scripts/scaler.pkl"
           toy_model request_full aligned_full).
  - vm_compute. reflexivity.
  - intros s H. vm_compute in H. discriminate.
  - vm_compute. reflexivity.
Defined.

Lemma keyless_patient_data_is_the_empty_record_witness :
  aligned_frame_json parse_digits (VList [VNum 1; VStr "height "])
  = inr (map (fun c => (c, VNum 0)) feature_columns)
  /\ predict_json parse_digits binary64 service (VList [VNum 1; VStr "height "])
     = predict parse_digits binary64 service [].
Proof.
  apply (keyless_patient_data_is_the_empty_record parse_digits binary64 service
           (VList [VNum 1; VStr "height "])).
  intros k Hk. unfold feature_columns in Hk.
  repeat (apply elem_of_cons in Hk as [->|Hk]; [reflexivity|]).
  inversion Hk.
Defined.

Lemma preprocessing_failure_is_logged_three_times_witness :
  let msg := "Data preprocessing failed: "
             +:+ str (TypeError "unhashable type: 'list'") in
  predict_gdm parse_digits binary64 two_decimals app (Parsed (VDict body_array_field)) 12
  = ([LogError ("Error preprocessing data: "
                +:+ str (TypeError "unhashable type: 'list'"));
      LogError ("Prediction error: " +:+ msg);
      LogError ("Validation error: " +:+ ("Prediction failed: " +:+ msg))],
     error_response ("Prediction failed: " +:+ msg) 400).
Proof.
  apply (preprocessing_failure_is_logged_three_times parse_digits binary64 two_decimals
           app body_array_field (VDict request_array)
           (TypeError "unhashable type: 'list'") 12).
  - vm_compute. discriminate.
  - reflexivity.
  - reflexivity.
  - vm_compute. reflexivity.
Defined.

Lemma scalar_patient_data_is_rejected_witness :
  status (snd (predict_gdm parse_digits binary64 two_decimals app
                 (Parsed (VDict body_number)) 12)) = 400%Z
  /\ length (fst (predict_gdm parse_digits binary64 two_decimals app
                    (Parsed (VDict body_number)) 12)) = 3%nat.
Proof.
  apply (scalar_patient_data_is_rejected parse_digits binary64 two_decimals app
           body_number (VNum 7) 12).
  - vm_compute. discriminate.
  - reflexivity.
  - reflexivity.
  - exact I.
Defined.

Lemma status_endpoints_report_the_model_witness :
  let app := snd (init pickles "/python-scripts/model.pkl"
                       "/python-scripts/scaler.pkl") in
  let loaded :=
    exists m, model_pickles pickles !! "/python-scripts/model.pkl" = Some (inr m) in
  (body (home app) !! "model_loaded" = Some (VBool true) <-> loaded)
  /\ (body (model_status app) !! "model_loaded" = Some (VBool true) <-> loaded)
  /\ (body (health_check app "2024-05-01T09:30:00") !! "model_status"
      = Some (VStr "loaded") <-> loaded)
  /\ body (model_status app) !! "model_path"
     = Some (VStr "/python-scripts/model.pkl")
  /\ body (model_status app) !! "feature_columns"
     = Some (VList (map VStr feature_columns))
  /\ status (home app) = 200%Z
  /\ status (model_status app) = 200%Z
  /\ status (health_check app "2024-05-01T09:30:00") = 200%Z.
Proof.
  exact (status_endpoints_report_the_model pickles "/python-scripts/model.pkl"
           "/python-scripts/scaler.pkl" "2024-05-01T09:30:00").
Defined.

(** *** White space beyond ASCII *)

Example strip_unicode :
  Shaper.strip ("Patients" +:+ nbsp) = "Patients"
  /\ Shaper.strip (em_space +:+ " Age" +:+ nbsp +:+ " ") = "Age"
  /\ Shaper.strip ("Mode of" +:+ nbsp +:+ "Delivery") = "Mode of" +:+ nbsp +:+ "Delivery"
  /\ Shaper.strip (nbsp +:+ em_space) = "".
Proof. vm_compute. repeat split. Qed.

(** A no-break space after the second "Patients" is stripped like a blank:
    the second [drop] raises and the run fails. *)
Example no_break_space_header_fails :
  Shaper.process_gdm_data "GDM_UOS.xlsx" "GDM_UOS_NoC.csv" nbsp_disk
  = (nbsp_disk, inr false).
Proof. vm_compute. reflexivity. Qed.

(** The treatment column of the NGDM sheet is found under its stripped
    label, so its cells are kept. *)
Example treatment_column_is_kept :
  Shaper.files
    (fst (Shaper.process_gdm_data "GDM_UOS.xlsx" "GDM_UOS_NoC.csv" treated_disk))
    !! "GDM_UOS_NoC.csv"
  = Some (Shaper.Csv
      {| Shaper.columns := ["Age"; "Type of treatment"; "GDM"];
         Shaper.rows :=
           [ [("Age", VNum 28); ("Type of treatment", VStr "Diet"); ("GDM", VNum 0)];
             [("Age", VNum 30); ("Type of treatment", VStr "Metformin");
              ("GDM", VNum 1)] ] |}).
Proof. vm_compute. reflexivity. Qed.

Lemma sheets_well_formed :
  Shaper.well_formed gdm_sheet /\ Shaper.well_formed ngdm_sheet.
Proof. split; repeat constructor. Defined.

Lemma only_the_output_path_is_written_witness :
  let w' := fst (Shaper.process_gdm_data "GDM_UOS.xlsx" "GDM_UOS_NoC.csv" disk) in
  Shaper.unwritable w' = Shaper.unwritable disk
  /\ (forall p, p <> "GDM_UOS_NoC.csv" ->
                Shaper.files w' !! p = Shaper.files disk !! p)
  /\ (true = true ->
      exists out, Shaper.files w' !! "GDM_UOS_NoC.csv" = Some (Shaper.Csv out))
  /\ (w' <> disk ->
      is_Some (Shaper.files disk !! "GDM_UOS.xlsx")
      /\ "GDM_UOS_NoC.csv" ∉ Shaper.unwritable disk).
Proof.
  apply (only_the_output_path_is_written "GDM_UOS.xlsx" "GDM_UOS_NoC.csv" disk
           (fst (Shaper.process_gdm_data "GDM_UOS.xlsx" "GDM_UOS_NoC.csv" disk))
           true).
  vm_compute. reflexivity.
Defined.

Lemma output_header_witness :
  exists out,
    Shaper.files
      (fst (Shaper.process_gdm_data "GDM_UOS.xlsx" "GDM_UOS_NoC.csv" disk))
      !! "GDM_UOS_NoC.csv" = Some (Shaper.Csv out)
    /\ forall c,
         c ∈ Shaper.columns out <->
         c = "GDM"
         \/ (Shaper.named c = true
             /\ (forall col, col ∈ Shaper.columns_to_remove ->
                             String.eqb (Shaper.strip c) (Shaper.strip col) = false))
            /\ c ∈ map Shaper.strip (Shaper.columns gdm_sheet)
            /\ (c ∈ map Shaper.strip (Shaper.columns ngdm_sheet)
                \/ c = "Type of treatment").
Proof.
  apply (output_header "GDM_UOS.xlsx" "GDM_UOS_NoC.csv" disk
           (fst (Shaper.process_gdm_data "GDM_UOS.xlsx" "GDM_UOS_NoC.csv" disk))
           workbook gdm_sheet ngdm_sheet).
  - reflexivity.
  - reflexivity.
  - reflexivity.
  - vm_compute. reflexivity.
Defined.

Lemma output_is_rectangular_witness :
  exists out,
    Shaper.files
      (fst (Shaper.process_gdm_data "GDM_UOS.xlsx" "GDM_UOS_NoC.csv" disk))
      !! "GDM_UOS_NoC.csv" = Some (Shaper.Csv out)
    /\ Shaper.well_formed out
    /\ List.filter (fun c => String.eqb c "GDM") (Shaper.columns out) = ["GDM"].
Proof.
  apply (output_is_rectangular "GDM_UOS.xlsx" "GDM_UOS_NoC.csv" disk
           (fst (Shaper.process_gdm_data "GDM_UOS.xlsx" "GDM_UOS_NoC.csv" disk))
           workbook gdm_sheet ngdm_sheet).
  - reflexivity.
  - reflexivity.
  - reflexivity.
  - exact (proj1 sheets_well_formed).
  - exact (proj2 sheets_well_formed).
  - vm_compute. reflexivity.
Defined.

Lemma process_gdm_data_succeeds_witness :
  exists out,
    Shaper.process_gdm_data "GDM_UOS.xlsx" "GDM_UOS_NoC.csv" disk
    = ({| Shaper.files :=
            <["GDM_UOS_NoC.csv" := Shaper.Csv out]> (Shaper.files disk);
          Shaper.unwritable := Shaper.unwritable disk |}, inr true)
    /\ NoDup (Shaper.columns out).
Proof.
  apply (process_gdm_data_succeeds "GDM_UOS.xlsx" "GDM_UOS_NoC.csv" disk
           workbook gdm_sheet ngdm_sheet).
  - reflexivity.
  - reflexivity.
  - reflexivity.
  - by_computation.
  - by_computation.
  - by_computation.
Defined.

Lemma ngdm_rows_have_no_treatment_witness :
  exists out,
    Shaper.files
      (fst (Shaper.process_gdm_data "GDM_UOS.xlsx" "GDM_UOS_NoC.csv" disk))
      !! "GDM_UOS_NoC.csv" = Some (Shaper.Csv out)
    /\ forall i r',
         (i < length (Shaper.rows ngdm_sheet))%nat ->
         nth_error (Shaper.rows out) i = Some r' ->
         "Type of treatment" ∈ Shaper.columns out ->
         dict_get "Type of treatment" r' = Some (VStr "No Treatment").
Proof.
  apply (ngdm_rows_have_no_treatment "GDM_UOS.xlsx" "GDM_UOS_NoC.csv" disk
           (fst (Shaper.process_gdm_data "GDM_UOS.xlsx" "GDM_UOS_NoC.csv" disk))
           workbook gdm_sheet ngdm_sheet).
  - reflexivity.
  - reflexivity.
  - reflexivity.
  - exact (proj2 sheets_well_formed).
  - by_computation.
  - vm_compute. reflexivity.
Defined.

Lemma repeated_removed_column_fails_witness :
  Shaper.process_gdm_data "GDM_UOS.xlsx" "GDM_UOS_NoC.csv" bad_disk
  = (bad_disk, inr false).
Proof.
  apply (repeated_removed_column_fails "GDM_UOS.xlsx" "GDM_UOS_NoC.csv" bad_disk
           [ ("GDM", doubled_sheet); ("NGDM", ngdm_sheet) ]
           doubled_sheet ngdm_sheet "Patients").
  - reflexivity.
  - reflexivity.
  - reflexivity.
  - by_computation.
  - left. vm_compute. lia.
Defined.

End MoreInstances.
